(** * Static costmap layer and DWA local planner: a shallow embedding

    The development follows four source files:
    - [costmap_2d/plugins/static_layer.cpp]      (module [StaticLayer]),
    - [dwa_local_planner/src/dwa_planner.cpp]    (module [DWAPlanner]),
    - [dwa_local_planner/src/dwa_planner_ros.cpp] (module [DWAPlannerROS]),
    - [dwa_local_planner/include/dwa_local_planner/dwa_planner.h].

    Conventions.
    - [unsigned char] and [unsigned int] values are integers of [Z]; the
      conversions the C++ code performs implicitly are written out
      ([to_uchar], [to_uint]).
    - An access outside a buffer and a read outside a [std::vector] are
      undefined in C++; the operations that can perform one return [option],
      with [None] standing for "behaviour undefined".
    - [double] quantities that are only compared, halved or passed around are
      rationals of [Q].  The one place where the code rounds a [double]
      ([interpretValue]) is modelled with binary64 floats ([PrimFloat]). *)

From Stdlib Require Import ZArith QArith Qabs Qround Lia Bool.
From Stdlib Require Import Floats.PrimFloat Floats.FloatOps Floats.SpecFloat.
From Stdlib Require Import Numbers.Cyclic.Int63.Uint63.
From stdpp Require Import base option list.

Local Open Scope Z_scope.

(** ** Machine integers *)

(** Conversion to [unsigned char]. *)
Definition to_uchar (z : Z) : Z := z mod 256.

(** Conversion to [unsigned int] (32 bits). *)
Definition to_uint (z : Z) : Z := z mod 2 ^ 32.

(** A value an [unsigned char] can hold. *)
Definition octet (z : Z) : Prop := 0 <= z <= 255.

(** ** Loops *)

(** [for_range n i body s] runs [body i], [body (i+1)], ... ([n] rounds) and
    stops with [None] as soon as a round is undefined. *)
Fixpoint for_range {S : Type} (n : nat) (i : Z) (body : Z -> S -> option S) (s : S)
  : option S :=
  match n with
  | O => Some s
  | Datatypes.S n' =>
      match body i s with
      | Some s' => for_range n' (i + 1) body s'
      | None => None
      end
  end.

(** [for (T i = lo; i < hi; ++i) body], for [lo] and [hi] already converted to
    the type [T] of the loop variable. *)
Definition for_loop {S : Type} (lo hi : Z) (body : Z -> S -> option S) (s : S)
  : option S :=
  for_range (Z.to_nat (hi - lo)) lo body s.

(** ** Doubles *)

(** [a < b] on rationals, as a boolean. *)
Definition Qlt_bool (a b : Q) : bool := negb (Qle_bool b a).

(** [std::min(a, b)]: [b] when [b < a], else [a]. *)
Definition std_min (a b : Q) : Q := if Qlt_bool b a then b else a.

(** [std::max(a, b)]: [b] when [a < b], else [a]. *)
Definition std_max (a b : Q) : Q := if Qlt_bool a b then b else a.

(** The [double] nearest to a small non-negative integer (exact below 2^53). *)
Definition double_of_Z (z : Z) : float := PrimFloat.of_uint63 (Uint63.of_Z z).

(** The integer part of a [double] (rounding toward zero), as the conversion
    from [double] to an integer type computes it; 0 on infinities and NaN. *)
Definition trunc_double (f : float) : Z :=
  match Prim2SF f with
  | S754_finite s m e =>
      let a := match e with
               | Z0 => Zpos m
               | Zpos p => Zpos m * 2 ^ Zpos p
               | Zneg p => Zpos m / 2 ^ Zpos p
               end in
      if s then - a else a
  | _ => 0
  end.

(** ** Cost values *)

(** Modelled from the spec: [costmap_2d/cost_values.h] is not among the
    sources; section 3 gives NO_INFO = 255. *)
Definition NO_INFORMATION : Z := 255.

(** Modelled from the spec: section 3 gives LETHAL = 254. *)
Definition LETHAL_OBSTACLE : Z := 254.

(** Modelled from the spec: section 3 gives INSCRIBED = 253. *)
Definition INSCRIBED_INFLATED_OBSTACLE : Z := 253.

(** Modelled from the spec: section 3 gives FREE = 0. *)
Definition FREE_SPACE : Z := 0.

(** ** The grid *)

Module Costmap2D.

(** Modelled from the spec: the class [Costmap2D] is not among the sources.
    Section 3: a rectangular grid with [size_x], [size_y], [resolution], a
    world origin and a dense cell buffer, row-major ([cells[row*width+col]],
    section 6).  [default_value_] is what a fresh buffer is filled with; the
    spec does not fix it. *)
Record t : Type := mk {
  size_x_ : Z;
  size_y_ : Z;
  resolution_ : Q;
  origin_x_ : Q;
  origin_y_ : Q;
  default_value_ : Z;
  costmap_ : list Z
}.

Definition set_costmap (c : t) (cells : list Z) : t :=
  mk (size_x_ c) (size_y_ c) (resolution_ c) (origin_x_ c) (origin_y_ c)
     (default_value_ c) cells.

(** Modelled from the spec: row-major index of cell [(mx, my)]. *)
Definition getIndex (c : t) (mx my : Z) : Z := my * size_x_ c + mx.

(** Modelled from the spec: [get_cost]; undefined outside the buffer. *)
Definition getCost (c : t) (mx my : Z) : option Z :=
  let k := getIndex c mx my in
  if decide (0 <= k) then costmap_ c !! Z.to_nat k else None.

(** Modelled from the spec: [set_cost]; the cost is an [unsigned char]
    parameter; undefined outside the buffer. *)
Definition setCost (c : t) (mx my : Z) (cost : Z) : option t :=
  let k := getIndex c mx my in
  if decide (0 <= k < Z.of_nat (length (costmap_ c)))
  then Some (set_costmap c (<[Z.to_nat k := to_uchar cost]> (costmap_ c)))
  else None.

(** Modelled from the spec: resizing gives the grid a new shape, resolution
    and origin, and a fresh buffer of [size_x * size_y] cells. *)
Definition resizeMap (c : t) (size_x size_y : Z) (resolution origin_x origin_y : Q) : t :=
  mk size_x size_y resolution origin_x origin_y (default_value_ c)
     (replicate (Z.to_nat (size_x * size_y)) (default_value_ c)).

(** Section 3, invariant 1: the buffer has [size_x * size_y] cells. *)
Definition shaped (c : t) : Prop :=
  0 <= size_x_ c /\ 0 <= size_y_ c /\
  Z.of_nat (length (costmap_ c)) = size_x_ c * size_y_ c.

(** Every cell holds an [unsigned char]. *)
Definition octets (c : t) : Prop := Forall octet (costmap_ c).

End Costmap2D.

(** ** The layered costmap, as far as the static layer uses it *)

Module LayeredCostmap.

(** Modelled from the spec: the class [LayeredCostmap] is not among the
    sources.  Section 6: it owns the master costmap and answers
    [is_rolling] and [is_size_locked]. *)
Record t : Type := mk {
  costmap : Costmap2D.t;
  rolling : bool;
  size_locked : bool
}.

End LayeredCostmap.

(** ** static_layer.cpp *)

Module StaticLayer.

(** [nav_msgs::OccupancyGrid]: [info.width], [info.height] (32-bit
    unsigned), [info.resolution], [info.origin.position] and [data] (signed
    octets). *)
Record OccupancyGrid : Type := mkOccupancyGrid {
  info_width : Z;
  info_height : Z;
  info_resolution : Q;
  info_origin_x : Q;
  info_origin_y : Q;
  data : list Z
}.

(** [map_msgs::OccupancyGridUpdate]. *)
Record OccupancyGridUpdate : Type := mkOccupancyGridUpdate {
  upd_x : Z;
  upd_y : Z;
  upd_width : Z;
  upd_height : Z;
  upd_data : list Z
}.

(** The members of [StaticLayer] that static_layer.cpp reads and writes
    (the header that declares them is not among the sources; the thresholds
    are [unsigned char], the rectangle members are taken as integers).
    [grid] is the [Costmap2D] the layer inherits (its private grid);
    [(x_, y_, width_, height_)] is the dirty rectangle and
    [has_updated_data_] the dirty flag. *)
Record t : Type := mk {
  grid : Costmap2D.t;
  x_ : Z;
  y_ : Z;
  width_ : Z;
  height_ : Z;
  enabled_ : bool;
  map_received_ : bool;
  has_updated_data_ : bool;
  has_extra_bounds_ : bool;
  track_unknown_space_ : bool;
  use_maximum_ : bool;
  trinary_costmap_ : bool;
  lethal_threshold_ : Z;
  unknown_cost_value_ : Z
}.

(** The layer together with the layered costmap it points to
    ([layered_costmap_]); [incomingMap] changes both. *)
Record World : Type := mkWorld {
  layer : t;
  layered_costmap_ : LayeredCostmap.t
}.

(** The bounds [updateBounds] receives by pointer. *)
Record Bounds : Type := mkBounds {
  min_x : Q;
  min_y : Q;
  max_x : Q;
  max_y : Q
}.

Definition set_grid (sl : t) (g : Costmap2D.t) : t :=
  mk g (x_ sl) (y_ sl) (width_ sl) (height_ sl) (enabled_ sl) (map_received_ sl)
     (has_updated_data_ sl) (has_extra_bounds_ sl) (track_unknown_space_ sl)
     (use_maximum_ sl) (trinary_costmap_ sl) (lethal_threshold_ sl)
     (unknown_cost_value_ sl).

Definition set_dirty (sl : t) (x y w h : Z) (updated : bool) : t :=
  mk (grid sl) x y w h (enabled_ sl) (map_received_ sl)
     updated (has_extra_bounds_ sl) (track_unknown_space_ sl)
     (use_maximum_ sl) (trinary_costmap_ sl) (lethal_threshold_ sl)
     (unknown_cost_value_ sl).

Definition set_map_received (sl : t) (b : bool) : t :=
  mk (grid sl) (x_ sl) (y_ sl) (width_ sl) (height_ sl) (enabled_ sl) b
     (has_updated_data_ sl) (has_extra_bounds_ sl) (track_unknown_space_ sl)
     (use_maximum_ sl) (trinary_costmap_ sl) (lethal_threshold_ sl)
     (unknown_cost_value_ sl).

Definition set_has_updated_data (sl : t) (b : bool) : t :=
  set_dirty sl (x_ sl) (y_ sl) (width_ sl) (height_ sl) b.

(** The thresholds as [onInitialize] stores them: the lethal threshold is
    clamped to [0, 100], the unknown value converted to [unsigned char]. *)
Definition stored_lethal_threshold (temp_lethal_threshold : Z) : Z :=
  Z.max (Z.min temp_lethal_threshold 100) 0.

Definition stored_unknown_cost_value (temp_unknown_cost_value : Z) : Z :=
  to_uchar temp_unknown_cost_value.

(** [StaticLayer::interpretValue].  The last two lines compute
    [scale = (double) value / lethal_threshold_] and return
    [scale * LETHAL_OBSTACLE], converted from [double] to [unsigned char]. *)
Definition interpretValue (sl : t) (value : Z) : Z :=
  if track_unknown_space_ sl && (value =? unknown_cost_value_ sl) then
    NO_INFORMATION
  else if negb (track_unknown_space_ sl) && (value =? unknown_cost_value_ sl) then
    FREE_SPACE
  else if value >=? lethal_threshold_ sl then
    LETHAL_OBSTACLE
  else if trinary_costmap_ sl then
    FREE_SPACE
  else
    let scale := PrimFloat.div (double_of_Z value) (double_of_Z (lethal_threshold_ sl)) in
    to_uchar (trunc_double (PrimFloat.mul scale (double_of_Z LETHAL_OBSTACLE))).

(** Modelled from the spec: [LayeredCostmap::resizeMap] is not among the
    sources.  Section 4.1: the master is resized to match the snapshot;
    section 3, invariant 3: the layer's private grid then agrees with the
    master grid.  The last argument becomes the size-locked flag. *)
Definition layered_resizeMap (w : World) (size_x size_y : Z)
    (resolution origin_x origin_y : Q) (size_locked : bool) : World :=
  let lc := layered_costmap_ w in
  mkWorld
    (set_grid (layer w)
       (Costmap2D.resizeMap (grid (layer w)) size_x size_y resolution origin_x origin_y))
    (LayeredCostmap.mk
       (Costmap2D.resizeMap (LayeredCostmap.costmap lc) size_x size_y
          resolution origin_x origin_y)
       (LayeredCostmap.rolling lc) size_locked).

(** The resize policy at the head of [incomingMap]. *)
Definition incomingMap_resize (w : World) (new_map : OccupancyGrid) : World :=
  let size_x := to_uint (info_width new_map) in
  let size_y := to_uint (info_height new_map) in
  let lc := layered_costmap_ w in
  let master := LayeredCostmap.costmap lc in
  let g := grid (layer w) in
  if negb (LayeredCostmap.rolling lc) &&
     (negb (Costmap2D.size_x_ master =? size_x) ||
      negb (Costmap2D.size_y_ master =? size_y) ||
      negb (Qeq_bool (Costmap2D.resolution_ master) (info_resolution new_map)) ||
      negb (Qeq_bool (Costmap2D.origin_x_ master) (info_origin_x new_map)) ||
      negb (Qeq_bool (Costmap2D.origin_y_ master) (info_origin_y new_map)) ||
      negb (LayeredCostmap.size_locked lc))
  then
    layered_resizeMap w size_x size_y (info_resolution new_map)
      (info_origin_x new_map) (info_origin_y new_map) true
  else if negb (Costmap2D.size_x_ g =? size_x) ||
          negb (Costmap2D.size_y_ g =? size_y) ||
          negb (Qeq_bool (Costmap2D.resolution_ g) (info_resolution new_map)) ||
          negb (Qeq_bool (Costmap2D.origin_x_ g) (info_origin_x new_map)) ||
          negb (Qeq_bool (Costmap2D.origin_y_ g) (info_origin_y new_map))
  then
    mkWorld
      (set_grid (layer w)
         (Costmap2D.resizeMap g size_x size_y (info_resolution new_map)
            (info_origin_x new_map) (info_origin_y new_map)))
      lc
  else w.

(** One round of the inner loop of [incomingMap]: read [data[index]] as an
    [unsigned char], store its interpretation at [(j, i)], step [index]. *)
Definition incomingMap_cell (sl : t) (new_map : OccupancyGrid) (i j : Z)
    (st : Costmap2D.t * Z) : option (Costmap2D.t * Z) :=
  let '(g, index) := st in
  value ← data new_map !! Z.to_nat index;
  g' ← Costmap2D.setCost g j i (interpretValue sl (to_uchar value));
  Some (g', to_uint (index + 1)).

(** [StaticLayer::incomingMap]. *)
Definition incomingMap (w : World) (new_map : OccupancyGrid) : option World :=
  let size_x := to_uint (info_width new_map) in
  let size_y := to_uint (info_height new_map) in
  let w1 := incomingMap_resize w new_map in
  let sl := layer w1 in
  st ← for_loop 0 size_y
          (fun i st => for_loop 0 size_x (incomingMap_cell sl new_map i) st)
          (grid sl, 0);
  let g := fst st in
  Some (mkWorld
          (set_map_received
             (set_dirty (set_grid sl g) 0 0 (Costmap2D.size_x_ g) (Costmap2D.size_y_ g) true)
             true)
          (layered_costmap_ w1)).

(** One round of the inner loop of [incomingUpdate]:
    [setCost(x, y, update->data[di++])]. *)
Definition incomingUpdate_cell (update : OccupancyGridUpdate) (y x : Z)
    (st : Costmap2D.t * Z) : option (Costmap2D.t * Z) :=
  let '(g, di) := st in
  value ← upd_data update !! Z.to_nat di;
  g' ← Costmap2D.setCost g x y value;
  Some (g', to_uint (di + 1)).

(** [StaticLayer::incomingUpdate].  [index_base] is computed in every round
    of the outer loop and never used. *)
Definition incomingUpdate (sl : t) (update : OccupancyGridUpdate) : option t :=
  st ← for_loop 0 (upd_height update)
          (fun y st =>
             let index_base := to_uint ((upd_y update + y) * upd_width update) in
             for_loop 0 (upd_width update) (incomingUpdate_cell update y) st)
          (grid sl, 0);
  Some (set_dirty (set_grid sl (fst st))
          (upd_x update) (upd_y update) (upd_width update) (upd_height update) true).

Section Collaborators.

(** [Costmap2D::mapToWorld] and [Costmap2D::worldToMap] (not among the
    sources; [worldToMap] answers [None] where the C++ returns false) and
    [CostmapLayer::useExtraBounds] (not among the sources either). *)
Variable mapToWorld : Costmap2D.t -> Z -> Z -> Q * Q.
Variable worldToMap : Costmap2D.t -> Q -> Q -> option (Z * Z).
Variable useExtraBounds : t -> Bounds -> t * Bounds.

(** [StaticLayer::updateBounds]. *)
Definition updateBounds (sl : t) (robot_x robot_y robot_yaw : Q) (b : Bounds)
  : t * Bounds :=
  if negb (enabled_ sl) then (sl, b)
  else if negb (map_received_ sl) ||
          negb (has_updated_data_ sl || has_extra_bounds_ sl) then (sl, b)
  else
    let '(sl1, b1) := useExtraBounds sl b in
    let '(wx, wy) := mapToWorld (grid sl1) (x_ sl1) (y_ sl1) in
    let b2 := mkBounds (std_min wx (min_x b1)) (std_min wy (min_y b1))
                (max_x b1) (max_y b1) in
    let '(wx', wy') :=
      mapToWorld (grid sl1) (x_ sl1 + width_ sl1) (y_ sl1 + height_ sl1) in
    let b3 := mkBounds (min_x b2) (min_y b2)
                (std_max wx' (max_x b2)) (std_max wy' (max_y b2)) in
    (set_has_updated_data sl1 false, b3).

(** Modelled from the spec: [CostmapLayer::updateWithTrueOverwrite] and
    [CostmapLayer::updateWithMax] are not among the sources.  Section 4.1:
    the private grid is stamped onto the master rectangle cell by cell,
    either as it is (NO_INFO included) or through [max].  [stamp merge]
    writes [merge incoming current] into every cell of the rectangle. *)
Definition stamp (merge : Z -> Z -> Z) (sl : t) (master_grid : Costmap2D.t)
    (min_i min_j max_i max_j : Z) : option Costmap2D.t :=
  for_loop min_j max_j
    (fun j m =>
       for_loop min_i max_i
         (fun i m =>
            cost ← Costmap2D.getCost (grid sl) i j;
            old_cost ← Costmap2D.getCost m i j;
            Costmap2D.setCost m i j (merge cost old_cost))
         m)
    master_grid.

(** Modelled from the spec: [CostmapLayer::updateWithTrueOverwrite], the
    stamp that writes the incoming cell as it is. *)
Definition updateWithTrueOverwrite := stamp (fun cost _ => cost).

(** Modelled from the spec: [CostmapLayer::updateWithMax], the stamp that
    writes the maximum of the incoming and the current cell. *)
Definition updateWithMax := stamp Z.max.

(** The body of the two loops of the rolling branch of [updateCosts]. *)
Definition updateCosts_cell (sl : t) (lc : LayeredCostmap.t) (i j : Z)
    (master_grid : Costmap2D.t) : option Costmap2D.t :=
  let '(wx, wy) := mapToWorld (LayeredCostmap.costmap lc) i j in
  match worldToMap (grid sl) wx wy with
  | Some (mx, my) =>
      cost ← Costmap2D.getCost (grid sl) mx my;
      if cost =? NO_INFORMATION then Some master_grid
      else if negb (use_maximum_ sl) then Costmap2D.setCost master_grid i j cost
      else
        old_cost ← Costmap2D.getCost master_grid i j;
        if track_unknown_space_ sl then
          if cost =? LETHAL_OBSTACLE then Costmap2D.setCost master_grid i j cost
          else Costmap2D.setCost master_grid i j (Z.max cost old_cost)
        else
          if old_cost =? NO_INFORMATION then Costmap2D.setCost master_grid i j cost
          else Costmap2D.setCost master_grid i j (Z.max cost old_cost)
  | None => Some master_grid
  end.

(** [StaticLayer::updateCosts].  In the rolling branch the loop variables
    are [unsigned int], initialised from and compared with the [int]
    bounds. *)
Definition updateCosts (sl : t) (lc : LayeredCostmap.t) (master_grid : Costmap2D.t)
    (min_i min_j max_i max_j : Z) : option Costmap2D.t :=
  if negb (enabled_ sl) then Some master_grid
  else if negb (map_received_ sl) then Some master_grid
  else if negb (LayeredCostmap.rolling lc) then
    if negb (use_maximum_ sl)
    then updateWithTrueOverwrite sl master_grid min_i min_j max_i max_j
    else updateWithMax sl master_grid min_i min_j max_i max_j
  else
    for_loop (to_uint min_i) (to_uint max_i)
      (fun i m =>
         for_loop (to_uint min_j) (to_uint max_j)
           (fun j m => updateCosts_cell sl lc i j m) m)
      master_grid.

End Collaborators.

(** [interpret] as section 4.1 words its last case: [v / t * LETHAL]
    rounded to the nearest integer and clamped to [0, LETHAL - 1]. *)
Definition interpret_spec (sl : t) (v : Z) : Z :=
  if track_unknown_space_ sl && (v =? unknown_cost_value_ sl) then NO_INFORMATION
  else if negb (track_unknown_space_ sl) && (v =? unknown_cost_value_ sl) then FREE_SPACE
  else if v >=? lethal_threshold_ sl then LETHAL_OBSTACLE
  else if trinary_costmap_ sl then FREE_SPACE
  else
    let q := (inject_Z v / inject_Z (lethal_threshold_ sl) * inject_Z LETHAL_OBSTACLE)%Q in
    Z.max 0 (Z.min (LETHAL_OBSTACLE - 1) (Qfloor (q + (1 # 2))%Q)).

End StaticLayer.

(** ** What the planner takes from base_local_planner, tf and geometry_msgs *)

Module BaseLocalPlanner.

(** A planar pose [(x, y, yaw)]: what the code reads from a
    [tf::Stamped<tf::Pose>] or a [geometry_msgs::PoseStamped]
    ([getOrigin().getX()], [getOrigin().getY()], [tf::getYaw]). *)
Record Pose : Type := mkPose {
  pose_x : Q;
  pose_y : Q;
  pose_yaw : Q
}.

(** [base_local_planner::Trajectory]: the sampled velocities, the cost
    (negative: illegal) and the simulated points. *)
Record Trajectory : Type := mkTrajectory {
  xv_ : Q;
  yv_ : Q;
  thetav_ : Q;
  cost_ : Q;
  points : list Pose
}.

(** The fields of [LocalPlannerLimits] that [isGoalReached] reads. *)
Record LocalPlannerLimits : Type := mkLimits {
  xy_goal_tolerance : Q;
  yaw_goal_tolerance : Q;
  trans_stopped_vel : Q;
  rot_stopped_vel : Q
}.

(** [geometry_msgs::Twist]. *)
Record Twist : Type := mkTwist {
  linear_x : Q;
  linear_y : Q;
  linear_z : Q;
  angular_x : Q;
  angular_y : Q;
  angular_z : Q
}.

(** The functions of [base_local_planner/goal_functions.h] the planner
    calls; their code is not among the sources. *)
Record GoalFunctions : Type := mkGoalFunctions {
  getGoalPositionDistance : Pose -> Q -> Q -> Q;
  getGoalOrientationAngleDifference : Pose -> Q -> Q;
  stopped : Pose -> Q -> Q -> bool
}.

End BaseLocalPlanner.

(** ** dwa_planner.h and dwa_planner.cpp *)

Module DWAPlanner.

(** [enum LocalPlannerState {Default, Arrive, Align, NotMoving, None}];
    the last enumerator is spelled [None_] here. *)
Inductive LocalPlannerState : Type :=
| Default
| Arrive
| Align
| NotMoving
| None_.

Definition LocalPlannerState_eqb (a b : LocalPlannerState) : bool :=
  match a, b with
  | Default, Default | Arrive, Arrive | Align, Align
  | NotMoving, NotMoving | None_, None_ => true
  | _, _ => false
  end.

(** The three switches [reconfigure] stores. *)
Record Switches : Type := mkSwitches {
  switch_yaw_error_ : Q;
  switch_plan_distance_ : Q;
  switch_goal_distance_ : Q
}.

(** [DWAPlanner::determineState].  [prev_state] is the function's static
    local variable: it is passed in and handed back next to the result. *)
Definition determineState (sw : Switches) (prev_state : LocalPlannerState)
    (yaw_error plan_distance goal_distance : Q)
  : LocalPlannerState * LocalPlannerState :=
  let state :=
    if Qlt_bool goal_distance (switch_goal_distance_ sw) then Arrive
    else if Qlt_bool (switch_yaw_error_ sw) (Qabs yaw_error) ||
            (LocalPlannerState_eqb prev_state Align &&
             Qlt_bool (switch_yaw_error_ sw / 2) (Qabs yaw_error))
    then Align
    else Default in
  if negb (LocalPlannerState_eqb prev_state state)
  then (state, state)
  else (state, prev_state).

(** The static variable starts as [None]. *)
Definition initial_prev_state : LocalPlannerState := None_.

(** Successive calls of [determineState], one per [(yaw_error,
    plan_distance, goal_distance)], with the states they return and the
    final value of the static variable. *)
Fixpoint determineStates (sw : Switches) (prev_state : LocalPlannerState)
    (calls : list (Q * Q * Q)) : list LocalPlannerState * LocalPlannerState :=
  match calls with
  | [] => ([], prev_state)
  | (yaw_error, plan_distance, goal_distance) :: rest =>
      let '(state, prev_state') :=
        determineState sw prev_state yaw_error plan_distance goal_distance in
      let '(states, final) := determineStates sw prev_state' rest in
      (state :: states, final)
  end.

End DWAPlanner.

(** ** dwa_planner_ros.cpp *)

Module DWAPlannerROS.

Import BaseLocalPlanner.

(** What a call of a [bool] function yields: the value of a [return]
    statement, or nothing when control reaches the closing brace without
    one (the value the caller then reads is undefined in C++). *)
Inductive ret : Type :=
| Returned (b : bool)
| NoReturn.

(** What a cycle hands to the visualisation topics. *)
Inductive Publication : Type :=
| LocalPlan (plan : list Pose)
| LocalTraj (plan : list Pose).

Section Cycle.

(** The state of the planner object [dp_]. *)
Variable Planner : Type.

(** The collaborators of one call, with the answers they give:
    - [initialized_]: the member of that name;
    - [fresh_pose]: the content of a default-constructed
      [tf::Stamped<tf::Pose>];
    - [getRobotPose]: [costmap_ros_->getRobotPose], its result and the
      pose it leaves in its argument;
    - [getRobotVel]: [odom_helper_.getRobotVel];
    - [getLocalPlan], [getGoal], [getCurrentLimits]: [planner_util_];
    - [updatePlanAndLocalCosts], [findBestPath]: [dp_];
    - [indeterminate]: the value a caller reads from a call that ended
      without a [return] statement. *)
Record Collaborators : Type := mkCollaborators {
  initialized_ : bool;
  fresh_pose : Pose;
  getRobotPose : bool * Pose;
  getRobotVel : Pose;
  getLocalPlan : Pose -> bool * list Pose;
  getGoal : bool * Pose;
  getCurrentLimits : LocalPlannerLimits;
  getRobotFootprint : list (Q * Q);
  updatePlanAndLocalCosts : Planner -> Pose -> list Pose -> list (Q * Q) -> Planner;
  findBestPath : Planner -> Pose -> Pose -> Trajectory;
  goal_functions : GoalFunctions;
  indeterminate : bool
}.

(** The value the caller of a [bool] function tests. *)
Definition observe (env : Collaborators) (r : ret) : bool :=
  match r with
  | Returned b => b
  | NoReturn => indeterminate env
  end.

(** [setCmdVel]. *)
Definition setCmdVel (traj : Trajectory) (c : Twist) : Twist :=
  if Qle_bool 0 (cost_ traj) then
    mkTwist (xv_ traj) (yv_ traj) (linear_z c)
            (angular_x c) (angular_y c) (thetav_ traj)
  else
    mkTwist 0 0 (linear_z c) (angular_x c) (angular_y c) 0.

(** [DWAPlannerROS::publishTrajectory]: the points of a legal trajectory,
    an empty path otherwise. *)
Definition publishTrajectory (traj : Trajectory) : Publication :=
  LocalTraj (if Qle_bool 0 (cost_ traj) then points traj else []).

(** [DWAPlannerROS::getRobotState]: the result, [robot_pose] and
    [robot_vel].  The function has no [return] after [getRobotVel]. *)
Definition getRobotState (env : Collaborators) (robot_pose robot_vel : Pose)
  : ret * Pose * Pose :=
  if negb (initialized_ env) then (Returned false, robot_pose, robot_vel)
  else
    let '(ok, robot_pose') := getRobotPose env in
    if negb ok then (Returned false, robot_pose', robot_vel)
    else (NoReturn, robot_pose', getRobotVel env).

(** [DWAPlannerROS::getRobotStateAndLocalPlan]: the result, [robot_pose],
    [robot_vel] and [local_plan].  The result of [getRobotState] is not
    looked at, and the function has no [return] after the two tests. *)
Definition getRobotStateAndLocalPlan (env : Collaborators)
    (robot_pose robot_vel : Pose) (local_plan : list Pose)
  : ret * Pose * Pose * list Pose :=
  let '(_, robot_pose', robot_vel') := getRobotState env robot_pose robot_vel in
  let '(ok, local_plan') := getLocalPlan env robot_pose' in
  if negb ok then (Returned false, robot_pose', robot_vel', local_plan')
  else
    match local_plan' with
    | [] => (Returned false, robot_pose', robot_vel', local_plan')
    | _ :: _ => (NoReturn, robot_pose', robot_vel', local_plan')
    end.

(** [DWAPlannerROS::isGoalReached]. *)
Definition isGoalReached (env : Collaborators) : bool :=
  let '(r, robot_pose, robot_vel) :=
    getRobotState env (fresh_pose env) (fresh_pose env) in
  if negb (observe env r) then false
  else
    let l := getCurrentLimits env in
    let '(ok, goal_pose) := getGoal env in
    if negb ok then false
    else
      let gf := goal_functions env in
      let xy_to_goal :=
        getGoalPositionDistance gf robot_pose (pose_x goal_pose) (pose_y goal_pose) in
      let angle_to_goal :=
        getGoalOrientationAngleDifference gf robot_pose (pose_yaw goal_pose) in
      let stopped :=
        stopped gf robot_vel (rot_stopped_vel l) (trans_stopped_vel l) in
      if Qle_bool xy_to_goal (xy_goal_tolerance l) &&
         Qle_bool (Qabs angle_to_goal) (yaw_goal_tolerance l) && stopped
      then true
      else false.

(** What a call of [computeVelocityCommands] leaves behind. *)
Record Outcome : Type := mkOutcome {
  result : bool;
  cmd_vel_out : Twist;
  published : list Publication;
  planner_out : Planner
}.

(** [DWAPlannerROS::computeVelocityCommands]. *)
Definition computeVelocityCommands (env : Collaborators) (dp : Planner)
    (cmd_vel : Twist) : Outcome :=
  let '(r, robot_pose, robot_vel, local_plan) :=
    getRobotStateAndLocalPlan env (fresh_pose env) (fresh_pose env) [] in
  if negb (observe env r) then mkOutcome false cmd_vel [] dp
  else
    let dp' := updatePlanAndLocalCosts env dp robot_pose local_plan
                 (getRobotFootprint env) in
    let traj := findBestPath env dp' robot_pose robot_vel in
    mkOutcome (Qle_bool 0 (cost_ traj)) (setCmdVel traj cmd_vel)
      [LocalPlan local_plan; publishTrajectory traj] dp'.

(** The trajectory the scored sampler returns in a cycle that gets as far
    as [findBestPath]. *)
Definition sampled (env : Collaborators) (dp : Planner) : Trajectory :=
  let '(_, robot_pose, robot_vel, local_plan) :=
    getRobotStateAndLocalPlan env (fresh_pose env) (fresh_pose env) [] in
  findBestPath env
    (updatePlanAndLocalCosts env dp robot_pose local_plan (getRobotFootprint env))
    robot_pose robot_vel.

End Cycle.

End DWAPlannerROS.

(** * Properties *)

(** ** Comparisons of rationals *)

Lemma Qlt_bool_iff (a b : Q) : Qlt_bool a b = true <-> (a < b)%Q.
Proof.
  unfold Qlt_bool. rewrite negb_true_iff.
  split.
  - intros H. apply Qnot_le_lt. intros Hle.
    apply Qle_bool_iff in Hle. congruence.
  - intros H. destruct (Qle_bool b a) eqn:E; [|reflexivity].
    apply Qle_bool_iff in E. exfalso. exact (Qlt_not_le _ _ H E).
Qed.

Lemma Qlt_bool_false_iff (a b : Q) : Qlt_bool a b = false <-> ~ (a < b)%Q.
Proof.
  rewrite <- Qlt_bool_iff. destruct (Qlt_bool a b); split; congruence.
Qed.

(** ** The planner state machine *)

Section DetermineState.

Import DWAPlanner.

Variable sw : Switches.

Lemma LocalPlannerState_eqb_eq (a b : LocalPlannerState) :
  LocalPlannerState_eqb a b = true <-> a = b.
Proof. destruct a, b; simpl; split; congruence. Qed.

(** The static variable always ends up holding the state just returned. *)
Lemma determineState_remembers prev yaw_error plan_distance goal_distance :
  snd (determineState sw prev yaw_error plan_distance goal_distance) =
  fst (determineState sw prev yaw_error plan_distance goal_distance).
Proof.
  unfold determineState.
  match goal with
  | |- context [negb (LocalPlannerState_eqb prev ?s)] =>
      destruct (LocalPlannerState_eqb prev s) eqn:E; simpl; [|reflexivity]
  end.
  now apply LocalPlannerState_eqb_eq in E.
Qed.

Lemma determineState_fst prev yaw_error plan_distance goal_distance :
  fst (determineState sw prev yaw_error plan_distance goal_distance) =
  if Qlt_bool goal_distance (switch_goal_distance_ sw) then Arrive
  else if Qlt_bool (switch_yaw_error_ sw) (Qabs yaw_error) ||
          (LocalPlannerState_eqb prev Align &&
           Qlt_bool (switch_yaw_error_ sw / 2) (Qabs yaw_error))
  then Align
  else Default.
Proof.
  unfold determineState.
  match goal with
  | |- context [negb ?c] => destruct c; reflexivity
  end.
Qed.

Lemma determineState_Arrive prev yaw_error plan_distance goal_distance :
  (goal_distance < switch_goal_distance_ sw)%Q ->
  fst (determineState sw prev yaw_error plan_distance goal_distance) = Arrive.
Proof.
  intros H. rewrite determineState_fst.
  apply Qlt_bool_iff in H. now rewrite H.
Qed.

Lemma determineState_Align prev yaw_error plan_distance goal_distance :
  ~ (goal_distance < switch_goal_distance_ sw)%Q ->
  (switch_yaw_error_ sw < Qabs yaw_error)%Q \/
  (prev = Align /\ (switch_yaw_error_ sw / 2 < Qabs yaw_error)%Q) ->
  fst (determineState sw prev yaw_error plan_distance goal_distance) = Align.
Proof.
  intros Hg H. rewrite determineState_fst.
  apply Qlt_bool_false_iff in Hg. rewrite Hg.
  destruct H as [H | [-> H]]; apply Qlt_bool_iff in H; rewrite H; simpl.
  - reflexivity.
  - now rewrite orb_true_r.
Qed.

Lemma determineState_Default prev yaw_error plan_distance goal_distance :
  ~ (goal_distance < switch_goal_distance_ sw)%Q ->
  ~ ((switch_yaw_error_ sw < Qabs yaw_error)%Q \/
     (prev = Align /\ (switch_yaw_error_ sw / 2 < Qabs yaw_error)%Q)) ->
  fst (determineState sw prev yaw_error plan_distance goal_distance) = Default.
Proof.
  intros Hg H. rewrite determineState_fst.
  apply Qlt_bool_false_iff in Hg. rewrite Hg.
  destruct (Qlt_bool (switch_yaw_error_ sw) (Qabs yaw_error)) eqn:E1.
  { exfalso. apply H. left. now apply Qlt_bool_iff. }
  destruct (LocalPlannerState_eqb prev Align) eqn:E2; [|reflexivity].
  destruct (Qlt_bool (switch_yaw_error_ sw / 2) (Qabs yaw_error)) eqn:E3; [|reflexivity].
  exfalso. apply H. right. split.
  - now apply LocalPlannerState_eqb_eq.
  - now apply Qlt_bool_iff.
Qed.

(** One call, as a pair. *)
Lemma determineState_pair prev yaw_error plan_distance goal_distance :
  determineState sw prev yaw_error plan_distance goal_distance =
  (fst (determineState sw prev yaw_error plan_distance goal_distance),
   fst (determineState sw prev yaw_error plan_distance goal_distance)).
Proof.
  rewrite <- determineState_remembers at 2.
  now destruct (determineState sw prev yaw_error plan_distance goal_distance).
Qed.

End DetermineState.

(** C4.  [determineState] returns [Arrive] when the goal distance is below
    [switch_goal_distance]; otherwise [Align] when [|yaw_error|] exceeds
    [switch_yaw_error], or exceeds half of it while the previously returned
    state was [Align]; otherwise [Default]; and the state it returns is the
    one the next call sees as previous.  Hence, away from the goal and with a
    positive [switch_yaw_error]: from [Default], [|yaw_error|] just below the
    switch keeps [Default], just above it enters [Align], 0.6 of it stays in
    [Align], 0.4 of it returns to [Default]. *)
Theorem determineState_hysteresis (sw : DWAPlanner.Switches) :
  (forall prev yaw_error plan_distance goal_distance,
     let r := DWAPlanner.determineState sw prev yaw_error plan_distance goal_distance in
     ((goal_distance < DWAPlanner.switch_goal_distance_ sw)%Q ->
        fst r = DWAPlanner.Arrive) /\
     (~ (goal_distance < DWAPlanner.switch_goal_distance_ sw)%Q ->
      ((DWAPlanner.switch_yaw_error_ sw < Qabs yaw_error)%Q \/
       (prev = DWAPlanner.Align /\
        (DWAPlanner.switch_yaw_error_ sw / 2 < Qabs yaw_error)%Q)) ->
        fst r = DWAPlanner.Align) /\
     (~ (goal_distance < DWAPlanner.switch_goal_distance_ sw)%Q ->
      ~ ((DWAPlanner.switch_yaw_error_ sw < Qabs yaw_error)%Q \/
         (prev = DWAPlanner.Align /\
          (DWAPlanner.switch_yaw_error_ sw / 2 < Qabs yaw_error)%Q)) ->
        fst r = DWAPlanner.Default) /\
     snd r = fst r) /\
  (forall eps y1 y2 y3 y4 p1 p2 p3 p4 g1 g2 g3 g4,
     (0 < DWAPlanner.switch_yaw_error_ sw)%Q ->
     (0 < eps)%Q ->
     (DWAPlanner.switch_goal_distance_ sw <= g1)%Q ->
     (DWAPlanner.switch_goal_distance_ sw <= g2)%Q ->
     (DWAPlanner.switch_goal_distance_ sw <= g3)%Q ->
     (DWAPlanner.switch_goal_distance_ sw <= g4)%Q ->
     (Qabs y1 == DWAPlanner.switch_yaw_error_ sw - eps)%Q ->
     (Qabs y2 == DWAPlanner.switch_yaw_error_ sw + eps)%Q ->
     (Qabs y3 == DWAPlanner.switch_yaw_error_ sw * (6 # 10))%Q ->
     (Qabs y4 == DWAPlanner.switch_yaw_error_ sw * (4 # 10))%Q ->
     DWAPlanner.determineStates sw DWAPlanner.Default
       [(y1, p1, g1); (y2, p2, g2); (y3, p3, g3); (y4, p4, g4)] =
     ([DWAPlanner.Default; DWAPlanner.Align; DWAPlanner.Align; DWAPlanner.Default],
      DWAPlanner.Default)).
Proof.
  split.
  - intros prev yaw_error plan_distance goal_distance r. subst r.
    repeat split.
    + apply determineState_Arrive.
    + apply determineState_Align.
    + apply determineState_Default.
    + apply determineState_remembers.
  - intros eps y1 y2 y3 y4 p1 p2 p3 p4 g1 g2 g3 g4 Hs He Hg1 Hg2 Hg3 Hg4 H1 H2 H3 H4.
    assert (Hhalf : (DWAPlanner.switch_yaw_error_ sw / 2 ==
                     DWAPlanner.switch_yaw_error_ sw * (1 # 2))%Q) by (field).
    simpl.
    rewrite (determineState_pair sw DWAPlanner.Default y1 p1 g1).
    rewrite (determineState_Default sw DWAPlanner.Default y1 p1 g1).
    2: { now apply Qle_not_lt. }
    2: { intros [H | [H _]]; [|discriminate].
         rewrite H1 in H. revert H. apply Qle_not_lt.
         rewrite <- (Qplus_0_r (DWAPlanner.switch_yaw_error_ sw)) at 2.
         apply Qplus_le_r. apply Qlt_le_weak.
         rewrite <- (Qopp_involutive 0) . apply Qopp_lt_compat. exact He. }
    rewrite (determineState_pair sw DWAPlanner.Default y2 p2 g2).
    rewrite (determineState_Align sw DWAPlanner.Default y2 p2 g2).
    2: { now apply Qle_not_lt. }
    2: { left. rewrite H2.
         rewrite <- (Qplus_0_r (DWAPlanner.switch_yaw_error_ sw)) at 1.
         now apply Qplus_lt_r. }
    rewrite (determineState_pair sw DWAPlanner.Align y3 p3 g3).
    rewrite (determineState_Align sw DWAPlanner.Align y3 p3 g3).
    2: { now apply Qle_not_lt. }
    2: { right. split; [reflexivity|]. rewrite H3, Hhalf.
         apply Qmult_lt_l; [exact Hs | reflexivity]. }
    rewrite (determineState_pair sw DWAPlanner.Align y4 p4 g4).
    rewrite (determineState_Default sw DWAPlanner.Align y4 p4 g4).
    2: { now apply Qle_not_lt. }
    2: { intros [H | [_ H]].
         - rewrite H4 in H. revert H. apply Qle_not_lt.
           rewrite <- (Qmult_1_r (DWAPlanner.switch_yaw_error_ sw)) at 2.
           apply Qmult_le_l; [exact Hs | discriminate].
         - rewrite H4, Hhalf in H. revert H. apply Qle_not_lt.
           apply Qmult_le_l; [exact Hs | discriminate]. }
    reflexivity.
Qed.

(** All three switches at 1. *)
Definition hysteresis_switches : DWAPlanner.Switches :=
  DWAPlanner.mkSwitches 1 1 1.

(** Close to the goal the state is [Arrive]; away from it, yaw errors 0.9,
    -1.1, 0.6 and -0.4 give [Default], [Align], [Align], [Default]. *)
Lemma determineState_hysteresis_witness :
  fst (DWAPlanner.determineState hysteresis_switches DWAPlanner.Align 0 0 (1 # 2)) =
    DWAPlanner.Arrive /\
  DWAPlanner.determineStates hysteresis_switches DWAPlanner.Default
    [(9 # 10, 0, 2); (- (11 # 10), 0, 2); (6 # 10, 0, 2); (- (4 # 10), 0, 2)]%Q =
  ([DWAPlanner.Default; DWAPlanner.Align; DWAPlanner.Align; DWAPlanner.Default],
   DWAPlanner.Default).
Proof.
  split.
  - apply (proj1 (proj1 (determineState_hysteresis hysteresis_switches)
                    DWAPlanner.Align 0 0 (1 # 2))%Q).
    reflexivity.
  - apply (proj2 (determineState_hysteresis hysteresis_switches) (1 # 10)%Q);
      vm_compute; solve [reflexivity | discriminate].
Defined.

(** ** The planner cycle *)

Section PlannerCycle.

Import BaseLocalPlanner DWAPlannerROS.

Variable Planner : Type.
Variable env : Collaborators Planner.

Lemma setCmdVel_legal (traj : Trajectory) (c : Twist) :
  (0 <= cost_ traj)%Q ->
  setCmdVel traj c =
  mkTwist (xv_ traj) (yv_ traj) (linear_z c) (angular_x c) (angular_y c) (thetav_ traj).
Proof.
  intros H. unfold setCmdVel. apply Qle_bool_iff in H. now rewrite H.
Qed.

Lemma setCmdVel_illegal (traj : Trajectory) (c : Twist) :
  (cost_ traj < 0)%Q ->
  setCmdVel traj c = mkTwist 0 0 (linear_z c) (angular_x c) (angular_y c) 0.
Proof.
  intros H. unfold setCmdVel.
  destruct (Qle_bool 0 (cost_ traj)) eqn:E; [|reflexivity].
  apply Qle_bool_iff in E. exfalso. exact (Qlt_not_le _ _ H E).
Qed.

(** A cycle whose first test succeeds runs the sampler and answers with
    the sign of the cost. *)
Lemma computeVelocityCommands_sampled (dp : Planner) (cmd_vel : Twist) :
  observe Planner env
    (getRobotStateAndLocalPlan Planner env (fresh_pose Planner env)
       (fresh_pose Planner env) []).1.1.1 = true ->
  result Planner (computeVelocityCommands Planner env dp cmd_vel) =
    Qle_bool 0 (cost_ (sampled Planner env dp)) /\
  cmd_vel_out Planner (computeVelocityCommands Planner env dp cmd_vel) =
    setCmdVel (sampled Planner env dp) cmd_vel.
Proof.
  unfold computeVelocityCommands, sampled.
  destruct (getRobotStateAndLocalPlan Planner env (fresh_pose Planner env)
              (fresh_pose Planner env) []) as [[[r p] v] lp].
  simpl. intros ->. simpl. split; reflexivity.
Qed.

(** A cycle whose first test fails returns false and leaves the command
    as it was. *)
Lemma computeVelocityCommands_aborted (dp : Planner) (cmd_vel : Twist) :
  observe Planner env
    (getRobotStateAndLocalPlan Planner env (fresh_pose Planner env)
       (fresh_pose Planner env) []).1.1.1 = false ->
  computeVelocityCommands Planner env dp cmd_vel = mkOutcome Planner false cmd_vel [] dp.
Proof.
  unfold computeVelocityCommands.
  destruct (getRobotStateAndLocalPlan Planner env (fresh_pose Planner env)
              (fresh_pose Planner env) []) as [[[r p] v] lp].
  simpl. intros ->. reflexivity.
Qed.

(** Whatever the pose source answers, [getRobotStateAndLocalPlan] reaches
    its closing brace when a non-empty local plan is available. *)
Lemma getRobotStateAndLocalPlan_ignores_pose (robot_pose robot_vel : Pose)
    (local_plan : list Pose) (p : Pose) (rest : list Pose) :
  (forall q, getLocalPlan Planner env q = (true, p :: rest)) ->
  (getRobotStateAndLocalPlan Planner env robot_pose robot_vel local_plan).1.1.1 = NoReturn.
Proof.
  intros H. unfold getRobotStateAndLocalPlan.
  destruct (getRobotState Planner env robot_pose robot_vel) as [[r q] v].
  rewrite H. reflexivity.
Qed.

End PlannerCycle.

(** C7.  In a cycle that reaches the scored sampler: when the returned
    trajectory has cost >= 0 the command velocity is the trajectory's
    [(vx, vy, vtheta)] and the cycle returns true; when its cost is < 0 the
    command velocity is [(0, 0, 0)] and the cycle returns false. *)
Theorem computeVelocityCommands_command (Planner : Type)
    (env : DWAPlannerROS.Collaborators Planner) (dp : Planner)
    (cmd_vel : BaseLocalPlanner.Twist) :
  DWAPlannerROS.observe Planner env
    (DWAPlannerROS.getRobotStateAndLocalPlan Planner env
       (DWAPlannerROS.fresh_pose Planner env)
       (DWAPlannerROS.fresh_pose Planner env) []).1.1.1 = true ->
  let traj := DWAPlannerROS.sampled Planner env dp in
  let out := DWAPlannerROS.computeVelocityCommands Planner env dp cmd_vel in
  ((0 <= BaseLocalPlanner.cost_ traj)%Q ->
     BaseLocalPlanner.linear_x (DWAPlannerROS.cmd_vel_out Planner out) =
       BaseLocalPlanner.xv_ traj /\
     BaseLocalPlanner.linear_y (DWAPlannerROS.cmd_vel_out Planner out) =
       BaseLocalPlanner.yv_ traj /\
     BaseLocalPlanner.angular_z (DWAPlannerROS.cmd_vel_out Planner out) =
       BaseLocalPlanner.thetav_ traj /\
     DWAPlannerROS.result Planner out = true) /\
  ((BaseLocalPlanner.cost_ traj < 0)%Q ->
     BaseLocalPlanner.linear_x (DWAPlannerROS.cmd_vel_out Planner out) = 0%Q /\
     BaseLocalPlanner.linear_y (DWAPlannerROS.cmd_vel_out Planner out) = 0%Q /\
     BaseLocalPlanner.angular_z (DWAPlannerROS.cmd_vel_out Planner out) = 0%Q /\
     DWAPlannerROS.result Planner out = false).
Proof.
  intros Hgate traj out.
  destruct (computeVelocityCommands_sampled Planner env dp cmd_vel Hgate) as [Hr Hc].
  fold traj in Hr, Hc. fold out in Hr, Hc.
  split; intros Hcost.
  - rewrite Hc, Hr, (setCmdVel_legal traj cmd_vel Hcost). simpl.
    repeat split. now apply Qle_bool_iff.
  - rewrite Hc, Hr, (setCmdVel_illegal traj cmd_vel Hcost). simpl.
    repeat split.
    destruct (Qle_bool 0 (BaseLocalPlanner.cost_ traj)) eqn:E; [|reflexivity].
    apply Qle_bool_iff in E. exfalso. exact (Qlt_not_le _ _ Hcost E).
Qed.

(** With a robot pose and a goal pose available, [getRobotState] ends
    without a [return], and [isGoalReached] returns true exactly when the
    value its test then reads is true and the position distance to the goal
    is within [xy_goal_tolerance], the absolute orientation difference is
    within [yaw_goal_tolerance], and the robot is stopped with respect to
    [rot_stopped_vel] and [trans_stopped_vel]. *)
Lemma isGoalReached_result (Planner : Type)
    (env : DWAPlannerROS.Collaborators Planner)
    (robot_pose goal_pose : BaseLocalPlanner.Pose) :
  DWAPlannerROS.initialized_ Planner env = true ->
  DWAPlannerROS.getRobotPose Planner env = (true, robot_pose) ->
  DWAPlannerROS.getGoal Planner env = (true, goal_pose) ->
  let gf := DWAPlannerROS.goal_functions Planner env in
  let l := DWAPlannerROS.getCurrentLimits Planner env in
  let robot_vel := DWAPlannerROS.getRobotVel Planner env in
  (DWAPlannerROS.getRobotState Planner env (DWAPlannerROS.fresh_pose Planner env)
     (DWAPlannerROS.fresh_pose Planner env)).1.1 = DWAPlannerROS.NoReturn /\
  (DWAPlannerROS.isGoalReached Planner env = true <->
   DWAPlannerROS.indeterminate Planner env = true /\
   (BaseLocalPlanner.getGoalPositionDistance gf robot_pose
      (BaseLocalPlanner.pose_x goal_pose) (BaseLocalPlanner.pose_y goal_pose)
    <= BaseLocalPlanner.xy_goal_tolerance l)%Q /\
   (Qabs (BaseLocalPlanner.getGoalOrientationAngleDifference gf robot_pose
            (BaseLocalPlanner.pose_yaw goal_pose))
    <= BaseLocalPlanner.yaw_goal_tolerance l)%Q /\
   BaseLocalPlanner.stopped gf robot_vel
     (BaseLocalPlanner.rot_stopped_vel l) (BaseLocalPlanner.trans_stopped_vel l) = true).
Proof.
  intros Hinit Hpose Hgoal gf l robot_vel.
  unfold DWAPlannerROS.isGoalReached, DWAPlannerROS.getRobotState.
  rewrite Hinit, Hpose, Hgoal. simpl. split; [reflexivity|].
  fold gf l robot_vel.
  rewrite <- !Qle_bool_iff.
  destruct (DWAPlannerROS.indeterminate Planner env); simpl;
    [|intuition congruence].
  destruct (Qle_bool _ _), (Qle_bool _ _), (BaseLocalPlanner.stopped _ _ _ _);
    simpl; intuition congruence.
Qed.

(** *** Concrete cycles *)

(** A sample instance of the goal functions: distances along the axes and
    the plain difference of yaws stand in for the library's code. *)
Definition sample_goal_functions : BaseLocalPlanner.GoalFunctions :=
  BaseLocalPlanner.mkGoalFunctions
    (fun p x y => (Qabs (x - BaseLocalPlanner.pose_x p) +
                   Qabs (y - BaseLocalPlanner.pose_y p))%Q)
    (fun p th => (th - BaseLocalPlanner.pose_yaw p)%Q)
    (fun v rot trans =>
       Qle_bool (Qabs (BaseLocalPlanner.pose_yaw v)) rot &&
       Qle_bool (Qabs (BaseLocalPlanner.pose_x v)) trans &&
       Qle_bool (Qabs (BaseLocalPlanner.pose_y v)) trans).

Definition sample_limits : BaseLocalPlanner.LocalPlannerLimits :=
  BaseLocalPlanner.mkLimits (1 # 10) (1 # 10) (1 # 100) (1 # 100).

Definition origin_pose : BaseLocalPlanner.Pose := BaseLocalPlanner.mkPose 0 0 0.

Definition zero_twist : BaseLocalPlanner.Twist := BaseLocalPlanner.mkTwist 0 0 0 0 0 0.

(** A cycle with or without a pose: the robot rests at the origin, the goal
    is at the origin, the local plan has one pose, the sampler answers with
    a legal trajectory of velocity [(1, 0, 1/2)]. *)
Definition sample_cycle (pose_available : bool) : DWAPlannerROS.Collaborators unit :=
  DWAPlannerROS.mkCollaborators unit
    true origin_pose (pose_available, origin_pose) origin_pose
    (fun _ => (true, [BaseLocalPlanner.mkPose 1 0 0]))
    (true, origin_pose) sample_limits []
    (fun dp _ _ _ => dp)
    (fun _ _ _ => BaseLocalPlanner.mkTrajectory 1 0 (1 # 2) 0 [])
    sample_goal_functions true.

(** The sample cycle with a pose: the command is the sampled velocity. *)
Lemma computeVelocityCommands_command_witness :
  let out := DWAPlannerROS.computeVelocityCommands unit (sample_cycle true) tt zero_twist in
  BaseLocalPlanner.linear_x (DWAPlannerROS.cmd_vel_out unit out) = 1%Q /\
  BaseLocalPlanner.linear_y (DWAPlannerROS.cmd_vel_out unit out) = 0%Q /\
  BaseLocalPlanner.angular_z (DWAPlannerROS.cmd_vel_out unit out) = (1 # 2)%Q /\
  DWAPlannerROS.result unit out = true.
Proof.
  apply (proj1 (computeVelocityCommands_command unit (sample_cycle true) tt zero_twist
                  eq_refl)).
  vm_compute. discriminate.
Defined.

(** The robot at rest on its goal, with pose, goal and local plan
    available; [unreturned] is the value read where a [bool] function ended
    without a [return]. *)
Definition resting_cycle (unreturned : bool) : DWAPlannerROS.Collaborators unit :=
  DWAPlannerROS.mkCollaborators unit
    true origin_pose (true, origin_pose) origin_pose
    (fun _ => (true, [BaseLocalPlanner.mkPose 1 0 0]))
    (true, origin_pose) sample_limits []
    (fun dp _ _ _ => dp)
    (fun _ _ _ => BaseLocalPlanner.mkTrajectory 1 0 (1 # 2) 0 [])
    sample_goal_functions unreturned.

(** C9, at a robot that rests on its goal.  The distance to the goal and the
    orientation difference are 0, within the tolerances of 1/10, and the
    robot is stopped; [getRobotState] gets the pose and the velocity and
    then ends without a [return], so the test of [isGoalReached] reads a
    value the function never returned: read as false, [isGoalReached]
    answers false on the goal; only read as true does it answer true. *)
Theorem isGoalReached_unreturned :
  let gf := sample_goal_functions in
  (DWAPlannerROS.getRobotState unit (resting_cycle false) origin_pose origin_pose).1.1 =
    DWAPlannerROS.NoReturn /\
  Qle_bool
    (BaseLocalPlanner.getGoalPositionDistance gf origin_pose
       (BaseLocalPlanner.pose_x origin_pose) (BaseLocalPlanner.pose_y origin_pose))
    (BaseLocalPlanner.xy_goal_tolerance sample_limits) = true /\
  Qle_bool
    (Qabs (BaseLocalPlanner.getGoalOrientationAngleDifference gf origin_pose
             (BaseLocalPlanner.pose_yaw origin_pose)))
    (BaseLocalPlanner.yaw_goal_tolerance sample_limits) = true /\
  BaseLocalPlanner.stopped gf origin_pose
    (BaseLocalPlanner.rot_stopped_vel sample_limits)
    (BaseLocalPlanner.trans_stopped_vel sample_limits) = true /\
  DWAPlannerROS.isGoalReached unit (resting_cycle false) = false /\
  DWAPlannerROS.isGoalReached unit (resting_cycle true) = true.
Proof. repeat split. Qed.

(** C6, at a cycle without a pose.  [getRobotState] reports the failure, yet
    [getRobotStateAndLocalPlan] does not return false: it reaches its closing
    brace, and with the unreturned result read as true the cycle runs the
    sampler, returns true and sets the command velocity. *)
Theorem computeVelocityCommands_pose_lost :
  (DWAPlannerROS.getRobotState unit (sample_cycle false) origin_pose origin_pose).1.1 =
    DWAPlannerROS.Returned false /\
  (DWAPlannerROS.getRobotStateAndLocalPlan unit (sample_cycle false)
     origin_pose origin_pose []).1.1.1 = DWAPlannerROS.NoReturn /\
  let out := DWAPlannerROS.computeVelocityCommands unit (sample_cycle false) tt zero_twist in
  DWAPlannerROS.result unit out = true /\
  DWAPlannerROS.cmd_vel_out unit out = BaseLocalPlanner.mkTwist 1 0 0 0 0 (1 # 2).
Proof. repeat split. Qed.

(** ** Interpretation of snapshot cells *)

Section InterpretValue.

Import StaticLayer.

(** [scale * LETHAL_OBSTACLE] of [interpretValue], in binary64. *)
Definition scaled_double (value lethal_threshold : Z) : float :=
  PrimFloat.mul
    (PrimFloat.div (double_of_Z value) (double_of_Z lethal_threshold))
    (double_of_Z LETHAL_OBSTACLE).

(** The integers [0 .. n-1]. *)
Definition below (n : Z) : list Z := map Z.of_nat (seq 0 (Z.to_nat n)).

Lemma In_below (n k : Z) : 0 <= k < n -> In k (below n).
Proof.
  intros H. unfold below. apply in_map_iff. exists (Z.to_nat k).
  split; [lia|]. apply in_seq. lia.
Qed.

Lemma forallb_below (f : Z -> bool) (n : Z) :
  forallb f (below n) = true -> forall k, 0 <= k < n -> f k = true.
Proof.
  intros H k Hk. rewrite forallb_forall in H. apply H. now apply In_below.
Qed.

(** For one threshold and one value: the truncated binary64 product is the
    integer quotient. *)
Definition scale_exact_at (lethal_threshold value : Z) : bool :=
  trunc_double (scaled_double value lethal_threshold) =?
  LETHAL_OBSTACLE * value / lethal_threshold.

Definition scale_exact_row (lethal_threshold : Z) : bool :=
  forallb (scale_exact_at lethal_threshold) (below lethal_threshold).

(** Checked by evaluation for every threshold up to 255 and every value
    below it. *)
Lemma scale_exact_table : forallb scale_exact_row (below 256) = true.
Proof. vm_compute. reflexivity. Qed.

Lemma scale_exact_row_true (lethal_threshold : Z) :
  0 <= lethal_threshold < 256 ->
  forallb (scale_exact_at lethal_threshold) (below lethal_threshold) = true.
Proof.
  intros Ht.
  exact (forallb_below scale_exact_row 256 scale_exact_table lethal_threshold Ht).
Qed.

(** The binary64 computation of [interpretValue] loses nothing: on octets
    below the threshold it truncates the exact quotient. *)
Lemma scale_exact (value lethal_threshold : Z) :
  0 <= value < lethal_threshold -> lethal_threshold <= 255 ->
  trunc_double (scaled_double value lethal_threshold) =
  LETHAL_OBSTACLE * value / lethal_threshold.
Proof.
  intros Hv Ht.
  apply Z.eqb_eq.
  exact (forallb_below (scale_exact_at lethal_threshold) lethal_threshold
           (scale_exact_row_true lethal_threshold ltac:(lia)) value Hv).
Qed.

Lemma scaled_range (value lethal_threshold : Z) :
  0 <= value < lethal_threshold ->
  0 <= LETHAL_OBSTACLE * value / lethal_threshold <= LETHAL_OBSTACLE - 1.
Proof.
  intros H. unfold LETHAL_OBSTACLE. split.
  - apply Z.div_pos; lia.
  - assert (254 * value / lethal_threshold < 254); [|lia].
    apply Z.div_lt_upper_bound; lia.
Qed.

(** [interpretValue] with its last case in exact integer arithmetic:
    [value * LETHAL / threshold], rounded toward zero. *)
Definition interpret_truncated (sl : t) (v : Z) : Z :=
  if track_unknown_space_ sl && (v =? unknown_cost_value_ sl) then NO_INFORMATION
  else if negb (track_unknown_space_ sl) && (v =? unknown_cost_value_ sl) then FREE_SPACE
  else if v >=? lethal_threshold_ sl then LETHAL_OBSTACLE
  else if trinary_costmap_ sl then FREE_SPACE
  else LETHAL_OBSTACLE * v / lethal_threshold_ sl.

Lemma interpretValue_truncated (sl : t) (v : Z) :
  octet v -> octet (lethal_threshold_ sl) ->
  interpretValue sl v = interpret_truncated sl v.
Proof.
  intros Hv Ht. unfold interpretValue, interpret_truncated.
  destruct (track_unknown_space_ sl && (v =? unknown_cost_value_ sl)); [reflexivity|].
  destruct (negb (track_unknown_space_ sl) && (v =? unknown_cost_value_ sl));
    [reflexivity|].
  destruct (v >=? lethal_threshold_ sl) eqn:E; [reflexivity|].
  destruct (trinary_costmap_ sl); [reflexivity|].
  assert (Hlt : 0 <= v < lethal_threshold_ sl).
  { unfold octet in Hv. rewrite Z.geb_leb in E. apply Z.leb_gt in E. lia. }
  fold (scaled_double v (lethal_threshold_ sl)).
  rewrite scale_exact by (unfold octet in Ht; lia).
  pose proof (scaled_range v (lethal_threshold_ sl) Hlt) as Hr.
  unfold to_uchar. apply Z.mod_small. unfold LETHAL_OBSTACLE in *. lia.
Qed.

(** Whatever the configuration, an interpreted cell is an octet. *)
Lemma interpretValue_octet (sl : t) (v : Z) : octet (interpretValue sl v).
Proof.
  unfold interpretValue, octet, NO_INFORMATION, FREE_SPACE, LETHAL_OBSTACLE, to_uchar.
  repeat match goal with
         | |- context [if ?c then _ else _] => destruct c
         end; try lia.
  pose proof (Z.mod_pos_bound
    (trunc_double (PrimFloat.mul
       (PrimFloat.div (double_of_Z v) (double_of_Z (lethal_threshold_ sl)))
       (double_of_Z 254))) 256 ltac:(lia)).
  lia.
Qed.

End InterpretValue.

(** A layer configuration over an empty grid. *)
Definition configured (track_unknown_space use_maximum trinary_costmap : bool)
    (lethal_threshold unknown_cost_value : Z) (g : Costmap2D.t) : StaticLayer.t :=
  StaticLayer.mk g 0 0 0 0 true false false false
    track_unknown_space use_maximum trinary_costmap
    (StaticLayer.stored_lethal_threshold lethal_threshold)
    (StaticLayer.stored_unknown_cost_value unknown_cost_value).

Definition empty_grid : Costmap2D.t := Costmap2D.mk 0 0 1 0 0 0 [].

(** C3, as stated, fails: with a threshold of 100 and a scaled map,
    [interpretValue 1] is 2 (2.54 truncated), not 3 (2.54 rounded). *)
Lemma interpretValue_not_rounded :
  let sl := configured true false false 100 (-1) empty_grid in
  StaticLayer.interpretValue sl 1 = 2 /\
  StaticLayer.interpret_spec sl 1 = 3 /\
  StaticLayer.interpretValue sl 1 <> StaticLayer.interpret_spec sl 1.
Proof. vm_compute. repeat split; congruence. Qed.

(** C3, amended.  For octets [v] and thresholds, [interpretValue v] is
    NO_INFO if unknown space is tracked and [v] is the unknown value; else
    FREE if it is not tracked and [v] is the unknown value; else LETHAL if
    [v >= lethal_threshold]; else FREE for a trinary costmap; else
    [v * LETHAL / lethal_threshold] rounded toward zero, which lies in
    [0, LETHAL - 1]; with a scaled map and threshold 50, [interpretValue 25]
    is 127. *)
Theorem interpretValue_cases (sl : StaticLayer.t) (v : Z) :
  octet v -> octet (StaticLayer.lethal_threshold_ sl) ->
  StaticLayer.interpretValue sl v =
    (if StaticLayer.track_unknown_space_ sl && (v =? StaticLayer.unknown_cost_value_ sl)
     then NO_INFORMATION
     else if negb (StaticLayer.track_unknown_space_ sl) &&
             (v =? StaticLayer.unknown_cost_value_ sl)
     then FREE_SPACE
     else if v >=? StaticLayer.lethal_threshold_ sl then LETHAL_OBSTACLE
     else if StaticLayer.trinary_costmap_ sl then FREE_SPACE
     else LETHAL_OBSTACLE * v / StaticLayer.lethal_threshold_ sl) /\
  (v < StaticLayer.lethal_threshold_ sl ->
     0 <= LETHAL_OBSTACLE * v / StaticLayer.lethal_threshold_ sl <= LETHAL_OBSTACLE - 1) /\
  (StaticLayer.trinary_costmap_ sl = false ->
   StaticLayer.lethal_threshold_ sl = 50 ->
   StaticLayer.unknown_cost_value_ sl <> 25 ->
   StaticLayer.interpretValue sl 25 = 127).
Proof.
  intros Hv Ht. split; [|split].
  - exact (interpretValue_truncated sl v Hv Ht).
  - intros Hlt. apply scaled_range. unfold octet in Hv. lia.
  - intros Htri Hth Hu.
    rewrite interpretValue_truncated by (unfold octet; lia).
    unfold interpret_truncated. rewrite Htri, Hth.
    apply Z.eqb_neq in Hu. rewrite Z.eqb_sym in Hu. rewrite Hu.
    rewrite !andb_false_r. reflexivity.
Qed.

(** Scenario S3: threshold 50, scaled map, cell 25. *)
Lemma interpretValue_cases_witness :
  StaticLayer.interpretValue (configured true false false 50 (-1) empty_grid) 25 = 127.
Proof.
  refine (proj2 (proj2 (interpretValue_cases
            (configured true false false 50 (-1) empty_grid) 25 _ _)) _ _ _).
  - unfold octet. lia.
  - vm_compute. split; discriminate.
  - reflexivity.
  - reflexivity.
  - vm_compute. discriminate.
Defined.

(** ** The disabled layer *)

(** C10.  With [enabled_] false, [updateBounds] hands back the bounds it was
    given and leaves the layer (its dirty flag included) as it was, and
    [updateCosts] leaves the master grid as it was. *)
Theorem disabled_layer_is_inert
    (mapToWorld : Costmap2D.t -> Z -> Z -> Q * Q)
    (worldToMap : Costmap2D.t -> Q -> Q -> option (Z * Z))
    (useExtraBounds : StaticLayer.t -> StaticLayer.Bounds ->
                      StaticLayer.t * StaticLayer.Bounds)
    (sl : StaticLayer.t) :
  StaticLayer.enabled_ sl = false ->
  (forall robot_x robot_y robot_yaw b,
     StaticLayer.updateBounds mapToWorld useExtraBounds sl robot_x robot_y robot_yaw b =
     (sl, b)) /\
  (forall lc master_grid min_i min_j max_i max_j,
     StaticLayer.updateCosts mapToWorld worldToMap sl lc master_grid
       min_i min_j max_i max_j = Some master_grid).
Proof.
  intros H. split.
  - intros. unfold StaticLayer.updateBounds. now rewrite H.
  - intros. unfold StaticLayer.updateCosts. now rewrite H.
Qed.

(** *** Sample collaborators of the layer *)

(** A sample instance of [mapToWorld]: the centre of the cell. *)
Definition centre_mapToWorld (c : Costmap2D.t) (mx my : Z) : Q * Q :=
  ((Costmap2D.origin_x_ c + (inject_Z mx + (1 # 2)) * Costmap2D.resolution_ c)%Q,
   (Costmap2D.origin_y_ c + (inject_Z my + (1 # 2)) * Costmap2D.resolution_ c)%Q).

(** A sample instance of [worldToMap]: the cell that holds the point, if the
    grid has one. *)
Definition floor_worldToMap (c : Costmap2D.t) (wx wy : Q) : option (Z * Z) :=
  if Qlt_bool wx (Costmap2D.origin_x_ c) || Qlt_bool wy (Costmap2D.origin_y_ c)
  then None
  else
    let mx := Qfloor ((wx - Costmap2D.origin_x_ c) / Costmap2D.resolution_ c) in
    let my := Qfloor ((wy - Costmap2D.origin_y_ c) / Costmap2D.resolution_ c) in
    if (mx <? Costmap2D.size_x_ c) && (my <? Costmap2D.size_y_ c)
    then Some (mx, my) else None.

(** A sample instance of [useExtraBounds]: no extra bounds are pending. *)
Definition no_extra_bounds (sl : StaticLayer.t) (b : StaticLayer.Bounds)
  : StaticLayer.t * StaticLayer.Bounds := (sl, b).

(** A grid of unit resolution at the origin. *)
Definition unit_grid (size_x size_y : Z) (cells : list Z) : Costmap2D.t :=
  Costmap2D.mk size_x size_y 1 0 0 0 cells.

(** A layer that received its map, with the given switches and grid. *)
Definition received (enabled track_unknown_space use_maximum : bool)
    (g : Costmap2D.t) : StaticLayer.t :=
  StaticLayer.mk g 0 0 (Costmap2D.size_x_ g) (Costmap2D.size_y_ g)
    enabled true true false track_unknown_space use_maximum true 100 255.

(** A disabled layer with a dirty map over a one-cell master. *)
Lemma disabled_layer_is_inert_witness :
  let sl := received false true true (unit_grid 1 1 [254]) in
  let b := StaticLayer.mkBounds 0 0 0 0 in
  StaticLayer.updateBounds centre_mapToWorld no_extra_bounds sl 0 0 0 b = (sl, b) /\
  StaticLayer.updateCosts centre_mapToWorld floor_worldToMap sl
    (LayeredCostmap.mk (unit_grid 1 1 [0]) false true) (unit_grid 1 1 [0]) 0 0 1 1 =
  Some (unit_grid 1 1 [0]).
Proof.
  intros sl b.
  destruct (disabled_layer_is_inert centre_mapToWorld floor_worldToMap no_extra_bounds
              sl eq_refl) as [Hb Hc].
  split; [apply Hb | apply Hc].
Defined.

(** ** Patches *)

(** Whatever the patch, [incomingUpdate] leaves its rectangle as the dirty
    rectangle and raises the dirty flag. *)
Lemma incomingUpdate_dirty (sl sl' : StaticLayer.t) (update : StaticLayer.OccupancyGridUpdate) :
  StaticLayer.incomingUpdate sl update = Some sl' ->
  StaticLayer.x_ sl' = StaticLayer.upd_x update /\
  StaticLayer.y_ sl' = StaticLayer.upd_y update /\
  StaticLayer.width_ sl' = StaticLayer.upd_width update /\
  StaticLayer.height_ sl' = StaticLayer.upd_height update /\
  StaticLayer.has_updated_data_ sl' = true.
Proof.
  unfold StaticLayer.incomingUpdate. intros H.
  destruct (for_loop 0 (StaticLayer.upd_height update) _ _) as [st|]; [|discriminate].
  simpl in H. injection H as <-. repeat split.
Qed.

(** C2, at a patch of one cell placed at column 1 of a 2 x 1 grid.  The cell
    is written at [(0, 0)], not at [(1, 0)]; the dirty rectangle is the patch
    rectangle. *)
Theorem incomingUpdate_ignores_origin :
  let sl := received true true false (unit_grid 2 1 [0; 0]) in
  let patch := StaticLayer.mkOccupancyGridUpdate 1 0 1 1 [254] in
  exists sl',
    StaticLayer.incomingUpdate sl patch = Some sl' /\
    Costmap2D.getCost (StaticLayer.grid sl') 1 0 = Some 0 /\
    Costmap2D.getCost (StaticLayer.grid sl') 0 0 = Some 254 /\
    (StaticLayer.x_ sl', StaticLayer.y_ sl', StaticLayer.width_ sl',
     StaticLayer.height_ sl') = (1, 0, 1, 1).
Proof.
  eexists. split; [vm_compute; reflexivity|].
  repeat split.
Qed.

(** ** Loops and invariants *)

Lemma for_range_invariant {S : Type} (P : S -> Prop) (body : Z -> S -> option S) :
  (forall i s s', P s -> body i s = Some s' -> P s') ->
  forall n i s s', P s -> for_range n i body s = Some s' -> P s'.
Proof.
  intros Hbody n. induction n as [|n IH]; intros i s s' Hs Hrun; simpl in Hrun.
  - now injection Hrun as <-.
  - destruct (body i s) as [s1|] eqn:E; [|discriminate].
    exact (IH (i + 1) s1 s' (Hbody i s s1 Hs E) Hrun).
Qed.

Lemma for_loop_invariant {S : Type} (P : S -> Prop) (body : Z -> S -> option S) :
  (forall i s s', P s -> body i s = Some s' -> P s') ->
  forall lo hi s s', P s -> for_loop lo hi body s = Some s' -> P s'.
Proof.
  intros Hbody lo hi. unfold for_loop. now apply for_range_invariant.
Qed.

(** ** Snapshots *)

Lemma set_costmap_id (g : Costmap2D.t) :
  Costmap2D.set_costmap g (Costmap2D.costmap_ g) = g.
Proof. now destruct g. Qed.

Lemma set_costmap_twice (g : Costmap2D.t) (cells cells' : list Z) :
  Costmap2D.set_costmap (Costmap2D.set_costmap g cells) cells' =
  Costmap2D.set_costmap g cells'.
Proof. reflexivity. Qed.

Section IncomingMap.

Import StaticLayer.

Variable sl : StaticLayer.t.
Variable new_map : OccupancyGrid.

(** What [incomingMap] stores for the snapshot cell [v]. *)
Definition stored (v : Z) : Z := interpretValue sl (to_uchar v).

Lemma to_uchar_stored (v : Z) : to_uchar (stored v) = stored v.
Proof.
  unfold to_uchar, stored. apply Z.mod_small.
  pose proof (interpretValue_octet sl (to_uchar v)) as H. unfold octet in H. lia.
Qed.

(** Cells [lo .. hi-1] of [cells'] are the stored snapshot cells, the
    others are those of [cells]. *)
Definition rewritten (lo hi : Z) (cells cells' : list Z) : Prop :=
  length cells' = length cells /\
  forall k : nat,
    cells' !! k =
    if decide (lo <= Z.of_nat k < hi) then stored <$> data new_map !! k
    else cells !! k.

Lemma rewritten_refl (lo : Z) (cells : list Z) : rewritten lo lo cells cells.
Proof.
  split; [reflexivity|]. intros k. destruct (decide _); [lia | reflexivity].
Qed.

Lemma rewritten_step (lo hi : Z) (cells cells' : list Z) (v : Z) :
  lo <= hi -> 0 <= hi < Z.of_nat (length cells) ->
  data new_map !! Z.to_nat hi = Some v ->
  rewritten lo hi cells cells' ->
  rewritten lo (hi + 1) cells (<[Z.to_nat hi := stored v]> cells').
Proof.
  intros Hle Hhi Hv [Hlen Hcells]. split.
  - now rewrite length_insert.
  - intros k. destruct (decide (k = Z.to_nat hi)) as [-> | Hne].
    + rewrite list_lookup_insert_eq by lia.
      destruct (decide _); [|lia]. now rewrite Hv.
    + rewrite list_lookup_insert_ne by congruence.
      rewrite Hcells. repeat destruct (decide _); try reflexivity; lia.
Qed.

Lemma rewritten_trans (a b c : Z) (cells cells' cells'' : list Z) :
  a <= b <= c ->
  rewritten a b cells cells' -> rewritten b c cells' cells'' ->
  rewritten a c cells cells''.
Proof.
  intros Habc [Hlen1 H1] [Hlen2 H2]. split; [congruence|].
  intros k. rewrite H2, H1. repeat destruct (decide _); try reflexivity; lia.
Qed.

(** One row: [n] rounds of the inner loop from column [j]. *)
Lemma incomingMap_row (i : Z) (n : nat) :
  forall (j : Z) (g : Costmap2D.t),
    0 <= i -> 0 <= j -> 0 <= Costmap2D.size_x_ g ->
    let index := i * Costmap2D.size_x_ g + j in
    index + Z.of_nat n <= Z.of_nat (length (Costmap2D.costmap_ g)) ->
    index + Z.of_nat n <= Z.of_nat (length (data new_map)) ->
    index + Z.of_nat n < 2 ^ 32 ->
    exists cells',
      for_range n j (incomingMap_cell sl new_map i) (g, index) =
        Some (Costmap2D.set_costmap g cells', index + Z.of_nat n) /\
      rewritten index (index + Z.of_nat n) (Costmap2D.costmap_ g) cells'.
Proof.
  induction n as [|n IH]; intros j g Hi Hj Hw index Hlen Hdata Hint.
  - exists (Costmap2D.costmap_ g). cbn [for_range Z.of_nat].
    rewrite set_costmap_id, Z.add_0_r. split; [reflexivity | apply rewritten_refl].
  - assert (Hidx : 0 <= index) by (unfold index; nia).
    destruct (lookup_lt_is_Some_2 (data new_map) (Z.to_nat index)) as [v Hv]; [lia|].
    cbn [for_range]. unfold incomingMap_cell at 1.
    rewrite Hv. cbn [mbind option_bind].
    unfold Costmap2D.setCost, Costmap2D.getIndex. fold index.
    destruct (decide (0 <= index < Z.of_nat (length (Costmap2D.costmap_ g))));
      [|lia].
    cbn [mbind option_bind]. fold (stored v). rewrite to_uchar_stored.
    replace (to_uint (index + 1)) with (index + 1)
      by (unfold to_uint; rewrite Z.mod_small; lia).
    set (g1 := Costmap2D.set_costmap g
                 (<[Z.to_nat index := stored v]> (Costmap2D.costmap_ g))).
    destruct (IH (j + 1) g1) as [cells' [Hrun Hcells]];
      try (subst g1; simpl; rewrite ?length_insert; fold index; lia).
    subst g1. simpl in Hrun, Hcells.
    replace (i * Costmap2D.size_x_ g + (j + 1)) with (index + 1) in Hrun, Hcells
      by (unfold index; lia).
    replace (index + Z.of_nat (Datatypes.S n)) with (index + 1 + Z.of_nat n) by lia.
    exists cells'. split.
    + exact Hrun.
    + 
      apply (rewritten_trans index (index + 1) _ _
               (<[Z.to_nat index := stored v]> (Costmap2D.costmap_ g))); [lia| |exact Hcells].
      apply rewritten_step; [lia|lia|exact Hv|apply rewritten_refl].
Qed.

(** [n] rows from row [i]. *)
Lemma incomingMap_rows (n : nat) :
  forall (i : Z) (g : Costmap2D.t),
    0 <= i -> 0 <= Costmap2D.size_x_ g ->
    let W := Costmap2D.size_x_ g in
    (i + Z.of_nat n) * W <= Z.of_nat (length (Costmap2D.costmap_ g)) ->
    (i + Z.of_nat n) * W <= Z.of_nat (length (data new_map)) ->
    (i + Z.of_nat n) * W < 2 ^ 32 ->
    exists cells',
      for_range n i
        (fun i st => for_loop 0 W (incomingMap_cell sl new_map i) st) (g, i * W) =
        Some (Costmap2D.set_costmap g cells', (i + Z.of_nat n) * W) /\
      rewritten (i * W) ((i + Z.of_nat n) * W) (Costmap2D.costmap_ g) cells'.
Proof.
  induction n as [|n IH]; intros i g Hi Hw W Hlen Hdata Hint.
  - exists (Costmap2D.costmap_ g). cbn [for_range Z.of_nat].
    rewrite set_costmap_id, Z.add_0_r. split; [reflexivity | apply rewritten_refl].
  - cbn [for_range]. unfold for_loop at 1. rewrite Z.sub_0_r.
    destruct (incomingMap_row i (Z.to_nat W) 0 g) as [cells1 [Hrow Hcells1]];
      try (fold W; rewrite ?Z2Nat.id by lia; nia).
    fold W in Hrow, Hcells1. rewrite Z.add_0_r in Hrow, Hcells1.
    rewrite Z2Nat.id in Hrow, Hcells1 by lia.
    rewrite Hrow.
    set (g1 := Costmap2D.set_costmap g cells1).
    assert (Hlen1 : length cells1 = length (Costmap2D.costmap_ g))
      by (exact (proj1 Hcells1)).
    destruct (IH (i + 1) g1) as [cells' [Hrun Hcells]];
      try (subst g1; simpl; fold W; rewrite ?Hlen1; nia).
    subst g1. simpl in Hrun, Hcells. fold W in Hrun, Hcells.
    replace ((i + 1) * W) with (i * W + W) in Hrun, Hcells by lia.
    replace ((i + Z.of_nat (Datatypes.S n)) * W) with ((i + 1 + Z.of_nat n) * W)
      by (f_equal; lia).
    exists cells'. split.
    + exact Hrun.
    + 
      apply (rewritten_trans (i * W) (i * W + W) _ _ cells1); [nia|exact Hcells1|exact Hcells].
Qed.

End IncomingMap.

(** A snapshot [incomingMap] can read in full: the shape fits [unsigned
    int], and the buffer holds at least [width * height] cells. *)
Definition readable (s : StaticLayer.OccupancyGrid) : Prop :=
  0 <= StaticLayer.info_width s < 2 ^ 32 /\
  0 <= StaticLayer.info_height s < 2 ^ 32 /\
  StaticLayer.info_width s * StaticLayer.info_height s < 2 ^ 32 /\
  StaticLayer.info_width s * StaticLayer.info_height s <=
    Z.of_nat (length (StaticLayer.data s)).


(** What [incomingMap] leaves behind for the snapshot [s], started in [w]:
    a private grid of the snapshot's shape whose cell [(col, row)] is the
    interpretation of [cells[row * width + col]], the whole grid as dirty
    rectangle, the dirty flag and [map_received_] set. *)
Definition holds_snapshot (w : StaticLayer.World) (s : StaticLayer.OccupancyGrid)
    (w' : StaticLayer.World) : Prop :=
  let sl' := StaticLayer.layer w' in
  let g' := StaticLayer.grid sl' in
  Costmap2D.size_x_ g' = StaticLayer.info_width s /\
  Costmap2D.size_y_ g' = StaticLayer.info_height s /\
  Z.of_nat (length (Costmap2D.costmap_ g')) =
    StaticLayer.info_width s * StaticLayer.info_height s /\
  (forall col row,
     0 <= col < StaticLayer.info_width s -> 0 <= row < StaticLayer.info_height s ->
     exists v,
       StaticLayer.data s !! Z.to_nat (row * StaticLayer.info_width s + col) = Some v /\
       Costmap2D.getCost g' col row =
         Some (StaticLayer.interpretValue (StaticLayer.layer w) (to_uchar v))) /\
  StaticLayer.x_ sl' = 0 /\ StaticLayer.y_ sl' = 0 /\
  StaticLayer.width_ sl' = Costmap2D.size_x_ g' /\
  StaticLayer.height_ sl' = Costmap2D.size_y_ g' /\
  StaticLayer.has_updated_data_ sl' = true /\
  StaticLayer.map_received_ sl' = true.

Section IncomingMapWhole.

Import StaticLayer.

Lemma to_uint_small (z : Z) : 0 <= z < 2 ^ 32 -> to_uint z = z.
Proof. intros H. unfold to_uint. now apply Z.mod_small. Qed.

(** After the resize policy the private grid has the snapshot's shape. *)
Lemma incomingMap_resize_shape (w : World) (s : OccupancyGrid) :
  0 <= info_width s < 2 ^ 32 -> 0 <= info_height s < 2 ^ 32 ->
  Costmap2D.shaped (grid (layer w)) ->
  let g1 := grid (layer (incomingMap_resize w s)) in
  Costmap2D.size_x_ g1 = info_width s /\
  Costmap2D.size_y_ g1 = info_height s /\
  Z.of_nat (length (Costmap2D.costmap_ g1)) = info_width s * info_height s /\
  (forall v, interpretValue (layer (incomingMap_resize w s)) v =
             interpretValue (layer w) v).
Proof.
  intros Hw Hh [Hsx [Hsy Hlen]]. unfold incomingMap_resize.
  rewrite !to_uint_small by assumption.
  assert (Hfresh : forall g : Costmap2D.t,
    Z.of_nat (length (Costmap2D.costmap_
      (Costmap2D.resizeMap g (info_width s) (info_height s) (info_resolution s)
         (info_origin_x s) (info_origin_y s)))) = info_width s * info_height s).
  { intros g. simpl. rewrite length_replicate. nia. }
  destruct (negb (LayeredCostmap.rolling (layered_costmap_ w)) && _).
  { simpl. repeat split. apply Hfresh. }
  destruct (negb (Costmap2D.size_x_ (grid (layer w)) =? info_width s)) eqn:Ex.
  { simpl. repeat split. apply Hfresh. }
  destruct (negb (Costmap2D.size_y_ (grid (layer w)) =? info_height s)) eqn:Ey.
  { simpl. repeat split. apply Hfresh. }
  apply negb_false_iff, Z.eqb_eq in Ex. apply negb_false_iff, Z.eqb_eq in Ey.
  destruct (false || false || _ || _ || _).
  { simpl. repeat split. apply Hfresh. }
  simpl. repeat split; congruence.
Qed.

(** [incomingMap] reads every readable snapshot and stores it. *)
Lemma incomingMap_stores (w : World) (s : OccupancyGrid) :
  readable s -> Costmap2D.shaped (grid (layer w)) ->
  exists w', incomingMap w s = Some w' /\ holds_snapshot w s w'.
Proof.
  intros (Hw & Hh & Hint & Hdata) Hshaped.
  destruct (incomingMap_resize_shape w s Hw Hh Hshaped) as (Hx & Hy & Hlen & Hcfg).
  unfold incomingMap. rewrite !to_uint_small by assumption.
  set (w1 := incomingMap_resize w s) in *.
  set (g1 := grid (layer w1)) in *.
  unfold for_loop. rewrite Z.sub_0_r.
  destruct (incomingMap_rows (layer w1) s (Z.to_nat (info_height s)) 0 g1)
    as [cells' [Hrun [Hlen' Hcells]]];
    try (rewrite ?Z2Nat.id by lia; rewrite ?Hx; lia).
  rewrite Hx in Hrun, Hcells. rewrite Z2Nat.id in Hrun, Hcells by lia.
  change (0 * info_width s) with 0 in Hrun, Hcells.
  unfold for_loop in Hrun. rewrite Hrun. cbn [mbind option_bind fst].
  eexists. split; [reflexivity|].
  unfold holds_snapshot. cbn.
  repeat split; try assumption; try lia.
  intros col row Hcol Hrow.
  assert (Hk : 0 <= row * info_width s + col < info_width s * info_height s) by nia.
  destruct (lookup_lt_is_Some_2 (data s) (Z.to_nat (row * info_width s + col)))
    as [v Hv]; [lia|].
  exists v. split; [exact Hv|].
  unfold Costmap2D.getCost, Costmap2D.getIndex. cbn. rewrite Hx.
  destruct (decide (0 <= row * info_width s + col)); [|lia].
  rewrite Hcells. destruct (decide _); [|lia].
  rewrite Hv. cbn. unfold stored. now rewrite Hcfg.
Qed.

End IncomingMapWhole.

(** The layered costmap and the layer before the first snapshot. *)
Definition fresh_world : StaticLayer.World :=
  StaticLayer.mkWorld
    (configured true false true 100 (-1) empty_grid)
    (LayeredCostmap.mk empty_grid false false).



(** C5, as stated, fails: a snapshot of shape 1 x 1 with two cells is not
    rejected; the layer takes it and its state changes. *)
Lemma incomingMap_takes_malformed :
  let s := StaticLayer.mkOccupancyGrid 1 1 1 0 0 [100; 0] in
  StaticLayer.info_width s * StaticLayer.info_height s <>
    Z.of_nat (length (StaticLayer.data s)) /\
  exists w',
    StaticLayer.incomingMap fresh_world s = Some w' /\
    w' <> fresh_world /\
    StaticLayer.map_received_ (StaticLayer.layer fresh_world) = false /\
    StaticLayer.map_received_ (StaticLayer.layer w') = true /\
    Costmap2D.costmap_ (StaticLayer.grid (StaticLayer.layer fresh_world)) = [] /\
    Costmap2D.costmap_ (StaticLayer.grid (StaticLayer.layer w')) = [LETHAL_OBSTACLE].
Proof.
  split; [discriminate|].
  eexists. split; [vm_compute; reflexivity|].
  repeat split. discriminate.
Qed.

(** C5, amended.  [incomingMap] checks no shape: every snapshot whose buffer
    holds at least [width * height] cells, one with surplus cells included,
    is taken; the first [width * height] cells are interpreted into the
    private grid, the whole grid becomes the dirty rectangle and
    [map_received_] is set. *)
Theorem incomingMap_never_rejects (w : StaticLayer.World) (s : StaticLayer.OccupancyGrid) :
  readable s -> Costmap2D.shaped (StaticLayer.grid (StaticLayer.layer w)) ->
  exists w', StaticLayer.incomingMap w s = Some w' /\ holds_snapshot w s w'.
Proof. exact (incomingMap_stores w s). Qed.

(** The 1 x 1 snapshot with two cells. *)
Lemma incomingMap_never_rejects_witness :
  exists w',
    StaticLayer.incomingMap fresh_world
      (StaticLayer.mkOccupancyGrid 1 1 1 0 0 [100; 0]) = Some w' /\
    holds_snapshot fresh_world (StaticLayer.mkOccupancyGrid 1 1 1 0 0 [100; 0]) w'.
Proof.
  apply incomingMap_never_rejects.
  - unfold readable. simpl. lia.
  - unfold Costmap2D.shaped. simpl. lia.
Defined.

(** ** Stamping with the maximum *)

(** No cell of [after] is below what it was in [before], except where
    [allowed old new] holds. *)
Definition never_lowered (allowed : Z -> Z -> Prop) (before after : Costmap2D.t) : Prop :=
  forall (k : nat) (old : Z),
    Costmap2D.costmap_ before !! k = Some old ->
    exists new, Costmap2D.costmap_ after !! k = Some new /\ (old <= new \/ allowed old new).

(** The exception C1 states: the master cell was NO_INFO and unknown space
    is not tracked. *)
Definition untracked_unknown (sl : StaticLayer.t) (old new : Z) : Prop :=
  old = NO_INFORMATION /\ StaticLayer.track_unknown_space_ sl = false.

(** The exception the rolling branch adds: unknown space is tracked, the
    master cell was NO_INFO and is now LETHAL. *)
Definition unknown_made_lethal (sl : StaticLayer.t) (lc : LayeredCostmap.t)
    (old new : Z) : Prop :=
  old = NO_INFORMATION /\ new = LETHAL_OBSTACLE /\
  StaticLayer.track_unknown_space_ sl = true /\ LayeredCostmap.rolling lc = true.

Section UpdateCosts.

Import StaticLayer.

Variable mapToWorld : Costmap2D.t -> Z -> Z -> Q * Q.
Variable worldToMap : Costmap2D.t -> Q -> Q -> option (Z * Z).
Variable sl : StaticLayer.t.
Variable lc : LayeredCostmap.t.
Variable master0 : Costmap2D.t.

Hypothesis layer_octets : Costmap2D.octets (grid sl).
Hypothesis master_octets : Costmap2D.octets master0.

Lemma getCost_octet (g : Costmap2D.t) (mx my cost : Z) :
  Costmap2D.octets g -> Costmap2D.getCost g mx my = Some cost -> octet cost.
Proof.
  unfold Costmap2D.octets, Costmap2D.getCost. intros Hall H.
  destruct (decide _); [|discriminate].
  exact (proj1 (Forall_lookup _ _) Hall _ _ H).
Qed.

Lemma to_uchar_octet (z : Z) : octet z -> to_uchar z = z.
Proof. unfold octet, to_uchar. intros H. apply Z.mod_small. lia. Qed.

(** What [setCost] changes: the cell at the index, nothing else. *)
Lemma setCost_lookup (g g' : Costmap2D.t) (mx my cost : Z) :
  Costmap2D.setCost g mx my cost = Some g' ->
  let k0 := Z.to_nat (Costmap2D.getIndex g mx my) in
  (k0 < length (Costmap2D.costmap_ g))%nat /\
  Costmap2D.size_x_ g' = Costmap2D.size_x_ g /\
  forall k : nat,
    Costmap2D.costmap_ g' !! k =
    if decide (k = k0) then Some (to_uchar cost) else Costmap2D.costmap_ g !! k.
Proof.
  unfold Costmap2D.setCost. destruct (decide _) as [Hin|]; [|discriminate].
  intros H. injection H as <-. simpl. repeat split; [lia|].
  intros k. destruct (decide _) as [-> | Hne].
  - apply list_lookup_insert_eq. lia.
  - apply list_lookup_insert_ne. congruence.
Qed.

Lemma getCost_lookup (g : Costmap2D.t) (mx my cost : Z) :
  Costmap2D.getCost g mx my = Some cost ->
  Costmap2D.costmap_ g !! Z.to_nat (Costmap2D.getIndex g mx my) = Some cost.
Proof.
  unfold Costmap2D.getCost. now destruct (decide _).
Qed.

(** *** The non-rolling branch *)

(** Every cell is an octet at or above its first value. *)
Definition raised (m : Costmap2D.t) : Prop :=
  forall (k : nat) (old : Z),
    Costmap2D.costmap_ master0 !! k = Some old ->
    exists cur, Costmap2D.costmap_ m !! k = Some cur /\ octet cur /\ old <= cur.

Lemma raised_start : raised master0.
Proof.
  intros k old H. exists old. split; [exact H|]. split; [|lia].
  exact (proj1 (Forall_lookup _ _) master_octets _ _ H).
Qed.

Lemma updateWithMax_raised (min_i min_j max_i max_j : Z) (m' : Costmap2D.t) :
  updateWithMax sl master0 min_i min_j max_i max_j = Some m' -> raised m'.
Proof.
  unfold updateWithMax, stamp.
  apply (for_loop_invariant raised); [|exact raised_start].
  intros j m m1 Hm. apply (for_loop_invariant raised); [|exact Hm].
  clear m m1 Hm. intros i m m1 Hm Hstep.
  destruct (Costmap2D.getCost (grid sl) i j) as [cost|] eqn:Ecost; [|discriminate].
  destruct (Costmap2D.getCost m i j) as [old_cost|] eqn:Eold; [|discriminate].
  cbn [mbind option_bind] in Hstep.
  destruct (setCost_lookup _ _ _ _ _ Hstep) as (_ & _ & Hcells).
  apply getCost_lookup in Eold.
  pose proof (getCost_octet _ _ _ _ layer_octets Ecost) as Hc.
  intros k old Hk. destruct (Hm k old Hk) as (cur & Hcur & Hoct & Hle).
  rewrite Hcells. destruct (decide _) as [-> | _].
  - rewrite Hcur in Eold. injection Eold as <-.
    exists (Z.max cost cur). rewrite to_uchar_octet by (unfold octet in *; lia).
    repeat split; unfold octet in *; lia.
  - exists cur. split; [|split]; assumption.
Qed.

(** *** The rolling branch *)

(** The value a cell may have reached from its first value [old]. *)
Definition reached (old cur : Z) : Prop :=
  octet cur /\
  (cur = NO_INFORMATION -> old = NO_INFORMATION) /\
  (old <= cur \/
   (old = NO_INFORMATION /\
    (track_unknown_space_ sl = false \/ cur = LETHAL_OBSTACLE))).

Definition rolled (m : Costmap2D.t) : Prop :=
  forall (k : nat) (old : Z),
    Costmap2D.costmap_ master0 !! k = Some old ->
    exists cur, Costmap2D.costmap_ m !! k = Some cur /\ reached old cur.

Lemma rolled_start : rolled master0.
Proof.
  intros k old H. exists old. split; [exact H|].
  split; [|split; [tauto | left; lia]].
  exact (proj1 (Forall_lookup _ _) master_octets _ _ H).
Qed.

(** The four writes of the maximum merge keep a cell within [reached]. *)
Lemma reached_merge (old cur cost : Z) :
  reached old cur -> octet cost -> cost <> NO_INFORMATION ->
  reached old
    (if track_unknown_space_ sl then
       if cost =? LETHAL_OBSTACLE then cost else Z.max cost cur
     else
       if cur =? NO_INFORMATION then cost else Z.max cost cur).
Proof.
  unfold reached, octet, NO_INFORMATION, LETHAL_OBSTACLE.
  intros (Hoct & Hno & Hle) Hc Hne.
  destruct (track_unknown_space_ sl).
  - destruct (cost =? 254) eqn:E.
    + apply Z.eqb_eq in E. subst cost. split; [lia | split; [lia|]].
      destruct (Z.eq_dec old 255); [right; tauto | left; lia].
    + apply Z.eqb_neq in E. split; [lia | split; [lia|]].
      destruct Hle as [Hle | (-> & [Hf | ->])]; [left; lia | discriminate | right].
      split; [reflexivity|]. right. lia.
  - destruct (cur =? 255) eqn:E.
    + apply Z.eqb_eq in E. subst cur. split; [lia | split; [lia|]].
      right. split; [tauto | left; reflexivity].
    + apply Z.eqb_neq in E. split; [lia | split; [lia|]].
      destruct Hle as [Hle | (-> & _)]; [left; lia | right].
      split; [reflexivity | left; reflexivity].
Qed.

Hypothesis maximum : use_maximum_ sl = true.

Lemma updateCosts_cell_rolled (i j : Z) (m m' : Costmap2D.t) :
  rolled m -> updateCosts_cell mapToWorld worldToMap sl lc i j m = Some m' ->
  rolled m'.
Proof.
  intros Hm. unfold updateCosts_cell. rewrite maximum.
  destruct (mapToWorld (LayeredCostmap.costmap lc) i j) as [wx wy].
  destruct (worldToMap (grid sl) wx wy) as [[mx my]|];
    [|intros H; now injection H as <-].
  destruct (Costmap2D.getCost (grid sl) mx my) as [cost|] eqn:Ecost; [|discriminate].
  cbn [mbind option_bind negb].
  destruct (cost =? NO_INFORMATION) eqn:Eno; [intros H; now injection H as <-|].
  apply Z.eqb_neq in Eno.
  destruct (Costmap2D.getCost m i j) as [old_cost|] eqn:Eold; [|discriminate].
  cbn [mbind option_bind]. apply getCost_lookup in Eold.
  pose proof (getCost_octet _ _ _ _ layer_octets Ecost) as Hc.
  intros Hstep.
  assert (Hset : Costmap2D.setCost m i j
            (if track_unknown_space_ sl then
               if cost =? LETHAL_OBSTACLE then cost else Z.max cost old_cost
             else
               if old_cost =? NO_INFORMATION then cost else Z.max cost old_cost)
          = Some m').
  { destruct (track_unknown_space_ sl);
      [destruct (cost =? LETHAL_OBSTACLE) | destruct (old_cost =? NO_INFORMATION)];
      exact Hstep. }
  clear Hstep.
  destruct (setCost_lookup _ _ _ _ _ Hset) as (_ & _ & Hcells).
  intros k old Hk. destruct (Hm k old Hk) as (cur & Hcur & Hreached).
  rewrite Hcells. destruct (decide _) as [-> | _].
  - rewrite Hcur in Eold. injection Eold as <-.
    pose proof (reached_merge old cur cost Hreached Hc Eno) as Hnew.
    eexists. split; [reflexivity|].
    rewrite to_uchar_octet by exact (proj1 Hnew). exact Hnew.
  - exists cur. split; assumption.
Qed.

Lemma updateCosts_rolling_rolled (min_i min_j max_i max_j : Z) (m' : Costmap2D.t) :
  for_loop (to_uint min_i) (to_uint max_i)
    (fun i m =>
       for_loop (to_uint min_j) (to_uint max_j)
         (fun j m => updateCosts_cell mapToWorld worldToMap sl lc i j m) m)
    master0 = Some m' ->
  rolled m'.
Proof.
  apply (for_loop_invariant rolled); [|exact rolled_start].
  intros i m m1 Hm. apply (for_loop_invariant rolled); [|exact Hm].
  intros j m2 m3. apply updateCosts_cell_rolled.
Qed.

(** [updateCosts] with the maximum policy. *)
Lemma updateCosts_max_never_lowered (min_i min_j max_i max_j : Z) (m' : Costmap2D.t) :
  updateCosts mapToWorld worldToMap sl lc master0 min_i min_j max_i max_j = Some m' ->
  never_lowered
    (fun old new => untracked_unknown sl old new \/ unknown_made_lethal sl lc old new)
    master0 m'.
Proof.
  unfold updateCosts. rewrite maximum. cbn [negb].
  pose proof raised_start as Hstart.
  destruct (negb (enabled_ sl)).
  { intros H. injection H as <-. intros k old Hk.
    destruct (Hstart k old Hk) as (cur & ? & _ & ?). exists cur. tauto. }
  destruct (negb (map_received_ sl)).
  { intros H. injection H as <-. intros k old Hk.
    destruct (Hstart k old Hk) as (cur & ? & _ & ?). exists cur. tauto. }
  destruct (LayeredCostmap.rolling lc) eqn:Eroll; cbn [negb].
  - intros H. apply updateCosts_rolling_rolled in H.
    intros k old Hk. destruct (H k old Hk) as (cur & Hcur & _ & _ & Hle).
    exists cur. split; [exact Hcur|].
    destruct Hle as [Hle | (-> & [Hf | ->])]; [tauto | right; left | ].
    + split; [reflexivity | exact Hf].
    + destruct (track_unknown_space_ sl) eqn:Et.
      * right. right. repeat split; assumption.
      * right. left. split; [reflexivity | exact Et].
  - intros H. apply updateWithMax_raised in H.
    intros k old Hk. destruct (H k old Hk) as (cur & ? & _ & ?). exists cur. tauto.
Qed.

End UpdateCosts.

(** A rolling costmap whose master holds one NO_INFO cell, under a layer
    that tracks unknown space, merges by maximum and holds LETHAL there. *)
Definition lethal_layer : StaticLayer.t := received true true true (unit_grid 1 1 [254]).
Definition unknown_master : Costmap2D.t := unit_grid 1 1 [255].
Definition rolling_costmap : LayeredCostmap.t := LayeredCostmap.mk unknown_master true true.

(** C1, as stated, fails: with unknown space tracked, the rolling branch
    writes LETHAL (254) over a master cell that held NO_INFO (255). *)
Lemma updateCosts_lowers_unknown :
  StaticLayer.map_received_ lethal_layer = true /\
  StaticLayer.use_maximum_ lethal_layer = true /\
  StaticLayer.track_unknown_space_ lethal_layer = true /\
  exists m',
    StaticLayer.updateCosts centre_mapToWorld floor_worldToMap lethal_layer
      rolling_costmap unknown_master 0 0 1 1 = Some m' /\
    Costmap2D.costmap_ unknown_master = [255] /\
    Costmap2D.costmap_ m' = [254] /\
    ~ never_lowered (untracked_unknown lethal_layer) unknown_master m'.
Proof.
  repeat split.
  eexists. split; [vm_compute; reflexivity|].
  repeat split.
  intros H. destruct (H 0%nat 255 eq_refl) as (new & Hnew & [Hle | [_ Ht]]).
  - simpl in Hnew. injection Hnew as <-. lia.
  - discriminate.
Qed.

(** C1, amended.  [updateCosts] with [use_maximum_] set leaves every master
    cell at or above its previous value, except cells that held NO_INFO
    while unknown space is not tracked, and except, in the rolling branch
    with unknown space tracked, cells that held NO_INFO and now hold
    LETHAL. *)
Theorem updateCosts_max_monotone
    (mapToWorld : Costmap2D.t -> Z -> Z -> Q * Q)
    (worldToMap : Costmap2D.t -> Q -> Q -> option (Z * Z))
    (sl : StaticLayer.t) (lc : LayeredCostmap.t) (master_grid master_grid' : Costmap2D.t)
    (min_i min_j max_i max_j : Z) :
  Costmap2D.octets (StaticLayer.grid sl) ->
  Costmap2D.octets master_grid ->
  StaticLayer.use_maximum_ sl = true ->
  StaticLayer.updateCosts mapToWorld worldToMap sl lc master_grid
    min_i min_j max_i max_j = Some master_grid' ->
  never_lowered
    (fun old new => untracked_unknown sl old new \/ unknown_made_lethal sl lc old new)
    master_grid master_grid'.
Proof.
  intros Hl Hm Hmax. now apply updateCosts_max_never_lowered.
Qed.

(** The one-cell rolling costmap: NO_INFO becomes LETHAL. *)
Lemma updateCosts_max_monotone_witness :
  never_lowered
    (fun old new =>
       untracked_unknown lethal_layer old new \/
       unknown_made_lethal lethal_layer rolling_costmap old new)
    unknown_master (unit_grid 1 1 [254]).
Proof.
  apply (updateCosts_max_monotone centre_mapToWorld floor_worldToMap lethal_layer
           rolling_costmap unknown_master (unit_grid 1 1 [254]) 0 0 1 1).
  - unfold Costmap2D.octets, octet. simpl. repeat constructor; lia.
  - unfold Costmap2D.octets, octet. simpl. repeat constructor; lia.
  - reflexivity.
  - vm_compute. reflexivity.
Defined.

(** ** Where stamping is defined *)

Lemma for_range_defined {S : Type} (P : S -> Prop) (R : Z -> Prop)
    (body : Z -> S -> option S) :
  (forall i s, R i -> P s -> exists s', body i s = Some s' /\ P s') ->
  forall n i s,
    (forall k, i <= k < i + Z.of_nat n -> R k) -> P s ->
    exists s', for_range n i body s = Some s' /\ P s'.
Proof.
  intros Hbody n. induction n as [|n IH]; intros i s HR Hs.
  - exists s. split; [reflexivity | exact Hs].
  - destruct (Hbody i s (HR i ltac:(lia)) Hs) as (s1 & E & Hs1).
    cbn [for_range]. rewrite E. apply IH; [|exact Hs1].
    intros k Hk. apply HR. lia.
Qed.

Lemma for_loop_defined {S : Type} (P : S -> Prop) (R : Z -> Prop)
    (body : Z -> S -> option S) (lo hi : Z) (s : S) :
  (forall i s, R i -> P s -> exists s', body i s = Some s' /\ P s') ->
  (forall k, lo <= k < hi -> R k) -> P s ->
  exists s', for_loop lo hi body s = Some s' /\ P s'.
Proof.
  intros Hbody HR Hs. unfold for_loop.
  apply (for_range_defined P R); [exact Hbody| |exact Hs].
  intros k Hk. apply HR. lia.
Qed.

Section UpdateCostsDefined.

Import StaticLayer.

Variable mapToWorld : Costmap2D.t -> Z -> Z -> Q * Q.
Variable worldToMap : Costmap2D.t -> Q -> Q -> option (Z * Z).
Variable sl : StaticLayer.t.
Variable lc : LayeredCostmap.t.
Variable master0 : Costmap2D.t.

Hypothesis layer_shaped : Costmap2D.shaped (grid sl).
Hypothesis master_shaped : Costmap2D.shaped master0.

(** [worldToMap] answers with a cell of the grid it is asked about. *)
Hypothesis worldToMap_inside :
  forall g wx wy mx my,
    worldToMap g wx wy = Some (mx, my) ->
    0 <= mx < Costmap2D.size_x_ g /\ 0 <= my < Costmap2D.size_y_ g.

(** The master grid keeps its shape while it is stamped. *)
Definition same_frame (m : Costmap2D.t) : Prop :=
  Costmap2D.size_x_ m = Costmap2D.size_x_ master0 /\
  length (Costmap2D.costmap_ m) = length (Costmap2D.costmap_ master0).

Lemma getCost_inside (g : Costmap2D.t) (mx my : Z) :
  Costmap2D.shaped g ->
  0 <= mx < Costmap2D.size_x_ g -> 0 <= my < Costmap2D.size_y_ g ->
  exists cost, Costmap2D.getCost g mx my = Some cost.
Proof.
  intros (Hx & Hy & Hlen) Hmx Hmy. unfold Costmap2D.getCost, Costmap2D.getIndex.
  destruct (decide _); [|nia].
  apply lookup_lt_is_Some_2. nia.
Qed.

Lemma master_getCost (m : Costmap2D.t) (i j : Z) :
  same_frame m ->
  0 <= i < Costmap2D.size_x_ master0 -> 0 <= j < Costmap2D.size_y_ master0 ->
  exists cost, Costmap2D.getCost m i j = Some cost.
Proof.
  intros (Hsx & Hlen) Hi Hj. destruct master_shaped as (Hx & Hy & Hl).
  unfold Costmap2D.getCost, Costmap2D.getIndex. rewrite Hsx.
  destruct (decide _); [|nia].
  apply lookup_lt_is_Some_2. nia.
Qed.

Lemma master_setCost (m : Costmap2D.t) (i j cost : Z) :
  same_frame m ->
  0 <= i < Costmap2D.size_x_ master0 -> 0 <= j < Costmap2D.size_y_ master0 ->
  exists m', Costmap2D.setCost m i j cost = Some m' /\ same_frame m'.
Proof.
  intros (Hsx & Hlen) Hi Hj. destruct master_shaped as (Hx & Hy & Hl).
  unfold Costmap2D.setCost, Costmap2D.getIndex. rewrite Hsx.
  destruct (decide _); [|nia].
  eexists. split; [reflexivity|].
  split; [exact Hsx | simpl; now rewrite length_insert].
Qed.

Lemma updateCosts_cell_defined (i j : Z) (m : Costmap2D.t) :
  0 <= j < Costmap2D.size_y_ master0 -> 0 <= i < Costmap2D.size_x_ master0 ->
  same_frame m ->
  exists m', updateCosts_cell mapToWorld worldToMap sl lc i j m = Some m' /\ same_frame m'.
Proof.
  intros Hj Hi Hm. unfold updateCosts_cell.
  destruct (mapToWorld (LayeredCostmap.costmap lc) i j) as [wx wy].
  destruct (worldToMap (grid sl) wx wy) as [[mx my]|] eqn:Ew; [|now exists m].
  destruct (worldToMap_inside _ _ _ _ _ Ew) as [Hmx Hmy].
  destruct (getCost_inside (grid sl) mx my layer_shaped Hmx Hmy) as [cost ->].
  cbn [mbind option_bind].
  destruct (cost =? NO_INFORMATION); [now exists m|].
  destruct (negb (use_maximum_ sl)); [now apply master_setCost|].
  destruct (master_getCost m i j Hm Hi Hj) as [old_cost ->].
  cbn [mbind option_bind].
  destruct (track_unknown_space_ sl);
    [destruct (cost =? LETHAL_OBSTACLE) | destruct (old_cost =? NO_INFORMATION)];
    now apply master_setCost.
Qed.

Lemma stamp_defined (merge : Z -> Z -> Z) (min_i min_j max_i max_j : Z) :
  Costmap2D.size_x_ (grid sl) = Costmap2D.size_x_ master0 ->
  Costmap2D.size_y_ (grid sl) = Costmap2D.size_y_ master0 ->
  0 <= min_i -> max_i <= Costmap2D.size_x_ master0 ->
  0 <= min_j -> max_j <= Costmap2D.size_y_ master0 ->
  exists m', stamp merge sl master0 min_i min_j max_i max_j = Some m' /\ same_frame m'.
Proof.
  intros Hsx Hsy Hi0 Hi1 Hj0 Hj1. unfold stamp.
  apply (for_loop_defined same_frame (fun j => 0 <= j < Costmap2D.size_y_ master0));
    [|lia|split; reflexivity].
  intros j m Hj Hm.
  apply (for_loop_defined same_frame (fun i => 0 <= i < Costmap2D.size_x_ master0));
    [|lia|exact Hm].
  clear m Hm. intros i m Hi Hm.
  destruct (getCost_inside (grid sl) i j layer_shaped) as [cost ->]; [lia|lia|].
  destruct (master_getCost m i j Hm Hi Hj) as [old_cost ->].
  cbn [mbind option_bind]. now apply master_setCost.
Qed.

(** On a rectangle inside the master grid [updateCosts] is defined: it
    performs no access outside a buffer.  In the non-rolling case the
    private grid has the master's shape (section 3, invariant 3). *)
Lemma updateCosts_defined (min_i min_j max_i max_j : Z) :
  (LayeredCostmap.rolling lc = false ->
   Costmap2D.size_x_ (grid sl) = Costmap2D.size_x_ master0 /\
   Costmap2D.size_y_ (grid sl) = Costmap2D.size_y_ master0) ->
  0 <= min_i < 2 ^ 32 -> 0 <= max_i <= Costmap2D.size_x_ master0 ->
  0 <= min_j < 2 ^ 32 -> 0 <= max_j <= Costmap2D.size_y_ master0 ->
  Costmap2D.size_x_ master0 < 2 ^ 32 -> Costmap2D.size_y_ master0 < 2 ^ 32 ->
  exists m',
    updateCosts mapToWorld worldToMap sl lc master0 min_i min_j max_i max_j = Some m'.
Proof.
  intros Hsame Hi0 Hi1 Hj0 Hj1 Hx Hy. unfold updateCosts.
  destruct (negb (enabled_ sl)); [now exists master0|].
  destruct (negb (map_received_ sl)); [now exists master0|].
  destruct (LayeredCostmap.rolling lc); cbn [negb].
  - rewrite !to_uint_small by lia.
    destruct (for_loop_defined same_frame
                (fun i => 0 <= i < Costmap2D.size_x_ master0)
                (fun i m =>
                   for_loop min_j max_j
                     (fun j m => updateCosts_cell mapToWorld worldToMap sl lc i j m) m)
                min_i max_i master0) as (m' & E & _);
      [|lia|split; reflexivity|now exists m'].
    intros i m Hi Hm.
    apply (for_loop_defined same_frame (fun j => 0 <= j < Costmap2D.size_y_ master0));
      [|lia|exact Hm].
    intros j m1 Hj Hm1. now apply updateCosts_cell_defined.
  - destruct (Hsame eq_refl) as [Hsx Hsy].
    destruct (negb (use_maximum_ sl)).
    + destruct (stamp_defined (fun cost _ => cost) min_i min_j max_i max_j)
        as (m' & E & _); try assumption; try lia. now exists m'.
    + destruct (stamp_defined Z.max min_i min_j max_i max_j)
        as (m' & E & _); try assumption; try lia. now exists m'.
Qed.

End UpdateCostsDefined.


(** * Further properties of the static layer *)

(** ** What an interpreted cell tells about the snapshot cell *)

Section InterpretValueMore.

Import StaticLayer.

Variable sl : StaticLayer.t.
Hypothesis threshold_octet : octet (lethal_threshold_ sl).

(** Below the threshold the scaled cost stays under LETHAL. *)
Lemma interpret_truncated_known (v : Z) :
  octet v -> v <> unknown_cost_value_ sl -> v < lethal_threshold_ sl ->
  0 <= interpretValue sl v <= LETHAL_OBSTACLE - 1.
Proof.
  intros Hv Hu Hlt. rewrite interpretValue_truncated by assumption.
  unfold interpret_truncated.
  apply Z.eqb_neq in Hu. rewrite Hu, !andb_false_r.
  destruct (v >=? lethal_threshold_ sl) eqn:E; [rewrite Z.geb_leb in E; apply Z.leb_le in E; lia|].
  destruct (trinary_costmap_ sl); [unfold FREE_SPACE, LETHAL_OBSTACLE; lia|].
  apply scaled_range. unfold octet in Hv. lia.
Qed.

Lemma interpretValue_unknown (v : Z) :
  v = unknown_cost_value_ sl ->
  interpretValue sl v = if track_unknown_space_ sl then NO_INFORMATION else FREE_SPACE.
Proof.
  intros ->. unfold interpretValue. rewrite Z.eqb_refl.
  now destruct (track_unknown_space_ sl).
Qed.

Lemma interpretValue_lethal (v : Z) :
  v <> unknown_cost_value_ sl -> lethal_threshold_ sl <= v ->
  interpretValue sl v = LETHAL_OBSTACLE.
Proof.
  intros Hu Hge. unfold interpretValue.
  apply Z.eqb_neq in Hu. rewrite Hu, !andb_false_r.
  destruct (v >=? lethal_threshold_ sl) eqn:E; [reflexivity|].
  rewrite Z.geb_leb in E. apply Z.leb_gt in E. lia.
Qed.

End InterpretValueMore.

(** X1.  For octets, an interpreted cell is NO_INFO exactly when unknown
    space is tracked and the snapshot cell is the unknown value, and it is
    LETHAL exactly when the snapshot cell is at or above the threshold and
    is not the unknown value. *)
Theorem interpretValue_preimages (sl : StaticLayer.t) (v : Z) :
  octet v -> octet (StaticLayer.lethal_threshold_ sl) ->
  (StaticLayer.interpretValue sl v = NO_INFORMATION <->
   StaticLayer.track_unknown_space_ sl = true /\ v = StaticLayer.unknown_cost_value_ sl) /\
  (StaticLayer.interpretValue sl v = LETHAL_OBSTACLE <->
   StaticLayer.lethal_threshold_ sl <= v /\ v <> StaticLayer.unknown_cost_value_ sl).
Proof.
  intros Hv Ht.
  destruct (Z.eq_dec v (StaticLayer.unknown_cost_value_ sl)) as [Hu | Hu].
  - rewrite (interpretValue_unknown sl v Hu).
    destruct (StaticLayer.track_unknown_space_ sl);
      unfold NO_INFORMATION, LETHAL_OBSTACLE, FREE_SPACE; split; split.
    + intros _. split; [reflexivity | exact Hu].
    + reflexivity.
    + discriminate.
    + intros [_ Hne]. contradiction.
    + discriminate.
    + intros [Hf _]. discriminate.
    + discriminate.
    + intros [_ Hne]. contradiction.
  - destruct (Z_lt_le_dec v (StaticLayer.lethal_threshold_ sl)) as [Hlt | Hge].
    + pose proof (interpret_truncated_known sl Ht v Hv Hu Hlt) as Hr.
      unfold NO_INFORMATION, LETHAL_OBSTACLE in *. split; split.
      * intros E. lia.
      * intros [_ E]. contradiction.
      * intros E. lia.
      * intros [Hge _]. lia.
    + rewrite (interpretValue_lethal sl v Hu Hge).
      unfold NO_INFORMATION, LETHAL_OBSTACLE. split; split.
      * discriminate.
      * intros [_ E]. contradiction.
      * intros _. split; assumption.
      * reflexivity.
Qed.

(** A scaled map with threshold 100 and unknown value 255. *)
Definition scaled_layer : StaticLayer.t := configured true false false 100 (-1) empty_grid.

(** Cell 255 of the scaled map is NO_INFO, cell 100 is LETHAL. *)
Lemma interpretValue_preimages_witness :
  StaticLayer.interpretValue scaled_layer 255 = NO_INFORMATION /\
  StaticLayer.interpretValue scaled_layer 100 = LETHAL_OBSTACLE.
Proof.
  split.
  - apply (proj1 (interpretValue_preimages scaled_layer 255
                    ltac:(unfold octet; lia) ltac:(vm_compute; split; discriminate))).
    split; reflexivity.
  - apply (proj2 (interpretValue_preimages scaled_layer 100
                    ltac:(unfold octet; lia) ltac:(vm_compute; split; discriminate))).
    split; [vm_compute; discriminate | vm_compute; discriminate].
Defined.

(** X2.  On snapshot cells other than the unknown value the interpretation
    is monotone: a larger cell never gets a smaller cost. *)
Theorem interpretValue_monotone (sl : StaticLayer.t) (v1 v2 : Z) :
  octet v1 -> octet v2 -> octet (StaticLayer.lethal_threshold_ sl) ->
  v1 <> StaticLayer.unknown_cost_value_ sl ->
  v2 <> StaticLayer.unknown_cost_value_ sl ->
  v1 <= v2 ->
  StaticLayer.interpretValue sl v1 <= StaticLayer.interpretValue sl v2.
Proof.
  intros H1 H2 Ht Hu1 Hu2 Hle.
  destruct (Z_lt_le_dec v2 (StaticLayer.lethal_threshold_ sl)) as [Hlt | Hge].
  - rewrite !interpretValue_truncated by assumption.
    unfold interpret_truncated.
    apply Z.eqb_neq in Hu1. apply Z.eqb_neq in Hu2.
    rewrite Hu1, Hu2, !andb_false_r.
    replace (v1 >=? StaticLayer.lethal_threshold_ sl) with false
      by (symmetry; rewrite Z.geb_leb; apply Z.leb_gt; lia).
    replace (v2 >=? StaticLayer.lethal_threshold_ sl) with false
      by (symmetry; rewrite Z.geb_leb; apply Z.leb_gt; lia).
    destruct (StaticLayer.trinary_costmap_ sl); [lia|].
    apply Z.div_le_mono; [unfold octet in *; lia | unfold LETHAL_OBSTACLE; lia].
  - rewrite (interpretValue_lethal sl v2 Hu2 Hge).
    pose proof (interpretValue_octet sl v1) as Ho.
    destruct (Z_lt_le_dec v1 (StaticLayer.lethal_threshold_ sl)) as [Hlt1 | Hge1].
    + pose proof (interpret_truncated_known sl Ht v1 H1 Hu1 Hlt1). lia.
    + rewrite (interpretValue_lethal sl v1 Hu1 Hge1). lia.
Qed.

(** Cells 30 and 60 of the scaled map. *)
Lemma interpretValue_monotone_witness :
  StaticLayer.interpretValue scaled_layer 30 <= StaticLayer.interpretValue scaled_layer 60.
Proof.
  apply interpretValue_monotone; try (unfold octet; lia);
    vm_compute; solve [split; discriminate | discriminate].
Defined.

(** X3.  Whatever [lethal_cost_threshold] the parameter server holds,
    [onInitialize] stores a threshold between 0 and 100; with such a
    threshold a snapshot cell below it (and not the unknown value) gets a
    cost of at most 251, so no interpreted cell is INSCRIBED (253). *)
Theorem onInitialize_threshold (temp_lethal_threshold : Z) (sl : StaticLayer.t) (v : Z) :
  0 <= StaticLayer.stored_lethal_threshold temp_lethal_threshold <= 100 /\
  (StaticLayer.lethal_threshold_ sl =
     StaticLayer.stored_lethal_threshold temp_lethal_threshold ->
   octet v ->
   (v <> StaticLayer.unknown_cost_value_ sl ->
    v < StaticLayer.lethal_threshold_ sl ->
    StaticLayer.interpretValue sl v <= 251) /\
   StaticLayer.interpretValue sl v <> INSCRIBED_INFLATED_OBSTACLE).
Proof.
  assert (Hc : 0 <= StaticLayer.stored_lethal_threshold temp_lethal_threshold <= 100)
    by (unfold StaticLayer.stored_lethal_threshold; lia).
  split; [exact Hc|]. intros Hth Hv. rewrite <- Hth in Hc.
  assert (Ht : octet (StaticLayer.lethal_threshold_ sl)) by (unfold octet; lia).
  assert (Hscaled : v <> StaticLayer.unknown_cost_value_ sl ->
                    v < StaticLayer.lethal_threshold_ sl ->
                    StaticLayer.interpretValue sl v <= 251).
  { intros Hu Hlt. rewrite interpretValue_truncated by assumption.
    unfold interpret_truncated.
    apply Z.eqb_neq in Hu. rewrite Hu, !andb_false_r.
    replace (v >=? StaticLayer.lethal_threshold_ sl) with false
      by (symmetry; rewrite Z.geb_leb; apply Z.leb_gt; lia).
    destruct (StaticLayer.trinary_costmap_ sl); [unfold FREE_SPACE; lia|].
    unfold LETHAL_OBSTACLE, octet in *.
    assert (254 * v / StaticLayer.lethal_threshold_ sl < 252); [|lia].
    apply Z.div_lt_upper_bound; lia. }
  split; [exact Hscaled|].
  unfold INSCRIBED_INFLATED_OBSTACLE.
  destruct (Z.eq_dec v (StaticLayer.unknown_cost_value_ sl)) as [Hu | Hu].
  - rewrite (interpretValue_unknown sl v Hu).
    destruct (StaticLayer.track_unknown_space_ sl); discriminate.
  - destruct (Z_lt_le_dec v (StaticLayer.lethal_threshold_ sl)) as [Hlt | Hge].
    + specialize (Hscaled Hu Hlt). lia.
    + rewrite (interpretValue_lethal sl v Hu Hge). discriminate.
Qed.

(** A requested threshold of 400 is stored as 100; cell 99 then costs 251. *)
Lemma onInitialize_threshold_witness :
  StaticLayer.interpretValue (configured true false false 400 (-1) empty_grid) 99 <= 251.
Proof.
  refine (proj1 (proj2 (onInitialize_threshold 400
            (configured true false false 400 (-1) empty_grid) 99) eq_refl _) _ _).
  - unfold octet. lia.
  - vm_compute. discriminate.
  - vm_compute. reflexivity.
Defined.

(** ** More on snapshots *)

Section IncomingMapMore.

Import StaticLayer.

(** [g] is [g0] with another buffer. *)
Definition rebuffered (g0 g : Costmap2D.t) : Prop :=
  exists cells, g = Costmap2D.set_costmap g0 cells.

Lemma setCost_rebuffered (g0 g g' : Costmap2D.t) (mx my cost : Z) :
  rebuffered g0 g -> Costmap2D.setCost g mx my cost = Some g' -> rebuffered g0 g'.
Proof.
  intros [cells ->]. unfold Costmap2D.setCost.
  destruct (decide _); [|discriminate]. intros H. injection H as <-.
  eexists. apply set_costmap_twice.
Qed.

Lemma incomingMap_loops_rebuffered (sl : t) (s : OccupancyGrid) (g0 : Costmap2D.t)
    (size_x size_y : Z) (st : Costmap2D.t * Z) :
  for_loop 0 size_y
    (fun i st => for_loop 0 size_x (incomingMap_cell sl s i) st) (g0, 0) = Some st ->
  rebuffered g0 st.1.
Proof.
  apply (for_loop_invariant (fun st : Costmap2D.t * Z => rebuffered g0 st.1)).
  - intros i st1 st2 H1. apply (for_loop_invariant (fun st : Costmap2D.t * Z => rebuffered g0 st.1)); [|exact H1].
    intros j [g index] st3 Hg. unfold incomingMap_cell.
    destruct (data s !! Z.to_nat index) as [v|]; [|discriminate]. cbn [mbind option_bind].
    destruct (Costmap2D.setCost g j i _) as [g'|] eqn:E; [|discriminate].
    cbn [mbind option_bind]. intros H. injection H as <-.
    exact (setCost_rebuffered _ _ _ _ _ _ Hg E).
  - exists (Costmap2D.costmap_ g0). symmetry. apply set_costmap_id.
Qed.

(** The shape of the private grid after the resize policy, whatever the
    snapshot. *)
Lemma incomingMap_resize_sizes (w : World) (s : OccupancyGrid) :
  let w1 := incomingMap_resize w s in
  Costmap2D.size_x_ (grid (layer w1)) = to_uint (info_width s) /\
  Costmap2D.size_y_ (grid (layer w1)) = to_uint (info_height s) /\
  (LayeredCostmap.rolling (layered_costmap_ w) = false ->
   Costmap2D.size_x_ (LayeredCostmap.costmap (layered_costmap_ w1)) =
     to_uint (info_width s) /\
   Costmap2D.size_y_ (LayeredCostmap.costmap (layered_costmap_ w1)) =
     to_uint (info_height s)) /\
  (LayeredCostmap.rolling (layered_costmap_ w) = true ->
   layered_costmap_ w1 = layered_costmap_ w) /\
  LayeredCostmap.rolling (layered_costmap_ w1) = LayeredCostmap.rolling (layered_costmap_ w) /\
  set_grid (layer w1) (grid (layer w)) = layer w.
Proof.
  unfold incomingMap_resize.
  destruct (LayeredCostmap.rolling (layered_costmap_ w)) eqn:Eroll; cbn [negb andb].
  - destruct (negb (Costmap2D.size_x_ (grid (layer w)) =? to_uint (info_width s))) eqn:Ex;
      [cbn; repeat split; try discriminate; now destruct (layer w)|].
    destruct (negb (Costmap2D.size_y_ (grid (layer w)) =? to_uint (info_height s))) eqn:Ey;
      [cbn; repeat split; try discriminate; now destruct (layer w)|].
    apply negb_false_iff, Z.eqb_eq in Ex. apply negb_false_iff, Z.eqb_eq in Ey.
    destruct (false || false || _ || _ || _);
      cbn; repeat split; try discriminate; try assumption; now destruct (layer w).
  - destruct (negb (Costmap2D.size_x_ (LayeredCostmap.costmap (layered_costmap_ w)) =?
                    to_uint (info_width s))) eqn:Emx;
      [cbn; repeat split; try discriminate; try assumption; now destruct (layer w)|].
    destruct (negb (Costmap2D.size_y_ (LayeredCostmap.costmap (layered_costmap_ w)) =?
                    to_uint (info_height s))) eqn:Emy;
      [cbn; repeat split; try discriminate; try assumption; now destruct (layer w)|].
    apply negb_false_iff, Z.eqb_eq in Emx. apply negb_false_iff, Z.eqb_eq in Emy.
    destruct (false || false || _ || _ || _ || _);
      [cbn; repeat split; try discriminate; try assumption; now destruct (layer w)|].
    destruct (negb (Costmap2D.size_x_ (grid (layer w)) =? to_uint (info_width s))) eqn:Ex;
      [cbn; repeat split; try discriminate; try assumption; now destruct (layer w)|].
    destruct (negb (Costmap2D.size_y_ (grid (layer w)) =? to_uint (info_height s))) eqn:Ey;
      [cbn; repeat split; try discriminate; try assumption; now destruct (layer w)|].
    apply negb_false_iff, Z.eqb_eq in Ex. apply negb_false_iff, Z.eqb_eq in Ey.
    destruct (false || false || _ || _ || _);
      cbn; repeat split; try discriminate; try assumption; now destruct (layer w).
Qed.

End IncomingMapMore.

(** X6.  What a snapshot leaves alone and what it aligns.  After
    [incomingMap] the private grid has the snapshot's shape; under a
    non-rolling layered costmap the master grid has that shape too, under a
    rolling one the layered costmap is untouched; and the layer keeps its
    switches and thresholds. *)
Theorem incomingMap_frame (w w' : StaticLayer.World) (s : StaticLayer.OccupancyGrid) :
  StaticLayer.incomingMap w s = Some w' ->
  let sl := StaticLayer.layer w in
  let sl' := StaticLayer.layer w' in
  let master' := LayeredCostmap.costmap (StaticLayer.layered_costmap_ w') in
  Costmap2D.size_x_ (StaticLayer.grid sl') = to_uint (StaticLayer.info_width s) /\
  Costmap2D.size_y_ (StaticLayer.grid sl') = to_uint (StaticLayer.info_height s) /\
  (LayeredCostmap.rolling (StaticLayer.layered_costmap_ w) = false ->
   Costmap2D.size_x_ master' = Costmap2D.size_x_ (StaticLayer.grid sl') /\
   Costmap2D.size_y_ master' = Costmap2D.size_y_ (StaticLayer.grid sl')) /\
  (LayeredCostmap.rolling (StaticLayer.layered_costmap_ w) = true ->
   StaticLayer.layered_costmap_ w' = StaticLayer.layered_costmap_ w) /\
  StaticLayer.enabled_ sl' = StaticLayer.enabled_ sl /\
  StaticLayer.has_extra_bounds_ sl' = StaticLayer.has_extra_bounds_ sl /\
  StaticLayer.track_unknown_space_ sl' = StaticLayer.track_unknown_space_ sl /\
  StaticLayer.use_maximum_ sl' = StaticLayer.use_maximum_ sl /\
  StaticLayer.trinary_costmap_ sl' = StaticLayer.trinary_costmap_ sl /\
  StaticLayer.lethal_threshold_ sl' = StaticLayer.lethal_threshold_ sl /\
  StaticLayer.unknown_cost_value_ sl' = StaticLayer.unknown_cost_value_ sl.
Proof.
  unfold StaticLayer.incomingMap. intros H.
  destruct (for_loop 0 _ _ _) as [st|] eqn:Eloop; [|discriminate].
  cbn [mbind option_bind] in H. injection H as <-.
  destruct (incomingMap_loops_rebuffered _ _ _ _ _ _ Eloop) as [cells Hst].
  destruct (incomingMap_resize_sizes w s) as (Hx & Hy & Hnr & Hr & _ & Hset).
  cbn. rewrite Hst. cbn.
  pose proof (f_equal StaticLayer.enabled_ Hset) as H1.
  pose proof (f_equal StaticLayer.has_extra_bounds_ Hset) as H2.
  pose proof (f_equal StaticLayer.track_unknown_space_ Hset) as H3.
  pose proof (f_equal StaticLayer.use_maximum_ Hset) as H4.
  pose proof (f_equal StaticLayer.trinary_costmap_ Hset) as H5.
  pose proof (f_equal StaticLayer.lethal_threshold_ Hset) as H6.
  pose proof (f_equal StaticLayer.unknown_cost_value_ Hset) as H7.
  cbn in H1, H2, H3, H4, H5, H6, H7.
  split; [exact Hx|]. split; [exact Hy|].
  split; [intros E; destruct (Hnr E); split; congruence|].
  split; [exact Hr|].
  repeat split; assumption.
Qed.

(** The first snapshot of a fresh non-rolling costmap: master and private
    grid both become 2 x 1. *)
Lemma incomingMap_frame_witness :
  exists w',
    StaticLayer.incomingMap fresh_world
      (StaticLayer.mkOccupancyGrid 2 1 1 0 0 [100; -1]) = Some w' /\
    Costmap2D.size_x_ (LayeredCostmap.costmap (StaticLayer.layered_costmap_ w')) = 2 /\
    Costmap2D.size_x_ (StaticLayer.grid (StaticLayer.layer w')) = 2.
Proof.
  eexists. split; [vm_compute; reflexivity|].
  match goal with
  | |- context [StaticLayer.layer ?w'] =>
      pose proof (incomingMap_frame fresh_world w'
                    (StaticLayer.mkOccupancyGrid 2 1 1 0 0 [100; -1]) eq_refl) as H
  end.
  destruct H as (Hx & _ & Hnr & _).
  destruct (Hnr eq_refl) as [Hm _]. split; [rewrite Hm|]; exact Hx.
Defined.

Section IncomingMapResult.

Import StaticLayer.

Lemma rewritten_all (sl : t) (s : OccupancyGrid) (n : Z) (cells cells' : list Z) :
  0 <= n -> Z.of_nat (length cells) = n ->
  rewritten sl s 0 n cells cells' ->
  cells' = stored sl <$> take (Z.to_nat n) (data s).
Proof.
  intros Hn Hlen [Hlen' Hcells]. apply list_eq. intros k.
  rewrite Hcells, list_lookup_fmap.
  destruct (decide (0 <= Z.of_nat k < n)) as [Hk | Hk].
  - rewrite lookup_take_lt by lia. reflexivity.
  - rewrite lookup_take_ge by lia. cbn. apply lookup_ge_None_2. lia.
Qed.

(** The world a readable snapshot leaves, in closed form. *)
Lemma incomingMap_result (w : World) (s : OccupancyGrid) :
  readable s -> Costmap2D.shaped (grid (layer w)) ->
  let w1 := incomingMap_resize w s in
  incomingMap w s =
  Some (mkWorld
          (set_map_received
             (set_dirty
                (set_grid (layer w1)
                   (Costmap2D.set_costmap (grid (layer w1))
                      (stored (layer w) <$>
                       take (Z.to_nat (info_width s * info_height s)) (data s))))
                0 0 (info_width s) (info_height s) true)
             true)
          (layered_costmap_ w1)).
Proof.
  intros (Hw & Hh & Hint & Hdata) Hshaped w1.
  destruct (incomingMap_resize_shape w s Hw Hh Hshaped) as (Hx & Hy & Hlen & Hcfg).
  fold w1 in Hx, Hy, Hlen, Hcfg.
  unfold incomingMap. rewrite !to_uint_small by assumption. fold w1.
  set (g1 := grid (layer w1)) in *.
  destruct (incomingMap_rows (layer w1) s (Z.to_nat (info_height s)) 0 g1)
    as [cells' [Hrun Hcells]];
    try (rewrite ?Z2Nat.id by lia; rewrite ?Hx; lia).
  rewrite Hx in Hrun, Hcells. rewrite Z2Nat.id in Hrun, Hcells by lia.
  change (0 * info_width s) with 0 in Hrun, Hcells.
  rewrite Z.add_0_l, (Z.mul_comm (info_height s)) in Hrun, Hcells.
  unfold for_loop in *. rewrite Z.sub_0_r. rewrite Hrun. cbn [mbind option_bind fst].
  rewrite (rewritten_all (layer w1) s (info_width s * info_height s)
             (Costmap2D.costmap_ g1) cells' ltac:(lia) Hlen Hcells).
  cbn [Costmap2D.size_x_ Costmap2D.size_y_ Costmap2D.set_costmap].
  fold g1. rewrite Hx, Hy.
  replace (stored (layer w1) <$> take (Z.to_nat (info_width s * info_height s)) (data s))
    with (stored (layer w) <$> take (Z.to_nat (info_width s * info_height s)) (data s)).
  - reflexivity.
  - apply list_fmap_ext. intros k v _. unfold stored. symmetry. apply Hcfg.
Qed.

End IncomingMapResult.

Section IncomingMapTwice.

Import StaticLayer.

(** The two tests of the resize policy. *)
Definition master_differs (w : World) (s : OccupancyGrid) : bool :=
  let lc := layered_costmap_ w in
  let master := LayeredCostmap.costmap lc in
  negb (LayeredCostmap.rolling lc) &&
  (negb (Costmap2D.size_x_ master =? to_uint (info_width s)) ||
   negb (Costmap2D.size_y_ master =? to_uint (info_height s)) ||
   negb (Qeq_bool (Costmap2D.resolution_ master) (info_resolution s)) ||
   negb (Qeq_bool (Costmap2D.origin_x_ master) (info_origin_x s)) ||
   negb (Qeq_bool (Costmap2D.origin_y_ master) (info_origin_y s)) ||
   negb (LayeredCostmap.size_locked lc)).

Definition private_differs (w : World) (s : OccupancyGrid) : bool :=
  let g := grid (layer w) in
  negb (Costmap2D.size_x_ g =? to_uint (info_width s)) ||
  negb (Costmap2D.size_y_ g =? to_uint (info_height s)) ||
  negb (Qeq_bool (Costmap2D.resolution_ g) (info_resolution s)) ||
  negb (Qeq_bool (Costmap2D.origin_x_ g) (info_origin_x s)) ||
  negb (Qeq_bool (Costmap2D.origin_y_ g) (info_origin_y s)).

Lemma incomingMap_resize_tests (w : World) (s : OccupancyGrid) :
  incomingMap_resize w s =
  if master_differs w s then
    layered_resizeMap w (to_uint (info_width s)) (to_uint (info_height s))
      (info_resolution s) (info_origin_x s) (info_origin_y s) true
  else if private_differs w s then
    mkWorld
      (set_grid (layer w)
         (Costmap2D.resizeMap (grid (layer w)) (to_uint (info_width s))
            (to_uint (info_height s)) (info_resolution s)
            (info_origin_x s) (info_origin_y s)))
      (layered_costmap_ w)
  else w.
Proof. reflexivity. Qed.

(** After the resize policy neither test fires for the same snapshot. *)
Lemma incomingMap_resize_agrees (w : World) (s : OccupancyGrid) :
  master_differs (incomingMap_resize w s) s = false /\
  private_differs (incomingMap_resize w s) s = false.
Proof.
  rewrite incomingMap_resize_tests.
  destruct (master_differs w s) eqn:E1.
  - unfold master_differs, private_differs. cbn.
    rewrite !Z.eqb_refl, !Qeq_bool_refl. cbn. now rewrite andb_false_r.
  - destruct (private_differs w s) eqn:E2.
    + split; [exact E1|].
      unfold private_differs. cbn. now rewrite !Z.eqb_refl, !Qeq_bool_refl.
    + split; assumption.
Qed.

(** Once a snapshot is in, the resize policy finds nothing to resize for the
    same snapshot. *)
Lemma incomingMap_resize_settled (w : World) (s : OccupancyGrid) (cells : list Z)
    (x y wd ht : Z) (updated received : bool) :
  let w1 := incomingMap_resize w s in
  let w' :=
    mkWorld
      (set_map_received
         (set_dirty
            (set_grid (layer w1) (Costmap2D.set_costmap (grid (layer w1)) cells))
            x y wd ht updated)
         received)
      (layered_costmap_ w1) in
  incomingMap_resize w' s = w'.
Proof.
  intros w1 w'. destruct (incomingMap_resize_agrees w s) as [E1 E2]. fold w1 in E1, E2.
  rewrite incomingMap_resize_tests.
  replace (master_differs w' s) with (master_differs w1 s) by reflexivity.
  replace (private_differs w' s) with (private_differs w1 s) by reflexivity.
  now rewrite E1, E2.
Qed.

End IncomingMapTwice.

(** X4.  A readable snapshot replaces the whole private buffer: afterwards
    the buffer is the interpretation of the first [width * height] snapshot
    cells, row by row, and holds nothing of the previous grid. *)
Theorem incomingMap_replaces_grid (w : StaticLayer.World) (s : StaticLayer.OccupancyGrid) :
  readable s -> Costmap2D.shaped (StaticLayer.grid (StaticLayer.layer w)) ->
  exists w',
    StaticLayer.incomingMap w s = Some w' /\
    Costmap2D.costmap_ (StaticLayer.grid (StaticLayer.layer w')) =
      (fun v => StaticLayer.interpretValue (StaticLayer.layer w) (to_uchar v)) <$>
      take (Z.to_nat (StaticLayer.info_width s * StaticLayer.info_height s))
        (StaticLayer.data s).
Proof.
  intros Hr Hs. eexists. split; [exact (incomingMap_result w s Hr Hs)|]. reflexivity.
Qed.

(** A layer that already holds a 2 x 1 map, under a rolling costmap, takes a
    new 2 x 1 snapshot. *)
Definition rolling_world : StaticLayer.World :=
  StaticLayer.mkWorld
    (StaticLayer.mk (Costmap2D.mk 2 1 1 0 0 0 [7; 9]) 0 0 0 0 true true false false
       true false true 100 255)
    (LayeredCostmap.mk (unit_grid 4 4 (replicate 16 0)) true true).

Lemma incomingMap_replaces_grid_witness :
  exists w',
    StaticLayer.incomingMap rolling_world
      (StaticLayer.mkOccupancyGrid 2 1 1 0 0 [100; -1]) = Some w' /\
    Costmap2D.costmap_ (StaticLayer.grid (StaticLayer.layer w')) = [254; 255].
Proof.
  destruct (incomingMap_replaces_grid rolling_world
              (StaticLayer.mkOccupancyGrid 2 1 1 0 0 [100; -1])) as (w' & H & Hc).
  - unfold readable. simpl. lia.
  - unfold Costmap2D.shaped. simpl. lia.
  - exists w'. split; [exact H|]. rewrite Hc. vm_compute. reflexivity.
Defined.

(** X5.  Taking the same snapshot twice is the same as taking it once: the
    second [incomingMap] resizes nothing and leaves the layer and the
    layered costmap exactly as the first left them. *)
Theorem incomingMap_idempotent (w w' : StaticLayer.World) (s : StaticLayer.OccupancyGrid) :
  readable s -> Costmap2D.shaped (StaticLayer.grid (StaticLayer.layer w)) ->
  StaticLayer.incomingMap w s = Some w' ->
  StaticLayer.incomingMap w' s = Some w'.
Proof.
  intros Hr Hs H.
  pose proof Hr as (Hw & Hh & Hint & Hdata).
  destruct (incomingMap_resize_shape w s Hw Hh Hs) as (Hx & Hy & Hlen & Hcfg).
  rewrite (incomingMap_result w s Hr Hs) in H. injection H as <-.
  set (cells := stored (StaticLayer.layer w) <$> _).
  rewrite incomingMap_result; [|exact Hr|].
  - rewrite incomingMap_resize_settled.
    match goal with
    | |- context [stored ?sl' <$> ?l] =>
        replace (stored sl' <$> l) with cells; [reflexivity|]
    end.
    subst cells. apply list_fmap_ext. intros k v _. unfold stored.
    rewrite <- Hcfg. reflexivity.
  - unfold Costmap2D.shaped. cbn. subst cells.
    rewrite length_fmap, length_take_le by lia. lia.
Qed.

Lemma incomingMap_idempotent_witness :
  exists w',
    StaticLayer.incomingMap fresh_world
      (StaticLayer.mkOccupancyGrid 2 1 1 0 0 [100; -1]) = Some w' /\
    StaticLayer.incomingMap w'
      (StaticLayer.mkOccupancyGrid 2 1 1 0 0 [100; -1]) = Some w'.
Proof.
  eexists. split; [vm_compute; reflexivity|].
  apply (incomingMap_idempotent fresh_world).
  - unfold readable. simpl. lia.
  - unfold Costmap2D.shaped. simpl. lia.
  - vm_compute. reflexivity.
Defined.

(** ** More on patches *)

Section IncomingUpdateMore.

Import StaticLayer.

Variable update : OccupancyGridUpdate.

(** Cells [lo .. hi-1] of [cells'] are the patch cells [lo+off .. hi+off-1]
    as [unsigned char], the others are those of [cells]. *)
Definition patched (off lo hi : Z) (cells cells' : list Z) : Prop :=
  length cells' = length cells /\
  forall k : nat,
    cells' !! k =
    if decide (lo <= Z.of_nat k < hi)
    then to_uchar <$> upd_data update !! Z.to_nat (Z.of_nat k + off)
    else cells !! k.

Lemma patched_refl (off lo : Z) (cells : list Z) : patched off lo lo cells cells.
Proof.
  split; [reflexivity|]. intros k. destruct (decide _); [lia | reflexivity].
Qed.

Lemma patched_step (off lo hi : Z) (cells cells' : list Z) (v : Z) :
  lo <= hi -> 0 <= hi < Z.of_nat (length cells) ->
  upd_data update !! Z.to_nat (hi + off) = Some v ->
  patched off lo hi cells cells' ->
  patched off lo (hi + 1) cells (<[Z.to_nat hi := to_uchar v]> cells').
Proof.
  intros Hle Hhi Hv [Hlen Hcells]. split.
  - now rewrite length_insert.
  - intros k. destruct (decide (k = Z.to_nat hi)) as [-> | Hne].
    + rewrite list_lookup_insert_eq by lia.
      destruct (decide _); [|lia]. rewrite Z2Nat.id by lia. now rewrite Hv.
    + rewrite list_lookup_insert_ne by congruence.
      rewrite Hcells. repeat destruct (decide _); try reflexivity; lia.
Qed.

Lemma patched_trans (off a b c : Z) (cells cells' cells'' : list Z) :
  a <= b <= c ->
  patched off a b cells cells' -> patched off b c cells' cells'' ->
  patched off a c cells cells''.
Proof.
  intros Habc [Hlen1 H1] [Hlen2 H2]. split; [congruence|].
  intros k. rewrite H2, H1. repeat destruct (decide _); try reflexivity; lia.
Qed.

(** One row of the patch: [n] rounds of the inner loop from column [x]. *)
Lemma incomingUpdate_row (y : Z) (n : nat) :
  forall (x : Z) (g : Costmap2D.t),
    0 <= y -> 0 <= x -> 0 <= Costmap2D.size_x_ g -> 0 <= upd_width update ->
    let index := y * Costmap2D.size_x_ g + x in
    let di := y * upd_width update + x in
    index + Z.of_nat n <= Z.of_nat (length (Costmap2D.costmap_ g)) ->
    di + Z.of_nat n <= Z.of_nat (length (upd_data update)) ->
    di + Z.of_nat n < 2 ^ 32 ->
    exists cells',
      for_range n x (incomingUpdate_cell update y) (g, di) =
        Some (Costmap2D.set_costmap g cells', di + Z.of_nat n) /\
      patched (di - index) index (index + Z.of_nat n) (Costmap2D.costmap_ g) cells'.
Proof.
  induction n as [|n IH]; intros x g Hy Hx Hsx Hw index di Hlen Hdata Hint.
  - exists (Costmap2D.costmap_ g). cbn [for_range Z.of_nat].
    rewrite set_costmap_id, !Z.add_0_r. split; [reflexivity | apply patched_refl].
  - assert (Hidx : 0 <= index) by (unfold index; nia).
    assert (Hdi : 0 <= di) by (unfold di; nia).
    destruct (lookup_lt_is_Some_2 (upd_data update) (Z.to_nat di)) as [v Hv]; [lia|].
    cbn [for_range]. unfold incomingUpdate_cell at 1.
    rewrite Hv. cbn [mbind option_bind].
    unfold Costmap2D.setCost, Costmap2D.getIndex. fold index.
    destruct (decide (0 <= index < Z.of_nat (length (Costmap2D.costmap_ g))));
      [|lia].
    cbn [mbind option_bind].
    replace (to_uint (di + 1)) with (di + 1)
      by (unfold to_uint; rewrite Z.mod_small; lia).
    set (g1 := Costmap2D.set_costmap g
                 (<[Z.to_nat index := to_uchar v]> (Costmap2D.costmap_ g))).
    destruct (IH (x + 1) g1) as [cells' [Hrun Hcells]];
      try (subst g1; simpl; rewrite ?length_insert; fold index; fold di; lia).
    subst g1. simpl in Hrun, Hcells.
    assert (Hcells1 : patched (di - index) (index + 1) (index + 1 + Z.of_nat n)
              (<[Z.to_nat index := to_uchar v]> (Costmap2D.costmap_ g)) cells').
    { replace (di - index) with (y * upd_width update + (x + 1) -
                                 (y * Costmap2D.size_x_ g + (x + 1)))
        by (unfold di, index; lia).
      replace (index + 1) with (y * Costmap2D.size_x_ g + (x + 1))
        by (unfold index; lia).
      exact Hcells. }
    replace (y * upd_width update + (x + 1)) with (di + 1) in Hrun
      by (unfold di; lia).
    replace (index + Z.of_nat (Datatypes.S n)) with (index + 1 + Z.of_nat n) by lia.
    replace (di + Z.of_nat (Datatypes.S n)) with (di + 1 + Z.of_nat n) by lia.
    exists cells'. split; [exact Hrun|].
    apply (patched_trans _ index (index + 1) _ _
             (<[Z.to_nat index := to_uchar v]> (Costmap2D.costmap_ g)));
      [lia| |exact Hcells1].
    apply patched_step; [lia|lia| |apply patched_refl].
    replace (index + (di - index)) with di by lia. exact Hv.
Qed.

(** Cell [(x, y)] of the grid after rows [y0 .. y1-1] of the patch: the
    patch cell [(x, y)] inside the patch's extent at the grid's origin, the
    old cell elsewhere. *)
Definition patch_rows (sx y0 y1 : Z) (cells cells' : list Z) : Prop :=
  length cells' = length cells /\
  forall x y : Z,
    0 <= x < sx -> 0 <= y ->
    cells' !! Z.to_nat (y * sx + x) =
    if decide (y0 <= y < y1 /\ x < upd_width update)
    then to_uchar <$> upd_data update !! Z.to_nat (y * upd_width update + x)
    else cells !! Z.to_nat (y * sx + x).

(** [n] rows of the patch from row [y]. *)
Lemma incomingUpdate_rows (n : nat) :
  forall (y : Z) (g : Costmap2D.t),
    0 <= y -> 0 <= upd_width update <= Costmap2D.size_x_ g ->
    let W := upd_width update in
    let SX := Costmap2D.size_x_ g in
    (y + Z.of_nat n) * SX <= Z.of_nat (length (Costmap2D.costmap_ g)) ->
    (y + Z.of_nat n) * W <= Z.of_nat (length (upd_data update)) ->
    (y + Z.of_nat n) * W < 2 ^ 32 ->
    exists cells',
      for_range n y
        (fun y st => for_loop 0 W (incomingUpdate_cell update y) st) (g, y * W) =
        Some (Costmap2D.set_costmap g cells', (y + Z.of_nat n) * W) /\
      patch_rows SX y (y + Z.of_nat n) (Costmap2D.costmap_ g) cells'.
Proof.
  induction n as [|n IH]; intros y g Hy Hw W SX Hlen Hdata Hint.
  - exists (Costmap2D.costmap_ g). cbn [for_range Z.of_nat].
    rewrite set_costmap_id, !Z.add_0_r. split; [reflexivity|].
    split; [reflexivity|]. intros x y' Hx Hy'. destruct (decide _); [lia | reflexivity].
  - cbn [for_range]. unfold for_loop at 1. rewrite Z.sub_0_r.
    destruct (incomingUpdate_row y (Z.to_nat W) 0 g) as [cells1 [Hrow Hcells1]];
      try (fold W; fold SX; rewrite ?Z2Nat.id by lia; nia).
    fold W SX in Hrow, Hcells1. rewrite !Z.add_0_r in Hrow, Hcells1.
    rewrite Z2Nat.id in Hrow, Hcells1 by lia.
    rewrite Hrow.
    set (g1 := Costmap2D.set_costmap g cells1).
    assert (Hlen1 : length cells1 = length (Costmap2D.costmap_ g))
      by (exact (proj1 Hcells1)).
    destruct (IH (y + 1) g1) as [cells' [Hrun Hcells]];
      try (subst g1; simpl; fold W; fold SX; rewrite ?Hlen1; nia).
    subst g1. simpl in Hrun, Hcells. fold W SX in Hrun, Hcells.
    replace ((y + 1) * W) with (y * W + W) in Hrun by lia.
    replace (y + 1 + Z.of_nat n) with (y + Z.of_nat (Datatypes.S n)) in Hrun, Hcells by lia.
    exists cells'. split; [exact Hrun|].
    destruct Hcells as [Hlen2 Hcells]. destruct Hcells1 as [_ Hcells1].
    split; [congruence|].
    intros x y' Hx Hy'. rewrite (Hcells x y' Hx Hy'). subst W SX.
    destruct (decide (y + 1 <= y' < y + Z.of_nat (Datatypes.S n) /\
                      x < upd_width update)) as [Hin | Hout].
    + destruct (decide _); [reflexivity | lia].
    + rewrite Hcells1. rewrite Z2Nat.id by nia.
      destruct (decide (y * Costmap2D.size_x_ g + 0 <= y' * Costmap2D.size_x_ g + x <
                        y * Costmap2D.size_x_ g + 0 + upd_width update))
        as [Hrow1 | Hrow1].
      * assert (y' = y) by nia. subst y'.
        destruct (decide _); [|lia].
        do 2 f_equal. lia.
      * destruct (decide _) as [Hin2 | ]; [|reflexivity].
        exfalso. assert (y' = y) by lia. subst y'. lia.
Qed.

End IncomingUpdateMore.

(** X7.  Where a patch really lands.  For a patch whose extent fits the
    private grid, [incomingUpdate] succeeds and writes patch cell
    [(x, y)] (as [unsigned char], not interpreted) to grid cell [(x, y)]:
    the patch is laid at the grid's origin whatever its [x] and [y] say, and
    every cell outside [width x height] keeps its value. *)
Theorem incomingUpdate_lands_at_origin (sl : StaticLayer.t)
    (update : StaticLayer.OccupancyGridUpdate) :
  let g := StaticLayer.grid sl in
  let w := StaticLayer.upd_width update in
  let h := StaticLayer.upd_height update in
  Costmap2D.shaped g ->
  0 <= w <= Costmap2D.size_x_ g -> 0 <= h <= Costmap2D.size_y_ g ->
  w * h <= Z.of_nat (length (StaticLayer.upd_data update)) -> w * h < 2 ^ 32 ->
  exists sl',
    StaticLayer.incomingUpdate sl update = Some sl' /\
    forall x y,
      0 <= x < Costmap2D.size_x_ g -> 0 <= y < Costmap2D.size_y_ g ->
      Costmap2D.getCost (StaticLayer.grid sl') x y =
      if decide (x < w /\ y < h)
      then to_uchar <$> StaticLayer.upd_data update !! Z.to_nat (y * w + x)
      else Costmap2D.getCost g x y.
Proof.
  intros g w h. subst g w h. intros (Hsx & Hsy & Hlen) Hw Hh Hdata Hint.
  unfold StaticLayer.incomingUpdate, for_loop. rewrite !Z.sub_0_r. cbv zeta.
  destruct (incomingUpdate_rows update (Z.to_nat (StaticLayer.upd_height update)) 0
              (StaticLayer.grid sl))
    as [cells' [Hrun [Hlen' Hcells]]];
    try (rewrite ?Z2Nat.id by lia; nia).
  cbv zeta in Hrun, Hcells. rewrite Z2Nat.id in Hrun, Hcells by lia.
  change (0 * StaticLayer.upd_width update) with 0 in Hrun.
  rewrite Z.add_0_l in Hrun, Hcells.
  unfold for_loop in Hrun. rewrite Z.sub_0_r in Hrun.
  rewrite Hrun. cbn [mbind option_bind fst].
  eexists. split; [reflexivity|].
  intros x y Hx Hy. unfold Costmap2D.getCost, Costmap2D.getIndex. cbn.
  destruct (decide (0 <= y * Costmap2D.size_x_ (StaticLayer.grid sl) + x)); [|nia].
  rewrite (Hcells x y Hx ltac:(lia)).
  repeat destruct (decide _); try reflexivity; lia.
Qed.

(** A 2 x 2 grid takes a one-cell patch addressed to [(1, 1)]. *)
Lemma incomingUpdate_lands_at_origin_witness :
  exists sl',
    StaticLayer.incomingUpdate (received true true false (unit_grid 2 2 [1; 2; 3; 4]))
      (StaticLayer.mkOccupancyGridUpdate 1 1 1 1 [-1]) = Some sl' /\
    Costmap2D.getCost (StaticLayer.grid sl') 0 0 = Some 255 /\
    Costmap2D.getCost (StaticLayer.grid sl') 1 1 = Some 4.
Proof.
  destruct (incomingUpdate_lands_at_origin
              (received true true false (unit_grid 2 2 [1; 2; 3; 4]))
              (StaticLayer.mkOccupancyGridUpdate 1 1 1 1 [-1]))
    as (sl' & H & Hcells).
  - unfold Costmap2D.shaped. simpl. lia.
  - simpl. lia.
  - simpl. lia.
  - simpl. lia.
  - simpl. lia.
  - exists sl'. split; [exact H|]. split.
    + rewrite (Hcells 0 0) by (simpl; lia). reflexivity.
    + rewrite (Hcells 1 1) by (simpl; lia). reflexivity.
Defined.

Section IncomingUpdateFrame.

Import StaticLayer.

(** [g] is [g0] with another buffer of the same length. *)
Definition same_shape (g0 g : Costmap2D.t) : Prop :=
  exists cells,
    g = Costmap2D.set_costmap g0 cells /\
    length cells = length (Costmap2D.costmap_ g0).

Lemma setCost_same_shape (g0 g g' : Costmap2D.t) (mx my cost : Z) :
  same_shape g0 g -> Costmap2D.setCost g mx my cost = Some g' -> same_shape g0 g'.
Proof.
  intros (cells & -> & Hlen). unfold Costmap2D.setCost.
  destruct (decide _); [|discriminate]. intros H. injection H as <-.
  eexists. split; [apply set_costmap_twice|]. cbn. now rewrite length_insert.
Qed.

Lemma incomingUpdate_rebuffered (sl sl' : t) (update : OccupancyGridUpdate) :
  incomingUpdate sl update = Some sl' ->
  exists cells,
    sl' = set_dirty (set_grid sl (Costmap2D.set_costmap (grid sl) cells))
            (upd_x update) (upd_y update) (upd_width update) (upd_height update) true /\
    length cells = length (Costmap2D.costmap_ (grid sl)).
Proof.
  unfold incomingUpdate. intros H.
  destruct (for_loop 0 (upd_height update) _ _) as [st|] eqn:Eloop; [|discriminate].
  cbn [mbind option_bind] in H. injection H as <-.
  assert (Hst : same_shape (grid sl) st.1).
  { revert Eloop.
    apply (for_loop_invariant (fun st : Costmap2D.t * Z => same_shape (grid sl) st.1)).
    - intros y st1 st2 H1. cbv zeta.
      apply (for_loop_invariant (fun st : Costmap2D.t * Z => same_shape (grid sl) st.1));
        [|exact H1].
      intros x [g di] st3 Hg. unfold incomingUpdate_cell.
      destruct (upd_data update !! Z.to_nat di) as [v|]; [|discriminate].
      cbn [mbind option_bind].
      destruct (Costmap2D.setCost g x y v) as [g'|] eqn:E; [|discriminate].
      cbn [mbind option_bind]. intros H. injection H as <-.
      exact (setCost_same_shape _ _ _ _ _ _ Hg E).
    - exists (Costmap2D.costmap_ (grid sl)). split; [|reflexivity].
      symmetry. apply set_costmap_id. }
  destruct Hst as (cells & -> & Hlen). now exists cells.
Qed.

End IncomingUpdateFrame.

(** X8.  A patch changes cells and the dirty rectangle and nothing else: the
    grid keeps its shape, resolution and origin, the layer its switches and
    thresholds, and [map_received_] is not set by a patch.  So a patch that
    arrives before any snapshot is never stamped: [updateCosts] leaves the
    master grid as it is. *)
Theorem incomingUpdate_frame
    (mapToWorld : Costmap2D.t -> Z -> Z -> Q * Q)
    (worldToMap : Costmap2D.t -> Q -> Q -> option (Z * Z))
    (sl sl' : StaticLayer.t) (update : StaticLayer.OccupancyGridUpdate) :
  StaticLayer.incomingUpdate sl update = Some sl' ->
  (exists cells,
     StaticLayer.grid sl' = Costmap2D.set_costmap (StaticLayer.grid sl) cells /\
     length cells = length (Costmap2D.costmap_ (StaticLayer.grid sl))) /\
  StaticLayer.map_received_ sl' = StaticLayer.map_received_ sl /\
  StaticLayer.enabled_ sl' = StaticLayer.enabled_ sl /\
  StaticLayer.track_unknown_space_ sl' = StaticLayer.track_unknown_space_ sl /\
  StaticLayer.use_maximum_ sl' = StaticLayer.use_maximum_ sl /\
  StaticLayer.trinary_costmap_ sl' = StaticLayer.trinary_costmap_ sl /\
  StaticLayer.lethal_threshold_ sl' = StaticLayer.lethal_threshold_ sl /\
  StaticLayer.unknown_cost_value_ sl' = StaticLayer.unknown_cost_value_ sl /\
  (StaticLayer.map_received_ sl = false ->
   forall lc master_grid min_i min_j max_i max_j,
     StaticLayer.updateCosts mapToWorld worldToMap sl' lc master_grid
       min_i min_j max_i max_j = Some master_grid).
Proof.
  intros H. destruct (incomingUpdate_rebuffered sl sl' update H) as (cells & -> & Hlen).
  cbn. split; [exists cells; split; [reflexivity | exact Hlen]|].
  repeat split.
  intros Hrec lc master_grid min_i min_j max_i max_j.
  unfold StaticLayer.updateCosts. cbn. rewrite Hrec.
  now destruct (StaticLayer.enabled_ sl).
Qed.

(** A layer without a map takes a patch; the master stays as it is. *)
Definition mapless_layer : StaticLayer.t :=
  StaticLayer.mk (unit_grid 1 1 [0]) 0 0 0 0 true false false false
    true false true 100 255.

Lemma incomingUpdate_frame_witness :
  exists sl',
    StaticLayer.incomingUpdate mapless_layer
      (StaticLayer.mkOccupancyGridUpdate 0 0 1 1 [100]) = Some sl' /\
    StaticLayer.map_received_ sl' = false /\
    StaticLayer.updateCosts centre_mapToWorld floor_worldToMap sl'
      (LayeredCostmap.mk (unit_grid 1 1 [0]) false true) (unit_grid 1 1 [0]) 0 0 1 1 =
    Some (unit_grid 1 1 [0]).
Proof.
  eexists. split; [vm_compute; reflexivity|].
  match goal with
  | |- StaticLayer.map_received_ ?sl' = _ /\ _ =>
      destruct (incomingUpdate_frame centre_mapToWorld floor_worldToMap mapless_layer sl'
                  (StaticLayer.mkOccupancyGridUpdate 0 0 1 1 [100]) eq_refl)
        as (_ & Hrec & _ & _ & _ & _ & _ & _ & Hstamp)
  end.
  split; [exact Hrec | apply Hstamp; reflexivity].
Defined.

(** ** Reconfiguration of the layer *)

Module StaticLayerCB.

Import StaticLayer.

(** [StaticLayer::reconfigureCB]; of the configuration only [enabled] is
    read. *)
Definition reconfigureCB (sl : t) (config_enabled : bool) : t :=
  if negb (Bool.eqb config_enabled (enabled_ sl)) then
    mk (grid sl) 0 0 (Costmap2D.size_x_ (grid sl)) (Costmap2D.size_y_ (grid sl))
       config_enabled (map_received_ sl) true (has_extra_bounds_ sl)
       (track_unknown_space_ sl) (use_maximum_ sl) (trinary_costmap_ sl)
       (lethal_threshold_ sl) (unknown_cost_value_ sl)
  else sl.

End StaticLayerCB.

(** X9.  [reconfigureCB] leaves the layer with the requested [enabled]
    value; a request for the value the layer already has changes nothing, so
    repeating a request changes nothing either; a request that switches the
    layer on or off makes the whole grid the dirty rectangle and raises the
    dirty flag, and touches neither the grid nor [map_received_]. *)
Theorem reconfigureCB_toggle (sl : StaticLayer.t) (config_enabled : bool) :
  let sl' := StaticLayerCB.reconfigureCB sl config_enabled in
  StaticLayer.enabled_ sl' = config_enabled /\
  (config_enabled = StaticLayer.enabled_ sl -> sl' = sl) /\
  StaticLayerCB.reconfigureCB sl' config_enabled = sl' /\
  StaticLayer.grid sl' = StaticLayer.grid sl /\
  StaticLayer.map_received_ sl' = StaticLayer.map_received_ sl /\
  (config_enabled <> StaticLayer.enabled_ sl ->
   StaticLayer.has_updated_data_ sl' = true /\
   (StaticLayer.x_ sl', StaticLayer.y_ sl', StaticLayer.width_ sl', StaticLayer.height_ sl') =
   (0, 0, Costmap2D.size_x_ (StaticLayer.grid sl), Costmap2D.size_y_ (StaticLayer.grid sl))).
Proof.
  unfold StaticLayerCB.reconfigureCB.
  destruct config_enabled, (StaticLayer.enabled_ sl) eqn:E; cbn; rewrite ?E; cbn;
    repeat split; try congruence; try (intros; now destruct sl).
Qed.

(** Switching off a layer that holds a 2 x 1 map. *)
Lemma reconfigureCB_toggle_witness :
  let sl' := StaticLayerCB.reconfigureCB
               (received true true false (unit_grid 2 1 [0; 254])) false in
  StaticLayer.has_updated_data_ sl' = true /\
  (StaticLayer.x_ sl', StaticLayer.y_ sl', StaticLayer.width_ sl', StaticLayer.height_ sl') =
  (0, 0, 2, 1).
Proof.
  apply (proj2 (proj2 (proj2 (proj2 (proj2
           (reconfigureCB_toggle (received true true false (unit_grid 2 1 [0; 254])) false)))))).
  discriminate.
Defined.

(** ** The bounds *)

Lemma std_min_le_l (a b : Q) : (std_min a b <= a)%Q.
Proof.
  unfold std_min. destruct (Qlt_bool b a) eqn:E.
  - apply Qlt_le_weak. now apply Qlt_bool_iff.
  - apply Qle_refl.
Qed.

Lemma std_min_le_r (a b : Q) : (std_min a b <= b)%Q.
Proof.
  unfold std_min. destruct (Qlt_bool b a) eqn:E.
  - apply Qle_refl.
  - apply Qlt_bool_false_iff in E. now apply Qnot_lt_le.
Qed.

Lemma std_max_ge_l (a b : Q) : (a <= std_max a b)%Q.
Proof.
  unfold std_max. destruct (Qlt_bool a b) eqn:E.
  - apply Qlt_le_weak. now apply Qlt_bool_iff.
  - apply Qle_refl.
Qed.

Lemma std_max_ge_r (a b : Q) : (b <= std_max a b)%Q.
Proof.
  unfold std_max. destruct (Qlt_bool a b) eqn:E.
  - apply Qle_refl.
  - apply Qlt_bool_false_iff in E. now apply Qnot_lt_le.
Qed.

(** X10.  In a call of [updateBounds] that finds the layer enabled, with
    its map and with something to report, the bounds only grow (from what
    [useExtraBounds] left) and afterwards contain the world points of both
    corners of the dirty rectangle; and the dirty flag is cleared. *)
Theorem updateBounds_grows
    (mapToWorld : Costmap2D.t -> Z -> Z -> Q * Q)
    (useExtraBounds : StaticLayer.t -> StaticLayer.Bounds ->
                      StaticLayer.t * StaticLayer.Bounds)
    (sl : StaticLayer.t) (robot_x robot_y robot_yaw : Q) (b : StaticLayer.Bounds) :
  StaticLayer.enabled_ sl = true ->
  StaticLayer.map_received_ sl = true ->
  StaticLayer.has_updated_data_ sl || StaticLayer.has_extra_bounds_ sl = true ->
  let sl1 := (useExtraBounds sl b).1 in
  let b1 := (useExtraBounds sl b).2 in
  let lo := mapToWorld (StaticLayer.grid sl1) (StaticLayer.x_ sl1) (StaticLayer.y_ sl1) in
  let hi := mapToWorld (StaticLayer.grid sl1)
              (StaticLayer.x_ sl1 + StaticLayer.width_ sl1)
              (StaticLayer.y_ sl1 + StaticLayer.height_ sl1) in
  let r := StaticLayer.updateBounds mapToWorld useExtraBounds sl
             robot_x robot_y robot_yaw b in
  StaticLayer.has_updated_data_ r.1 = false /\
  (StaticLayer.min_x r.2 <= StaticLayer.min_x b1)%Q /\
  (StaticLayer.min_y r.2 <= StaticLayer.min_y b1)%Q /\
  (StaticLayer.max_x b1 <= StaticLayer.max_x r.2)%Q /\
  (StaticLayer.max_y b1 <= StaticLayer.max_y r.2)%Q /\
  (StaticLayer.min_x r.2 <= lo.1)%Q /\ (StaticLayer.min_y r.2 <= lo.2)%Q /\
  (hi.1 <= StaticLayer.max_x r.2)%Q /\ (hi.2 <= StaticLayer.max_y r.2)%Q.
Proof.
  intros He Hm Hd sl1 b1 lo hi r. subst r. unfold StaticLayer.updateBounds.
  rewrite He, Hm, Hd. cbn [negb orb].
  subst sl1 b1 lo hi. destruct (useExtraBounds sl b) as [sl1 b1]. cbn [fst snd].
  destruct (mapToWorld (StaticLayer.grid sl1) (StaticLayer.x_ sl1) (StaticLayer.y_ sl1))
    as [wx wy].
  destruct (mapToWorld (StaticLayer.grid sl1) _ _) as [wx' wy'].
  cbn.
  repeat split; auto using std_min_le_l, std_min_le_r, std_max_ge_l, std_max_ge_r.
Qed.

(** The layer with a fresh 2 x 1 map reports the corners (1/2, 1/2) and
    (5/2, 3/2) of its grid. *)
Lemma updateBounds_grows_witness :
  let r := StaticLayer.updateBounds centre_mapToWorld no_extra_bounds
             (received true true false (unit_grid 2 1 [0; 254])) 0 0 0
             (StaticLayer.mkBounds 1 1 1 1) in
  StaticLayer.has_updated_data_ r.1 = false /\
  (StaticLayer.min_x r.2 <= 1 # 2)%Q /\ (5 # 2 <= StaticLayer.max_x r.2)%Q.
Proof.
  intros r.
  destruct (updateBounds_grows centre_mapToWorld no_extra_bounds
              (received true true false (unit_grid 2 1 [0; 254])) 0 0 0
              (StaticLayer.mkBounds 1 1 1 1) eq_refl eq_refl eq_refl)
    as (Hf & _ & _ & _ & _ & Hlo & _ & Hhi & _).
  split; [exact Hf|]. split; [exact Hlo | exact Hhi].
Defined.

(** X11.  [updateBounds] reports a change once: if [useExtraBounds] leaves
    no extra bounds pending, a second call right after the first changes
    neither the layer nor the bounds. *)
Theorem updateBounds_idempotent
    (mapToWorld : Costmap2D.t -> Z -> Z -> Q * Q)
    (useExtraBounds : StaticLayer.t -> StaticLayer.Bounds ->
                      StaticLayer.t * StaticLayer.Bounds)
    (sl : StaticLayer.t) (robot_x robot_y robot_yaw robot_x' robot_y' robot_yaw' : Q)
    (b : StaticLayer.Bounds) :
  (forall sl0 b0, StaticLayer.has_extra_bounds_ (useExtraBounds sl0 b0).1 = false) ->
  let r := StaticLayer.updateBounds mapToWorld useExtraBounds sl
             robot_x robot_y robot_yaw b in
  StaticLayer.updateBounds mapToWorld useExtraBounds r.1
    robot_x' robot_y' robot_yaw' r.2 = r.
Proof.
  intros Hextra r. subst r. unfold StaticLayer.updateBounds at 2 3 4.
  destruct (negb (StaticLayer.enabled_ sl)) eqn:He.
  { cbn [fst snd]. unfold StaticLayer.updateBounds. now rewrite He. }
  destruct (negb (StaticLayer.map_received_ sl) || _) eqn:Hm.
  { cbn [fst snd]. unfold StaticLayer.updateBounds. now rewrite He, Hm. }
  specialize (Hextra sl b).
  destruct (useExtraBounds sl b) as [sl1 b1]. cbn [fst] in Hextra.
  destruct (mapToWorld (StaticLayer.grid sl1) (StaticLayer.x_ sl1) (StaticLayer.y_ sl1))
    as [wx wy].
  destruct (mapToWorld (StaticLayer.grid sl1) _ _) as [wx' wy'].
  cbn [fst snd]. unfold StaticLayer.updateBounds. cbn.
  rewrite Hextra. cbn.
  destruct (negb (StaticLayer.enabled_ sl1)); [reflexivity|].
  now rewrite orb_true_r.
Qed.

(** A sample instance of [useExtraBounds] that leaves none pending: the
    bounds pass through, the flag is cleared. *)
Definition clear_extra_bounds (sl : StaticLayer.t) (b : StaticLayer.Bounds)
  : StaticLayer.t * StaticLayer.Bounds :=
  (StaticLayer.mk (StaticLayer.grid sl) (StaticLayer.x_ sl) (StaticLayer.y_ sl)
     (StaticLayer.width_ sl) (StaticLayer.height_ sl) (StaticLayer.enabled_ sl)
     (StaticLayer.map_received_ sl) (StaticLayer.has_updated_data_ sl) false
     (StaticLayer.track_unknown_space_ sl) (StaticLayer.use_maximum_ sl)
     (StaticLayer.trinary_costmap_ sl) (StaticLayer.lethal_threshold_ sl)
     (StaticLayer.unknown_cost_value_ sl),
   b).

(** The fresh 2 x 1 map again: the second call returns what the first did. *)
Lemma updateBounds_idempotent_witness :
  let r := StaticLayer.updateBounds centre_mapToWorld clear_extra_bounds
             (received true true false (unit_grid 2 1 [0; 254])) 0 0 0
             (StaticLayer.mkBounds 1 1 1 1) in
  StaticLayer.updateBounds centre_mapToWorld clear_extra_bounds r.1 1 1 1 r.2 = r.
Proof.
  apply (updateBounds_idempotent centre_mapToWorld clear_extra_bounds).
  intros sl0 b0. reflexivity.
Defined.

(** ** More on stamping under a rolling costmap *)

Section RollingKnown.

Import StaticLayer.

Variable mapToWorld : Costmap2D.t -> Z -> Z -> Q * Q.
Variable worldToMap : Costmap2D.t -> Q -> Q -> option (Z * Z).
Variable sl : StaticLayer.t.
Variable lc : LayeredCostmap.t.
Variable master0 : Costmap2D.t.

Hypothesis layer_octets : Costmap2D.octets (grid sl).
Hypothesis master_octets : Costmap2D.octets master0.

(** The grid has the length it started with, every cell is an octet, and a
    cell is NO_INFO only if it was at the start. *)
Definition known_kept (m : Costmap2D.t) : Prop :=
  length (Costmap2D.costmap_ m) = length (Costmap2D.costmap_ master0) /\
  Costmap2D.octets m /\
  forall k : nat,
    Costmap2D.costmap_ m !! k = Some NO_INFORMATION ->
    Costmap2D.costmap_ master0 !! k = Some NO_INFORMATION.

Lemma known_kept_start : known_kept master0.
Proof. split; [reflexivity|]. split; [exact master_octets | tauto]. Qed.

Lemma known_kept_write (m m' : Costmap2D.t) (i j value : Z) :
  known_kept m -> octet value ->
  (value = NO_INFORMATION ->
   Costmap2D.costmap_ m !! Z.to_nat (Costmap2D.getIndex m i j) = Some NO_INFORMATION) ->
  Costmap2D.setCost m i j value = Some m' -> known_kept m'.
Proof.
  intros (Hlen & Hoct & Hkeep) Hv Hno Hset.
  destruct (setCost_lookup _ _ _ _ _ Hset) as (_ & _ & Hcells).
  unfold Costmap2D.setCost in Hset. destruct (decide _); [|discriminate].
  injection Hset as <-. cbn in Hcells. repeat split.
  - cbn. now rewrite length_insert.
  - unfold Costmap2D.octets. cbn. apply Forall_insert; [exact Hoct|].
    rewrite to_uchar_octet by exact Hv. exact Hv.
  - intros k. cbn. rewrite Hcells. destruct (decide _) as [-> | _]; [|apply Hkeep].
    rewrite to_uchar_octet by exact Hv. intros E. injection E as E.
    apply Hkeep. now apply Hno.
Qed.

Lemma updateCosts_cell_known (i j : Z) (m m' : Costmap2D.t) :
  known_kept m -> updateCosts_cell mapToWorld worldToMap sl lc i j m = Some m' ->
  known_kept m'.
Proof.
  intros Hm. unfold updateCosts_cell.
  destruct (mapToWorld (LayeredCostmap.costmap lc) i j) as [wx wy].
  destruct (worldToMap (grid sl) wx wy) as [[mx my]|];
    [|intros H; now injection H as <-].
  destruct (Costmap2D.getCost (grid sl) mx my) as [cost|] eqn:Ecost; [|discriminate].
  cbn [mbind option_bind].
  destruct (cost =? NO_INFORMATION) eqn:Eno; [intros H; now injection H as <-|].
  apply Z.eqb_neq in Eno.
  pose proof (getCost_octet _ _ _ _ layer_octets Ecost) as Hc.
  destruct (negb (use_maximum_ sl)).
  { apply (known_kept_write m m' i j cost Hm Hc). intros E. contradiction. }
  destruct (Costmap2D.getCost m i j) as [old_cost|] eqn:Eold; [|discriminate].
  cbn [mbind option_bind].
  pose proof (getCost_octet _ _ _ _ (proj1 (proj2 Hm)) Eold) as Hold.
  apply getCost_lookup in Eold.
  assert (Hmax : octet (Z.max cost old_cost) /\
                 (Z.max cost old_cost = NO_INFORMATION -> old_cost = NO_INFORMATION)).
  { unfold octet, NO_INFORMATION in *. lia. }
  destruct (track_unknown_space_ sl).
  - destruct (cost =? LETHAL_OBSTACLE).
    + apply (known_kept_write m m' i j cost Hm Hc). intros E. contradiction.
    + apply (known_kept_write m m' i j _ Hm (proj1 Hmax)).
      intros E. rewrite Eold. f_equal. now apply Hmax.
  - destruct (old_cost =? NO_INFORMATION).
    + apply (known_kept_write m m' i j cost Hm Hc). intros E. contradiction.
    + apply (known_kept_write m m' i j _ Hm (proj1 Hmax)).
      intros E. rewrite Eold. f_equal. now apply Hmax.
Qed.

Lemma updateCosts_known (min_i min_j max_i max_j : Z) (m' : Costmap2D.t) :
  LayeredCostmap.rolling lc = true ->
  updateCosts mapToWorld worldToMap sl lc master0 min_i min_j max_i max_j = Some m' ->
  known_kept m'.
Proof.
  intros Hroll. unfold updateCosts. rewrite Hroll. cbn [negb].
  destruct (negb (enabled_ sl)); [intros H; injection H as <-; apply known_kept_start|].
  destruct (negb (map_received_ sl));
    [intros H; injection H as <-; apply known_kept_start|].
  apply (for_loop_invariant known_kept); [|exact known_kept_start].
  intros i m m1 Hm. apply (for_loop_invariant known_kept); [|exact Hm].
  intros j m2 m3. apply updateCosts_cell_known.
Qed.

End RollingKnown.

(** X12.  Under a rolling costmap, with either policy, [updateCosts] never
    turns a known master cell into NO_INFO: a cell that did not hold NO_INFO
    before the call does not hold it afterwards, and every cell is still an
    octet. *)
Theorem updateCosts_rolling_keeps_known
    (mapToWorld : Costmap2D.t -> Z -> Z -> Q * Q)
    (worldToMap : Costmap2D.t -> Q -> Q -> option (Z * Z))
    (sl : StaticLayer.t) (lc : LayeredCostmap.t) (master_grid master_grid' : Costmap2D.t)
    (min_i min_j max_i max_j : Z) :
  LayeredCostmap.rolling lc = true ->
  Costmap2D.octets (StaticLayer.grid sl) ->
  Costmap2D.octets master_grid ->
  StaticLayer.updateCosts mapToWorld worldToMap sl lc master_grid
    min_i min_j max_i max_j = Some master_grid' ->
  Costmap2D.octets master_grid' /\
  forall (k : nat) (old : Z),
    Costmap2D.costmap_ master_grid !! k = Some old ->
    old <> NO_INFORMATION ->
    exists new, Costmap2D.costmap_ master_grid' !! k = Some new /\ new <> NO_INFORMATION.
Proof.
  intros Hroll Hl Hm H.
  destruct (updateCosts_known mapToWorld worldToMap sl lc master_grid Hl Hm
              min_i min_j max_i max_j master_grid' Hroll H) as (Hlen & Hoct & Hkeep).
  split; [exact Hoct|].
  intros k old Hk Hold.
  destruct (lookup_lt_is_Some_2 (Costmap2D.costmap_ master_grid') k) as [new Hnew].
  { rewrite Hlen. apply lookup_lt_is_Some_1. now exists old. }
  exists new. split; [exact Hnew|].
  intros ->. apply Hkeep in Hnew. congruence.
Qed.

(** A rolling 2 x 1 master [7; 255] under an overwriting layer that holds
    [255; 9]: cell 0 stays 7 (the layer knows nothing there), cell 1 takes 9. *)
Lemma updateCosts_rolling_keeps_known_witness :
  exists new,
    Costmap2D.costmap_ (unit_grid 2 1 [7; 9]) !! 0%nat = Some new /\
    new <> NO_INFORMATION.
Proof.
  refine (proj2 (updateCosts_rolling_keeps_known centre_mapToWorld floor_worldToMap
            (received true true false (unit_grid 2 1 [255; 9]))
            (LayeredCostmap.mk (unit_grid 2 1 [7; 255]) true true)
            (unit_grid 2 1 [7; 255]) (unit_grid 2 1 [7; 9]) 0 0 2 1 eq_refl _ _ _)
            0%nat 7 eq_refl _).
  - unfold Costmap2D.octets, octet. simpl. repeat constructor; lia.
  - unfold Costmap2D.octets, octet. simpl. repeat constructor; lia.
  - vm_compute. reflexivity.
  - discriminate.
Defined.

(** A loop whose invariant moves with the loop variable. *)
Lemma for_range_indexed {S : Type} (P : Z -> S -> Prop) (body : Z -> S -> option S) :
  forall n i s s',
    (forall k t t', i <= k < i + Z.of_nat n -> P k t -> body k t = Some t' -> P (k + 1) t') ->
    P i s -> for_range n i body s = Some s' -> P (i + Z.of_nat n) s'.
Proof.
  induction n as [|n IH]; intros i s s' Hbody Hs Hrun; cbn [for_range] in Hrun.
  - injection Hrun as <-. now rewrite Z.add_0_r.
  - destruct (body i s) as [s1|] eqn:E; [|discriminate].
    replace (i + Z.of_nat (Datatypes.S n)) with (i + 1 + Z.of_nat n) by lia.
    apply (IH (i + 1) s1 s'); [|exact (Hbody i s s1 ltac:(lia) Hs E)|exact Hrun].
    intros k t t' Hk. apply Hbody. lia.
Qed.

Section RollingCells.

Import StaticLayer.

Variable mapToWorld : Costmap2D.t -> Z -> Z -> Q * Q.
Variable worldToMap : Costmap2D.t -> Q -> Q -> option (Z * Z).
Variable sl : StaticLayer.t.
Variable lc : LayeredCostmap.t.
Variable master0 : Costmap2D.t.
Variables min_i min_j max_i max_j : Z.

Hypothesis min_i_pos : 0 <= min_i.
Hypothesis min_j_pos : 0 <= min_j.
Hypothesis max_i_inside : max_i <= Costmap2D.size_x_ master0.

(** What the round for master cell [(i, j)] leaves in that cell when it
    held [old]: [old] itself where the layer has no cell or holds NO_INFO
    there, else the layer's cost merged by the policy.  [None] where the
    round reads outside the private grid. *)
Definition rolled_value (i j old : Z) : option Z :=
  let '(wx, wy) := mapToWorld (LayeredCostmap.costmap lc) i j in
  match worldToMap (grid sl) wx wy with
  | Some (mx, my) =>
      cost ← Costmap2D.getCost (grid sl) mx my;
      Some (if cost =? NO_INFORMATION then old
            else to_uchar
                   (if negb (use_maximum_ sl) then cost
                    else if track_unknown_space_ sl then
                           if cost =? LETHAL_OBSTACLE then cost else Z.max cost old
                         else
                           if old =? NO_INFORMATION then cost else Z.max cost old))
  | None => Some old
  end.

(** The cells whose round is over when the loops stand at [(i, j)]. *)
Definition done (i j x y : Z) : Prop :=
  min_j <= y < max_j /\ min_i <= x /\ (x < i \/ (x = i /\ y < j)).

(** The master keeps its row length, and its cells are the rolled values
    where the round is over and the first values elsewhere. *)
Definition rolled_so_far (i j : Z) (m : Costmap2D.t) : Prop :=
  Costmap2D.size_x_ m = Costmap2D.size_x_ master0 /\
  forall x y,
    0 <= x < Costmap2D.size_x_ master0 -> 0 <= y ->
    Costmap2D.getCost m x y =
    if decide (done i j x y)
    then Costmap2D.getCost master0 x y ≫= rolled_value x y
    else Costmap2D.getCost master0 x y.

Lemma rolled_so_far_equiv (i j i' j' : Z) (m : Costmap2D.t) :
  (forall x y, done i j x y <-> done i' j' x y) ->
  rolled_so_far i j m -> rolled_so_far i' j' m.
Proof.
  intros Heq [Hsx Hcells]. split; [exact Hsx|].
  intros x y Hx Hy. rewrite (Hcells x y Hx Hy).
  destruct (decide (done i j x y)) as [H | H], (decide (done i' j' x y)) as [H' | H'];
    try reflexivity; exfalso; apply Heq in H || apply Heq in H'; contradiction.
Qed.

(** A write at [(i, j)] is seen at [(i, j)] and nowhere else. *)
Lemma setCost_getCost (m m' : Costmap2D.t) (i j value x y : Z) :
  0 <= i < Costmap2D.size_x_ m -> 0 <= j ->
  0 <= x < Costmap2D.size_x_ m -> 0 <= y ->
  Costmap2D.setCost m i j value = Some m' ->
  Costmap2D.size_x_ m' = Costmap2D.size_x_ m /\
  Costmap2D.getCost m' x y =
  if decide (x = i /\ y = j) then Some (to_uchar value) else Costmap2D.getCost m x y.
Proof.
  intros Hi Hj Hx Hy Hset.
  destruct (setCost_lookup _ _ _ _ _ Hset) as (_ & Hsx & Hcells).
  split; [exact Hsx|].
  unfold Costmap2D.getCost, Costmap2D.getIndex in *. rewrite Hsx.
  destruct (decide (0 <= y * Costmap2D.size_x_ m + x)); [|nia].
  rewrite Hcells.
  destruct (decide (x = i /\ y = j)) as [[-> ->] | Hne].
  - destruct (decide _); [reflexivity | congruence].
  - destruct (decide _) as [E | _]; [|reflexivity].
    exfalso. apply Hne. apply Z2Nat.inj in E; [|nia|nia].
    assert (y = j).
    { destruct (Z.lt_trichotomy y j) as [Hlt | [Heq | Hgt]]; [|exact Heq|].
      - assert ((y + 1) * Costmap2D.size_x_ m <= j * Costmap2D.size_x_ m) by nia. lia.
      - assert ((j + 1) * Costmap2D.size_x_ m <= y * Costmap2D.size_x_ m) by nia. lia. }
    subst y. split; [lia | reflexivity].
Qed.

(** One round: cell [(i, j)] takes its rolled value, the others stay. *)
Lemma updateCosts_cell_round (i j : Z) (m m' : Costmap2D.t) :
  min_i <= i < max_i -> min_j <= j < max_j ->
  rolled_so_far i j m ->
  updateCosts_cell mapToWorld worldToMap sl lc i j m = Some m' ->
  rolled_so_far i (j + 1) m'.
Proof.
  intros Hi Hj [Hsx Hcells] Hstep.
  assert (Hhere : Costmap2D.getCost m i j = Costmap2D.getCost master0 i j).
  { rewrite (Hcells i j) by lia. destruct (decide _) as [Hd | _]; [|reflexivity].
    unfold done in Hd. lia. }
  assert (Hother : forall x y, (x, y) <> (i, j) ->
                     (done i (j + 1) x y <-> done i j x y)).
  { intros x y Hne.
    assert (Hxy : x <> i \/ y <> j).
    { destruct (Z.eq_dec x i) as [-> | ?]; [|now left].
      destruct (Z.eq_dec y j) as [-> | ?]; [|now right].
      exfalso. now apply Hne. }
    unfold done. lia. }
  assert (Hwrite : forall value,
            Costmap2D.setCost m i j value = Some m' ->
            Costmap2D.getCost master0 i j ≫= rolled_value i j = Some (to_uchar value) ->
            rolled_so_far i (j + 1) m').
  { intros value Hset Hval. split.
    - destruct (setCost_lookup _ _ _ _ _ Hset) as (_ & -> & _). exact Hsx.
    - intros x y Hx Hy.
      destruct (setCost_getCost m m' i j value x y
                  ltac:(rewrite Hsx; lia) ltac:(lia) ltac:(rewrite Hsx; lia) Hy Hset)
        as [_ ->].
      destruct (decide (x = i /\ y = j)) as [[-> ->] | Hne].
      + destruct (decide _) as [_ | Hd]; [now rewrite Hval|].
        exfalso. apply Hd. unfold done. lia.
      + rewrite (Hcells x y Hx Hy).
        assert (Hxy : (x, y) <> (i, j)) by (intros E; injection E; tauto).
        destruct (decide (done i j x y)) as [H | H],
                 (decide (done i (j + 1) x y)) as [H' | H'];
          try reflexivity; exfalso;
          apply (Hother x y Hxy) in H' || apply (Hother x y Hxy) in H; contradiction. }
  assert (Hsame : m' = m ->
            Costmap2D.getCost master0 i j ≫= rolled_value i j =
              Costmap2D.getCost master0 i j ->
            rolled_so_far i (j + 1) m').
  { intros -> Hval. split; [exact Hsx|]. intros x y Hx Hy.
    rewrite (Hcells x y Hx Hy).
    destruct (Z.eq_dec x i) as [-> | Hxi]; [destruct (Z.eq_dec y j) as [-> | Hyj]|].
    - destruct (decide (done i j i j)) as [Hd | _]; [unfold done in Hd; lia|].
      destruct (decide _) as [_ | Hd]; [now rewrite Hval|].
      exfalso. apply Hd. unfold done. lia.
    - assert (Hxy : (i, y) <> (i, j)) by congruence.
      destruct (decide (done i j i y)) as [H | H],
               (decide (done i (j + 1) i y)) as [H' | H'];
        try reflexivity; exfalso;
        apply (Hother i y Hxy) in H' || apply (Hother i y Hxy) in H; contradiction.
    - assert (Hxy : (x, y) <> (i, j)) by congruence.
      destruct (decide (done i j x y)) as [H | H],
               (decide (done i (j + 1) x y)) as [H' | H'];
        try reflexivity; exfalso;
        apply (Hother x y Hxy) in H' || apply (Hother x y Hxy) in H; contradiction. }
  revert Hstep. unfold updateCosts_cell.
  destruct (mapToWorld (LayeredCostmap.costmap lc) i j) as [wx wy] eqn:Emap.
  destruct (worldToMap (grid sl) wx wy) as [[mx my]|] eqn:Ew.
  2: { intros H. injection H as <-. apply Hsame; [reflexivity|].
       destruct (Costmap2D.getCost master0 i j) as [old|]; [|reflexivity].
       cbn. unfold rolled_value. now rewrite Emap, Ew. }
  destruct (Costmap2D.getCost (grid sl) mx my) as [cost|] eqn:Ecost; [|discriminate].
  cbn [mbind option_bind].
  assert (Hrv : forall old,
            rolled_value i j old =
            Some (if cost =? NO_INFORMATION then old
                  else to_uchar
                         (if negb (use_maximum_ sl) then cost
                          else if track_unknown_space_ sl then
                                 if cost =? LETHAL_OBSTACLE then cost else Z.max cost old
                               else
                                 if old =? NO_INFORMATION then cost else Z.max cost old))).
  { intros old. unfold rolled_value. now rewrite Emap, Ew, Ecost. }
  destruct (cost =? NO_INFORMATION) eqn:Eno.
  { intros H. injection H as <-. apply Hsame; [reflexivity|].
    destruct (Costmap2D.getCost master0 i j) as [old|]; [|reflexivity].
    cbn. now rewrite Hrv, ?Eno. }
  destruct (negb (use_maximum_ sl)) eqn:Emax.
  { intros Hset. apply (Hwrite cost Hset).
    unfold Costmap2D.setCost in Hset. destruct (decide _) as [Hin|]; [|discriminate].
    destruct (lookup_lt_is_Some_2 (Costmap2D.costmap_ m)
                (Z.to_nat (Costmap2D.getIndex m i j))) as [old Hold]; [lia|].
    assert (Hg : Costmap2D.getCost m i j = Some old).
    { unfold Costmap2D.getCost. destruct (decide _); [exact Hold | lia]. }
    rewrite <- Hhere, Hg. cbn. now rewrite Hrv, ?Eno, ?Emax. }
  rewrite Hhere.
  destruct (Costmap2D.getCost master0 i j) as [old_cost|]; [|discriminate].
  cbn [mbind option_bind].
  destruct (track_unknown_space_ sl) eqn:Et;
    [destruct (cost =? LETHAL_OBSTACLE) eqn:El
    |destruct (old_cost =? NO_INFORMATION) eqn:Eo];
    intros Hset; apply (Hwrite _ Hset); cbn;
    rewrite Hrv, ?Eno, ?Emax, ?Et, ?El, ?Eo; reflexivity.
Qed.

(** One row of rounds. *)
Lemma updateCosts_row_rounds (i : Z) (m m' : Costmap2D.t) :
  min_i <= i < max_i ->
  rolled_so_far i min_j m ->
  for_loop min_j max_j
    (fun j m => updateCosts_cell mapToWorld worldToMap sl lc i j m) m = Some m' ->
  rolled_so_far (i + 1) min_j m'.
Proof.
  intros Hi Hm Hrun. unfold for_loop in Hrun.
  apply (for_range_indexed (rolled_so_far i)) in Hrun; [| |exact Hm].
  - revert Hrun. apply rolled_so_far_equiv. intros x y. unfold done. lia.
  - intros k t t' Hk. apply updateCosts_cell_round; lia.
Qed.

(** All rounds of the rectangle. *)
Lemma updateCosts_rounds (m' : Costmap2D.t) :
  for_loop min_i max_i
    (fun i m =>
       for_loop min_j max_j
         (fun j m => updateCosts_cell mapToWorld worldToMap sl lc i j m) m)
    master0 = Some m' ->
  forall x y,
    0 <= x < Costmap2D.size_x_ master0 -> 0 <= y ->
    Costmap2D.getCost m' x y =
    if decide (min_i <= x < max_i /\ min_j <= y < max_j)
    then Costmap2D.getCost master0 x y ≫= rolled_value x y
    else Costmap2D.getCost master0 x y.
Proof.
  intros Hrun. unfold for_loop in Hrun.
  apply (for_range_indexed (fun i => rolled_so_far i min_j)) in Hrun.
  - destruct Hrun as [_ Hcells]. intros x y Hx Hy. rewrite (Hcells x y Hx Hy).
    destruct (decide (done _ _ x y)) as [H | H],
             (decide (min_i <= x < max_i /\ min_j <= y < max_j)) as [H' | H'];
      try reflexivity; exfalso; unfold done in H; lia.
  - intros k t t' Hk. apply updateCosts_row_rounds. lia.
  - split; [reflexivity|]. intros x y Hx Hy.
    destruct (decide _) as [H | _]; [|reflexivity]. unfold done in H. lia.
Qed.

End RollingCells.

(** X13.  What the rolling branch of [updateCosts] computes, cell by cell.
    On a rectangle inside the master's rows, every master cell of the
    rectangle ends as the merge of its own previous value with the layer
    cell it projects to ([rolled_value]: unchanged where the projection
    falls outside the private grid or the layer holds NO_INFO), and every
    cell outside the rectangle keeps its value: no round disturbs another
    cell. *)
Theorem updateCosts_rolling_cells
    (mapToWorld : Costmap2D.t -> Z -> Z -> Q * Q)
    (worldToMap : Costmap2D.t -> Q -> Q -> option (Z * Z))
    (sl : StaticLayer.t) (lc : LayeredCostmap.t) (master_grid master_grid' : Costmap2D.t)
    (min_i min_j max_i max_j : Z) :
  LayeredCostmap.rolling lc = true ->
  StaticLayer.enabled_ sl = true -> StaticLayer.map_received_ sl = true ->
  0 <= min_i < 2 ^ 32 -> 0 <= max_i <= Costmap2D.size_x_ master_grid ->
  Costmap2D.size_x_ master_grid < 2 ^ 32 ->
  0 <= min_j < 2 ^ 32 -> 0 <= max_j < 2 ^ 32 ->
  StaticLayer.updateCosts mapToWorld worldToMap sl lc master_grid
    min_i min_j max_i max_j = Some master_grid' ->
  forall x y,
    0 <= x < Costmap2D.size_x_ master_grid -> 0 <= y ->
    Costmap2D.getCost master_grid' x y =
    if decide (min_i <= x < max_i /\ min_j <= y < max_j)
    then Costmap2D.getCost master_grid x y ≫= rolled_value mapToWorld worldToMap sl lc x y
    else Costmap2D.getCost master_grid x y.
Proof.
  intros Hroll He Hm Hi0 Hi1 Hsx Hj0 Hj1. unfold StaticLayer.updateCosts.
  rewrite Hroll, He, Hm. cbn [negb]. rewrite !to_uint_small by lia.
  apply updateCosts_rounds; lia.
Qed.

(** The rolling 2 x 1 master [7; 255] under a maximum-merging layer that
    holds [9; 254], stamped on its first cell only: 7 becomes 9, the second
    cell keeps NO_INFO. *)
Lemma updateCosts_rolling_cells_witness :
  Costmap2D.getCost (unit_grid 2 1 [9; 255]) 0 0 = Some 9 /\
  Costmap2D.getCost (unit_grid 2 1 [9; 255]) 1 0 = Some 255.
Proof.
  pose proof (updateCosts_rolling_cells centre_mapToWorld floor_worldToMap
                (received true true true (unit_grid 2 1 [9; 254]))
                (LayeredCostmap.mk (unit_grid 2 1 [7; 255]) true true)
                (unit_grid 2 1 [7; 255]) (unit_grid 2 1 [9; 255]) 0 0 1 1
                eq_refl eq_refl eq_refl) as H.
  assert (Hcells := H ltac:(lia) ltac:(simpl; lia) ltac:(simpl; lia)
                      ltac:(lia) ltac:(lia) ltac:(vm_compute; reflexivity)).
  split.
  - rewrite (Hcells 0 0) by (simpl; lia). vm_compute. reflexivity.
  - rewrite (Hcells 1 0) by (simpl; lia). vm_compute. reflexivity.
Defined.

(** * Further properties of the planner state machine *)

Section DetermineStateMore.

Import DWAPlanner.

Variable sw : Switches.

Lemma Qabs_opp_eq (q : Q) : Qabs (- q) = Qabs q.
Proof. destruct q as [n d]. unfold Qabs, Qopp. cbn. now rewrite Z.abs_opp. Qed.

Lemma determineState_eq prev yaw_error plan_distance goal_distance :
  determineState sw prev yaw_error plan_distance goal_distance =
  let state :=
    if Qlt_bool goal_distance (switch_goal_distance_ sw) then Arrive
    else if Qlt_bool (switch_yaw_error_ sw) (Qabs yaw_error) ||
            (LocalPlannerState_eqb prev Align &&
             Qlt_bool (switch_yaw_error_ sw / 2) (Qabs yaw_error))
    then Align
    else Default in
  (state, state).
Proof.
  rewrite determineState_pair, determineState_fst. reflexivity.
Qed.

Lemma determineState_three prev yaw_error plan_distance goal_distance :
  let s := fst (determineState sw prev yaw_error plan_distance goal_distance) in
  s = Default \/ s = Arrive \/ s = Align.
Proof.
  cbv zeta. rewrite determineState_fst.
  destruct (Qlt_bool goal_distance _); [tauto|].
  destruct (_ || _); tauto.
Qed.

(** A run over two lists of calls is the run over the first followed by the
    run over the second, started from what the first left in the static
    variable. *)
Lemma determineStates_app_eq (calls1 calls2 : list (Q * Q * Q)) :
  forall prev,
    determineStates sw prev (calls1 ++ calls2) =
    (fst (determineStates sw prev calls1) ++
     fst (determineStates sw (snd (determineStates sw prev calls1)) calls2),
     snd (determineStates sw (snd (determineStates sw prev calls1)) calls2)).
Proof.
  induction calls1 as [|[[y p] g] rest IH]; intros prev.
  - cbn. now destruct (determineStates sw prev calls2).
  - cbn [app determineStates].
    destruct (determineState sw prev y p g) as [state prev'].
    rewrite IH.
    destruct (determineStates sw prev' rest) as [states final]. reflexivity.
Qed.

Lemma last_default {A : Type} (l : list A) (x d d' : A) :
  List.last (x :: l) d = List.last (x :: l) d'.
Proof.
  revert x. induction l as [|y l IH]; intros x; [reflexivity|].
  change (List.last (y :: l) d = List.last (y :: l) d'). apply IH.
Qed.

Lemma determineStates_last (calls : list (Q * Q * Q)) :
  forall prev,
    snd (determineStates sw prev calls) =
    List.last (fst (determineStates sw prev calls)) prev.
Proof.
  induction calls as [|[[y p] g] rest IH]; intros prev; [reflexivity|].
  cbn [determineStates]. rewrite (determineState_pair sw prev y p g).
  set (state := fst (determineState sw prev y p g)).
  specialize (IH state).
  destruct (determineStates sw state rest) as [states final]. cbn in *.
  rewrite IH. destruct states; [reflexivity | apply last_default].
Qed.

End DetermineStateMore.

(** X14.  [determineState] returns [Default], [Arrive] or [Align] and
    nothing else: [NotMoving] and [None] are never returned, and never left
    in the static variable. *)
Theorem determineState_codomain (sw : DWAPlanner.Switches)
    (prev : DWAPlanner.LocalPlannerState) (yaw_error plan_distance goal_distance : Q) :
  let r := DWAPlanner.determineState sw prev yaw_error plan_distance goal_distance in
  (fst r = DWAPlanner.Default \/ fst r = DWAPlanner.Arrive \/ fst r = DWAPlanner.Align) /\
  fst r <> DWAPlanner.NotMoving /\ fst r <> DWAPlanner.None_ /\
  snd r <> DWAPlanner.NotMoving /\ snd r <> DWAPlanner.None_.
Proof.
  cbv zeta. rewrite determineState_remembers.
  pose proof (determineState_three sw prev yaw_error plan_distance goal_distance) as H.
  cbv zeta in H. split; [exact H|].
  repeat split; intros E; rewrite E in H; destruct H as [H | [H | H]]; discriminate.
Qed.

(** X15.  What [determineState] does not look at: the plan distance, the
    sign of the yaw error, and which of the states other than [Align] came
    before. *)
Theorem determineState_ignores (sw : DWAPlanner.Switches)
    (prev prev' : DWAPlanner.LocalPlannerState)
    (yaw_error plan_distance plan_distance' goal_distance : Q) :
  DWAPlanner.determineState sw prev yaw_error plan_distance goal_distance =
  DWAPlanner.determineState sw prev (- yaw_error) plan_distance' goal_distance /\
  (prev <> DWAPlanner.Align -> prev' <> DWAPlanner.Align ->
   fst (DWAPlanner.determineState sw prev yaw_error plan_distance goal_distance) =
   fst (DWAPlanner.determineState sw prev' yaw_error plan_distance goal_distance)).
Proof.
  split.
  - rewrite !determineState_eq, Qabs_opp_eq. reflexivity.
  - intros H H'. rewrite !determineState_fst.
    replace (DWAPlanner.LocalPlannerState_eqb prev DWAPlanner.Align) with false
      by (destruct prev; try reflexivity; congruence).
    replace (DWAPlanner.LocalPlannerState_eqb prev' DWAPlanner.Align) with false
      by (destruct prev'; try reflexivity; congruence).
    reflexivity.
Qed.

(** From [None] and from [Arrive], a yaw error of 0.6 gives the same state. *)
Lemma determineState_ignores_witness :
  fst (DWAPlanner.determineState hysteresis_switches DWAPlanner.None_ (6 # 10) 0 2) =
  fst (DWAPlanner.determineState hysteresis_switches DWAPlanner.Arrive (6 # 10) 0 2).
Proof.
  apply (proj2 (determineState_ignores hysteresis_switches DWAPlanner.None_
                  DWAPlanner.Arrive (6 # 10) 0 0 2)); discriminate.
Defined.

(** X16.  Calls compose: the states returned over [calls1 ++ calls2] are
    those over [calls1] followed by those over [calls2] started from what
    [calls1] left in the static variable; and after any run the static
    variable holds the last state returned (or what it held, if there was
    no call). *)
Theorem determineStates_compose (sw : DWAPlanner.Switches)
    (prev : DWAPlanner.LocalPlannerState) (calls1 calls2 : list (Q * Q * Q)) :
  let r1 := DWAPlanner.determineStates sw prev calls1 in
  let r2 := DWAPlanner.determineStates sw (snd r1) calls2 in
  DWAPlanner.determineStates sw prev (calls1 ++ calls2) = (fst r1 ++ fst r2, snd r2) /\
  snd r1 = List.last (fst r1) prev.
Proof.
  split; [apply determineStates_app_eq | apply determineStates_last].
Qed.

Section DetermineStateRuns.

Import DWAPlanner.

Variable sw : Switches.

(** Away from the goal, with the yaw error above half the switch. *)
Definition keeps_aligning (call : Q * Q * Q) : Prop :=
  (switch_goal_distance_ sw <= call.2)%Q /\
  (switch_yaw_error_ sw / 2 < Qabs call.1.1)%Q.

(** With the yaw error at or below the switch. *)
Definition small_error (call : Q * Q * Q) : Prop :=
  (Qabs call.1.1 <= switch_yaw_error_ sw)%Q.

Lemma determineStates_stay_aligned (calls : list (Q * Q * Q)) :
  Forall keeps_aligning calls ->
  determineStates sw Align calls = (replicate (length calls) Align, Align).
Proof.
  induction 1 as [|[[y p] g] rest [Hg Hy] _ IH]; [reflexivity|].
  cbn [determineStates]. rewrite (determineState_pair sw Align y p g).
  rewrite (determineState_Align sw Align y p g).
  - rewrite IH. reflexivity.
  - now apply Qle_not_lt.
  - right. split; [reflexivity | exact Hy].
Qed.

Lemma determineStates_no_align (calls : list (Q * Q * Q)) :
  forall prev,
    prev <> Align -> Forall small_error calls ->
    ~ In Align (fst (determineStates sw prev calls)) /\
    snd (determineStates sw prev calls) <> Align.
Proof.
  induction calls as [|[[y p] g] rest IH]; intros prev Hprev Hall.
  - cbn. tauto.
  - inversion Hall as [|c l Hc Hrest]; subst. unfold small_error in Hc. cbn in Hc.
    cbn [determineStates]. rewrite (determineState_pair sw prev y p g).
    assert (Hs : fst (determineState sw prev y p g) <> Align).
    { rewrite determineState_fst.
      destruct (Qlt_bool g (switch_goal_distance_ sw)); [discriminate|].
      replace (Qlt_bool (switch_yaw_error_ sw) (Qabs y)) with false
        by (symmetry; apply Qlt_bool_false_iff; now apply Qle_not_lt).
      replace (LocalPlannerState_eqb prev Align) with false
        by (destruct prev; try reflexivity; congruence).
      discriminate. }
    destruct (IH _ Hs Hrest) as [Hin Hfinal].
    destruct (determineStates sw (fst (determineState sw prev y p g)) rest)
      as [states final].
    cbn in *. split; [|exact Hfinal].
    intros [E | E]; [now apply Hs | now apply Hin].
Qed.

End DetermineStateRuns.

(** X17.  Hysteresis over a whole run: once in [Align], the planner stays
    in [Align] through every cycle that is away from the goal and has a yaw
    error above half of [switch_yaw_error], however many there are. *)
Theorem determineStates_stays_aligned (sw : DWAPlanner.Switches)
    (calls : list (Q * Q * Q)) :
  Forall (keeps_aligning sw) calls ->
  DWAPlanner.determineStates sw DWAPlanner.Align calls =
  (replicate (length calls) DWAPlanner.Align, DWAPlanner.Align).
Proof. apply determineStates_stay_aligned. Qed.

(** Yaw errors 0.9, -0.6 and 0.51 with the switch at 1. *)
Lemma determineStates_stays_aligned_witness :
  DWAPlanner.determineStates hysteresis_switches DWAPlanner.Align
    [(9 # 10, 0, 2); (- (6 # 10), 0, 1); (51 # 100, 5, 3)]%Q =
  ([DWAPlanner.Align; DWAPlanner.Align; DWAPlanner.Align], DWAPlanner.Align).
Proof.
  apply (determineStates_stays_aligned hysteresis_switches
           [(9 # 10, 0, 2); (- (6 # 10), 0, 1); (51 # 100, 5, 3)]%Q).
  repeat constructor; vm_compute; congruence.
Defined.

(** X18.  [Align] is entered only on a large error: started from any state
    but [Align], a run whose yaw errors all stay at or below
    [switch_yaw_error] never returns [Align] and does not leave [Align] in
    the static variable. *)
Theorem determineStates_never_aligns (sw : DWAPlanner.Switches)
    (prev : DWAPlanner.LocalPlannerState) (calls : list (Q * Q * Q)) :
  prev <> DWAPlanner.Align -> Forall (small_error sw) calls ->
  ~ In DWAPlanner.Align (fst (DWAPlanner.determineStates sw prev calls)) /\
  snd (DWAPlanner.determineStates sw prev calls) <> DWAPlanner.Align.
Proof. apply determineStates_no_align. Qed.

(** Yaw errors 0.9 and -1 with the switch at 1, from the initial state. *)
Lemma determineStates_never_aligns_witness :
  ~ In DWAPlanner.Align
      (fst (DWAPlanner.determineStates hysteresis_switches DWAPlanner.initial_prev_state
              [(9 # 10, 0, 2); (- (1), 0, 2)]%Q)).
Proof.
  apply (determineStates_never_aligns hysteresis_switches DWAPlanner.initial_prev_state
           [(9 # 10, 0, 2); (- (1), 0, 2)]%Q).
  - discriminate.
  - repeat constructor; vm_compute; congruence.
Defined.

(** * The cost functions of a cycle *)

Module DWAPlannerCosts.

Import BaseLocalPlanner DWAPlanner.

(** The members [updatePlanAndLocalCosts] reads for one state: the
    alignment, plan, goal and obstacle scales and the six command
    coefficients ([align_align_scale_], [align_plan_scale_],
    [align_goal_scale_], [align_occ_scale_], [align_cmd_px_] ... for
    [Align], and likewise for [Default] and [Arrive]). *)
Record Weights : Type := mkWeights {
  align_scale : Q;
  plan_scale : Q;
  goal_scale : Q;
  occ_scale : Q;
  cmd_coefficients : Q * Q * Q * Q * Q * Q
}.

(** What the cost functions were last given: the argument of the last call
    of [setScale] on [alignment_costs_], [plan_costs_], [goal_costs_] and
    [obstacle_costs_], of [setDesiredOrientation], of [setCoefficients], of
    [setTargetPoses] on [goal_costs_] and [plan_costs_], and of
    [setFootprint]. *)
Record CostFunctions : Type := mkCostFunctions {
  alignment_costs_scale : Q;
  plan_costs_scale : Q;
  goal_costs_scale : Q;
  obstacle_costs_scale : Q;
  desired_orientation : Q;
  coefficients : Q * Q * Q * Q * Q * Q;
  goal_costs_targets : list Pose;
  plan_costs_targets : list Pose;
  footprint : list (Q * Q)
}.

(** The planner: its switches, its three rows of weights, the static
    variable of [determineState], and its cost functions. *)
Record Planner : Type := mkPlanner {
  switches : Switches;
  align_weights : Weights;
  default_weights : Weights;
  arrive_weights : Weights;
  prev_state : LocalPlannerState;
  costs : CostFunctions
}.

(** One [case] of the [switch]: scales, desired orientation and
    coefficients. *)
Definition apply_weights (w : Weights) (orientation : Q) (c : CostFunctions)
  : CostFunctions :=
  mkCostFunctions (align_scale w) (plan_scale w) (goal_scale w) (occ_scale w)
    orientation (cmd_coefficients w)
    (goal_costs_targets c) (plan_costs_targets c) (footprint c).

Section Helpers.

(** [base_local_planner::planFromLookahead], not among the sources. *)
Variable planFromLookahead : list Pose -> Q -> list Pose.
Variable gf : GoalFunctions.

(** [DWAPlanner::updatePlanAndLocalCosts].  [local_plan.front()] and
    [local_plan.back()] are undefined on an empty plan.  The [switch] has
    cases for [Align], [Default] and [Arrive] only. *)
Definition updatePlanAndLocalCosts (dp : Planner) (robot_pose : Pose)
    (local_plan : list Pose) (lookahead : Q) (footprint_spec : list (Q * Q))
  : option Planner :=
  match local_plan with
  | [] => None
  | front :: _ =>
      let back := List.last local_plan front in
      let yaw_error :=
        getGoalOrientationAngleDifference gf robot_pose (pose_yaw front) in
      let plan_distance :=
        getGoalPositionDistance gf robot_pose (pose_x front) (pose_y front) in
      let goal_distance :=
        getGoalPositionDistance gf robot_pose (pose_x back) (pose_y back) in
      let '(state, prev_state') :=
        determineState (switches dp) (prev_state dp) yaw_error plan_distance
          goal_distance in
      let c1 :=
        match state with
        | Align => apply_weights (align_weights dp) (pose_yaw front) (costs dp)
        | Default => apply_weights (default_weights dp) (pose_yaw front) (costs dp)
        | Arrive => apply_weights (arrive_weights dp) (pose_yaw back) (costs dp)
        | NotMoving | None_ => costs dp
        end in
      let c2 :=
        mkCostFunctions (alignment_costs_scale c1) (plan_costs_scale c1)
          (goal_costs_scale c1) (obstacle_costs_scale c1) (desired_orientation c1)
          (coefficients c1)
          (planFromLookahead local_plan lookahead) local_plan footprint_spec in
      Some (mkPlanner (switches dp) (align_weights dp) (default_weights dp)
              (arrive_weights dp) prev_state' c2)
  end.

End Helpers.

End DWAPlannerCosts.

(** X19.  [updatePlanAndLocalCosts] is undefined on an empty plan.  On a
    plan with a first pose it always reconfigures the cost functions:
    within [switch_goal_distance] of the last pose they get the [Arrive]
    weights and the yaw of the last pose as desired orientation, whatever
    the yaw error and the previous state; otherwise the [Align] or the
    [Default] weights and the yaw of the first pose; never anything else.
    The plan costs get the plan, the goal costs the plan from the lookahead,
    the obstacle costs the footprint, and the switches and weights are
    kept. *)
Theorem updatePlanAndLocalCosts_weights
    (planFromLookahead : list BaseLocalPlanner.Pose -> Q -> list BaseLocalPlanner.Pose)
    (gf : BaseLocalPlanner.GoalFunctions) (dp : DWAPlannerCosts.Planner)
    (robot_pose front : BaseLocalPlanner.Pose) (rest : list BaseLocalPlanner.Pose)
    (lookahead : Q) (footprint_spec : list (Q * Q)) :
  DWAPlannerCosts.updatePlanAndLocalCosts planFromLookahead gf dp robot_pose []
    lookahead footprint_spec = None /\
  let plan := front :: rest in
  let back := List.last plan front in
  let goal_distance :=
    BaseLocalPlanner.getGoalPositionDistance gf robot_pose
      (BaseLocalPlanner.pose_x back) (BaseLocalPlanner.pose_y back) in
  exists dp',
    DWAPlannerCosts.updatePlanAndLocalCosts planFromLookahead gf dp robot_pose plan
      lookahead footprint_spec = Some dp' /\
    let c := DWAPlannerCosts.costs dp' in
    ((goal_distance < DWAPlanner.switch_goal_distance_ (DWAPlannerCosts.switches dp))%Q ->
     DWAPlannerCosts.prev_state dp' = DWAPlanner.Arrive /\
     c = DWAPlannerCosts.mkCostFunctions
           (DWAPlannerCosts.align_scale (DWAPlannerCosts.arrive_weights dp))
           (DWAPlannerCosts.plan_scale (DWAPlannerCosts.arrive_weights dp))
           (DWAPlannerCosts.goal_scale (DWAPlannerCosts.arrive_weights dp))
           (DWAPlannerCosts.occ_scale (DWAPlannerCosts.arrive_weights dp))
           (BaseLocalPlanner.pose_yaw back)
           (DWAPlannerCosts.cmd_coefficients (DWAPlannerCosts.arrive_weights dp))
           (planFromLookahead plan lookahead) plan footprint_spec) /\
    (~ (goal_distance < DWAPlanner.switch_goal_distance_ (DWAPlannerCosts.switches dp))%Q ->
     exists w,
       (w = DWAPlannerCosts.align_weights dp /\
        DWAPlannerCosts.prev_state dp' = DWAPlanner.Align \/
        w = DWAPlannerCosts.default_weights dp /\
        DWAPlannerCosts.prev_state dp' = DWAPlanner.Default) /\
       c = DWAPlannerCosts.mkCostFunctions
             (DWAPlannerCosts.align_scale w) (DWAPlannerCosts.plan_scale w)
             (DWAPlannerCosts.goal_scale w) (DWAPlannerCosts.occ_scale w)
             (BaseLocalPlanner.pose_yaw front) (DWAPlannerCosts.cmd_coefficients w)
             (planFromLookahead plan lookahead) plan footprint_spec) /\
    DWAPlannerCosts.switches dp' = DWAPlannerCosts.switches dp /\
    DWAPlannerCosts.align_weights dp' = DWAPlannerCosts.align_weights dp /\
    DWAPlannerCosts.default_weights dp' = DWAPlannerCosts.default_weights dp /\
    DWAPlannerCosts.arrive_weights dp' = DWAPlannerCosts.arrive_weights dp.
Proof.
  split; [reflexivity|].
  intros plan back goal_distance.
  unfold DWAPlannerCosts.updatePlanAndLocalCosts. subst plan. cbv beta iota zeta.
  fold back. fold goal_distance.
  rewrite determineState_eq. cbv beta iota zeta.
  destruct (Qlt_bool goal_distance _) eqn:Eg.
  - eexists. split; [reflexivity|]. cbn.
    split; [intros _; split; reflexivity|].
    split; [intros Hn; exfalso; apply Hn; now apply Qlt_bool_iff|].
    repeat split.
  - destruct (_ || _) eqn:Ea.
    + eexists. split; [reflexivity|]. cbn.
      split; [intros Hlt; apply Qlt_bool_iff in Hlt; congruence|].
      split; [|repeat split].
      intros _. exists (DWAPlannerCosts.align_weights dp).
      split; [left; split; reflexivity | reflexivity].
    + eexists. split; [reflexivity|]. cbn.
      split; [intros Hlt; apply Qlt_bool_iff in Hlt; congruence|].
      split; [|repeat split].
      intros _. exists (DWAPlannerCosts.default_weights dp).
      split; [right; split; reflexivity | reflexivity].
Qed.

(** A planner with three rows of weights, switches at 1, before its first
    cycle. *)
Definition sample_planner : DWAPlannerCosts.Planner :=
  DWAPlannerCosts.mkPlanner hysteresis_switches
    (DWAPlannerCosts.mkWeights 1 0 0 1 (0, 0, 0, 0, 0, 0)%Q)
    (DWAPlannerCosts.mkWeights 0 1 1 1 (0, 1, 1, 1, 0, 0)%Q)
    (DWAPlannerCosts.mkWeights 1 0 1 2 (0, 0, 0, 0, 0, 0)%Q)
    DWAPlanner.initial_prev_state
    (DWAPlannerCosts.mkCostFunctions 0 0 0 0 0 (0, 0, 0, 0, 0, 0)%Q [] [] []).

(** The robot at the origin, half a unit from the end of a two-pose plan:
    the planner arrives, aiming at the yaw of the last pose. *)
Lemma updatePlanAndLocalCosts_weights_witness :
  exists dp',
    DWAPlannerCosts.updatePlanAndLocalCosts (fun plan _ => plan) sample_goal_functions
      sample_planner origin_pose
      [BaseLocalPlanner.mkPose (1 # 4) 0 1; BaseLocalPlanner.mkPose (1 # 2) 0 2] 0 [] =
    Some dp' /\
    DWAPlannerCosts.prev_state dp' = DWAPlanner.Arrive /\
    DWAPlannerCosts.desired_orientation (DWAPlannerCosts.costs dp') = 2%Q.
Proof.
  destruct (proj2 (updatePlanAndLocalCosts_weights (fun plan _ => plan)
              sample_goal_functions sample_planner origin_pose
              (BaseLocalPlanner.mkPose (1 # 4) 0 1) [BaseLocalPlanner.mkPose (1 # 2) 0 2]
              0 []))
    as (dp' & H & Harrive & _).
  exists dp'. split; [exact H|].
  destruct (Harrive ltac:(vm_compute; reflexivity)) as [Hs Hc].
  split; [exact Hs|]. cbv zeta in Hc. rewrite Hc. reflexivity.
Defined.

(** * Further properties of the planner cycle *)

Section PlannerCycleMore.

Import BaseLocalPlanner DWAPlannerROS.

Variable Planner : Type.
Variable env : Collaborators Planner.

(** The local plan [getRobotStateAndLocalPlan] asks for: the answer of
    [getLocalPlan] for the pose [getRobotState] left. *)
Definition asked_plan (robot_pose robot_vel : Pose) : bool * list Pose :=
  getLocalPlan Planner env (getRobotState Planner env robot_pose robot_vel).1.2.

Lemma getRobotState_result (robot_pose robot_vel : Pose) :
  (getRobotState Planner env robot_pose robot_vel).1.1 =
  if negb (initialized_ Planner env) || negb (getRobotPose Planner env).1
  then Returned false else NoReturn.
Proof.
  unfold getRobotState. destruct (initialized_ Planner env); [|reflexivity].
  destruct (getRobotPose Planner env) as [[] p]; reflexivity.
Qed.

Lemma getRobotStateAndLocalPlan_result (robot_pose robot_vel : Pose)
    (local_plan : list Pose) :
  (getRobotStateAndLocalPlan Planner env robot_pose robot_vel local_plan).1.1.1 =
  match asked_plan robot_pose robot_vel with
  | (true, _ :: _) => NoReturn
  | _ => Returned false
  end.
Proof.
  unfold getRobotStateAndLocalPlan, asked_plan.
  destruct (getRobotState Planner env robot_pose robot_vel) as [[r p] v]. cbn [fst snd].
  destruct (getLocalPlan Planner env p) as [[] [|q plan]]; reflexivity.
Qed.

Lemma computeVelocityCommands_cases (dp : Planner) (cmd_vel : Twist) :
  let out := computeVelocityCommands Planner env dp cmd_vel in
  out = mkOutcome Planner false cmd_vel [] dp \/
  (result Planner out = Qle_bool 0 (cost_ (sampled Planner env dp)) /\
   cmd_vel_out Planner out = setCmdVel (sampled Planner env dp) cmd_vel /\
   exists local_plan,
     published Planner out =
     [LocalPlan local_plan; publishTrajectory (sampled Planner env dp)]).
Proof.
  unfold computeVelocityCommands, sampled.
  destruct (getRobotStateAndLocalPlan Planner env (fresh_pose Planner env)
              (fresh_pose Planner env) []) as [[[r p] v] lp].
  destruct (negb (observe Planner env r)); [now left|].
  right. cbn. repeat split. now exists lp.
Qed.

End PlannerCycleMore.

(** X20.  Neither [getRobotState] nor [getRobotStateAndLocalPlan] ever
    returns true.  [getRobotState] returns false exactly when the planner is
    not initialized or no pose is available; [getRobotStateAndLocalPlan]
    returns false exactly when the local plan cannot be had or is empty,
    whatever [getRobotState] found; in all other cases they end without a
    [return] statement. *)
Theorem state_functions_never_return_true (Planner : Type)
    (env : DWAPlannerROS.Collaborators Planner)
    (robot_pose robot_vel : BaseLocalPlanner.Pose)
    (local_plan : list BaseLocalPlanner.Pose) :
  let r1 := (DWAPlannerROS.getRobotState Planner env robot_pose robot_vel).1.1 in
  let r2 := (DWAPlannerROS.getRobotStateAndLocalPlan Planner env robot_pose robot_vel
               local_plan).1.1.1 in
  r1 <> DWAPlannerROS.Returned true /\
  r2 <> DWAPlannerROS.Returned true /\
  (r1 = DWAPlannerROS.Returned false <->
   DWAPlannerROS.initialized_ Planner env = false \/
   (DWAPlannerROS.getRobotPose Planner env).1 = false) /\
  (r2 = DWAPlannerROS.Returned false <->
   (asked_plan Planner env robot_pose robot_vel).1 = false \/
   (asked_plan Planner env robot_pose robot_vel).2 = []).
Proof.
  cbv zeta. rewrite getRobotState_result, getRobotStateAndLocalPlan_result.
  destruct (DWAPlannerROS.initialized_ Planner env),
           (DWAPlannerROS.getRobotPose Planner env) as [[] p],
           (asked_plan Planner env robot_pose robot_vel) as [[] [|q plan]];
    cbn; repeat split; try discriminate; try tauto;
    try (intros [H | H]; discriminate).
Qed.

(** X21.  [isGoalReached] answers false whenever the planner is not
    initialized, no pose is available or no goal is available, whatever
    value is read from the call that ended without a [return]. *)
Theorem isGoalReached_needs_state (Planner : Type)
    (env : DWAPlannerROS.Collaborators Planner) :
  DWAPlannerROS.initialized_ Planner env = false \/
  (DWAPlannerROS.getRobotPose Planner env).1 = false \/
  (DWAPlannerROS.getGoal Planner env).1 = false ->
  DWAPlannerROS.isGoalReached Planner env = false.
Proof.
  unfold DWAPlannerROS.isGoalReached, DWAPlannerROS.getRobotState.
  destruct (DWAPlannerROS.initialized_ Planner env); cbn; [|reflexivity].
  destruct (DWAPlannerROS.getRobotPose Planner env) as [[] p]; cbn; [|reflexivity].
  destruct (DWAPlannerROS.indeterminate Planner env); cbn; [|reflexivity].
  destruct (DWAPlannerROS.getGoal Planner env) as [[] g]; cbn; [|reflexivity].
  intros [H | [H | H]]; discriminate.
Qed.

(** The sample cycle without a pose. *)
Lemma isGoalReached_needs_state_witness :
  DWAPlannerROS.isGoalReached unit (sample_cycle false) = false.
Proof.
  apply isGoalReached_needs_state. right. left. reflexivity.
Defined.

(** X22.  [computeVelocityCommands] returns true only with a legal
    trajectory in hand: then the sampled trajectory has cost >= 0, the
    command carries its [(vx, vy, vtheta)], and the local plan and the
    trajectory's points were published, in that order.  In every call the
    components [linear.z], [angular.x] and [angular.y] of the command are
    left as they were. *)
Theorem computeVelocityCommands_true (Planner : Type)
    (env : DWAPlannerROS.Collaborators Planner) (dp : Planner)
    (cmd_vel : BaseLocalPlanner.Twist) :
  let out := DWAPlannerROS.computeVelocityCommands Planner env dp cmd_vel in
  let traj := DWAPlannerROS.sampled Planner env dp in
  (DWAPlannerROS.result Planner out = true ->
   (0 <= BaseLocalPlanner.cost_ traj)%Q /\
   DWAPlannerROS.cmd_vel_out Planner out =
     BaseLocalPlanner.mkTwist (BaseLocalPlanner.xv_ traj) (BaseLocalPlanner.yv_ traj)
       (BaseLocalPlanner.linear_z cmd_vel) (BaseLocalPlanner.angular_x cmd_vel)
       (BaseLocalPlanner.angular_y cmd_vel) (BaseLocalPlanner.thetav_ traj) /\
   exists local_plan,
     DWAPlannerROS.published Planner out =
     [DWAPlannerROS.LocalPlan local_plan;
      DWAPlannerROS.LocalTraj (BaseLocalPlanner.points traj)]) /\
  BaseLocalPlanner.linear_z (DWAPlannerROS.cmd_vel_out Planner out) =
    BaseLocalPlanner.linear_z cmd_vel /\
  BaseLocalPlanner.angular_x (DWAPlannerROS.cmd_vel_out Planner out) =
    BaseLocalPlanner.angular_x cmd_vel /\
  BaseLocalPlanner.angular_y (DWAPlannerROS.cmd_vel_out Planner out) =
    BaseLocalPlanner.angular_y cmd_vel.
Proof.
  intros out traj.
  destruct (computeVelocityCommands_cases Planner env dp cmd_vel)
    as [Habort | (Hr & Hc & lp & Hp)]; fold out in Habort || fold out traj in Hr, Hc, Hp.
  - rewrite Habort. cbn. split; [discriminate | repeat split].
  - rewrite Hr, Hc, Hp. unfold DWAPlannerROS.setCmdVel, DWAPlannerROS.publishTrajectory.
    destruct (Qle_bool 0 (BaseLocalPlanner.cost_ traj)) eqn:E; cbn.
    + split; [|repeat split]. intros _. split; [now apply Qle_bool_iff|].
      split; [reflexivity | now exists lp].
    + split; [discriminate | repeat split].
Qed.

(** The sample cycle with a pose returns true with the velocity (1, 0, 1/2). *)
Lemma computeVelocityCommands_true_witness :
  DWAPlannerROS.cmd_vel_out unit
    (DWAPlannerROS.computeVelocityCommands unit (sample_cycle true) tt zero_twist) =
  BaseLocalPlanner.mkTwist 1 0 0 0 0 (1 # 2).
Proof.
  exact (proj1 (proj2 (proj1 (computeVelocityCommands_true unit (sample_cycle true) tt
                                zero_twist) eq_refl))).
Defined.

(** X23.  Without a usable local plan the cycle stops before anything
    happens: if [getLocalPlan] fails or hands back an empty plan,
    [computeVelocityCommands] returns false, leaves the command as it was,
    publishes nothing and does not touch the planner, whatever the pose
    source answered. *)
Theorem computeVelocityCommands_no_plan (Planner : Type)
    (env : DWAPlannerROS.Collaborators Planner) (dp : Planner)
    (cmd_vel : BaseLocalPlanner.Twist) :
  (asked_plan Planner env (DWAPlannerROS.fresh_pose Planner env)
     (DWAPlannerROS.fresh_pose Planner env)).1 = false \/
  (asked_plan Planner env (DWAPlannerROS.fresh_pose Planner env)
     (DWAPlannerROS.fresh_pose Planner env)).2 = [] ->
  DWAPlannerROS.computeVelocityCommands Planner env dp cmd_vel =
  DWAPlannerROS.mkOutcome Planner false cmd_vel [] dp.
Proof.
  intros H. apply computeVelocityCommands_aborted.
  rewrite getRobotStateAndLocalPlan_result.
  destruct (asked_plan Planner env _ _) as [[] [|q plan]]; cbn in *;
    try reflexivity; destruct H; discriminate.
Qed.

(** A cycle whose plan source hands back an empty plan. *)
Definition planless_cycle : DWAPlannerROS.Collaborators unit :=
  DWAPlannerROS.mkCollaborators unit
    true origin_pose (true, origin_pose) origin_pose
    (fun _ => (true, []))
    (true, origin_pose) sample_limits []
    (fun dp _ _ _ => dp)
    (fun _ _ _ => BaseLocalPlanner.mkTrajectory 1 0 (1 # 2) 0 [])
    sample_goal_functions true.

Lemma computeVelocityCommands_no_plan_witness :
  DWAPlannerROS.computeVelocityCommands unit planless_cycle tt zero_twist =
  DWAPlannerROS.mkOutcome unit false zero_twist [] tt.
Proof.
  apply computeVelocityCommands_no_plan. right. reflexivity.
Defined.

(** * Reconfiguration *)

Module DWAPlannerConfig.

Import DWAPlanner DWAPlannerCosts.

(** The eleven parameters that the generated [DWAPlannerConfig] holds for
    one planner state and that [DWAPlanner::reconfigure] reads:
    [<state>_align_scale], [<state>_plan_scale], [<state>_goal_scale],
    [<state>_cmd_scale], [<state>_occ_scale] and [<state>_cmd_px],
    [<state>_cmd_nx], [<state>_cmd_py], [<state>_cmd_ny], [<state>_cmd_pth],
    [<state>_cmd_nth], for <state> one of align, default and arrive. *)
Record StateConfig : Type := mkStateConfig {
  cfg_align_scale : Q;
  cfg_plan_scale : Q;
  cfg_goal_scale : Q;
  cfg_cmd_scale : Q;
  cfg_occ_scale : Q;
  cfg_cmd_px : Q;
  cfg_cmd_nx : Q;
  cfg_cmd_py : Q;
  cfg_cmd_ny : Q;
  cfg_cmd_pth : Q;
  cfg_cmd_nth : Q
}.

(** The fields of [DWAPlannerConfig] that [DWAPlannerROS::reconfigureCB] and
    [DWAPlanner::reconfigure] read. *)
Record Config : Type := mkConfig {
  restore_defaults : bool;
  max_trans_vel : Q;
  min_trans_vel : Q;
  max_vel_x : Q;
  min_vel_x : Q;
  max_vel_y : Q;
  min_vel_y : Q;
  max_rot_vel : Q;
  min_rot_vel : Q;
  acc_lim_x : Q;
  acc_lim_y : Q;
  acc_lim_theta : Q;
  acc_limit_trans : Q;
  xy_goal_tolerance : Q;
  yaw_goal_tolerance : Q;
  trans_stopped_vel : Q;
  rot_stopped_vel : Q;
  prune_plan : bool;
  sim_time : Q;
  sim_period : Q;
  sim_granularity : Q;
  angular_sim_granularity : Q;
  use_dwa : bool;
  vx_samples : Z;
  vy_samples : Z;
  vth_samples : Z;
  switch_yaw_error : Q;
  switch_goal_distance : Q;
  switch_plan_distance : Q;
  align_config : StateConfig;
  default_config : StateConfig;
  arrive_config : StateConfig
}.

(** [config.restore_defaults = b]. *)
Definition set_restore_defaults (c : Config) (b : bool) : Config :=
  mkConfig b (max_trans_vel c) (min_trans_vel c) (max_vel_x c) (min_vel_x c)
    (max_vel_y c) (min_vel_y c) (max_rot_vel c) (min_rot_vel c) (acc_lim_x c)
    (acc_lim_y c) (acc_lim_theta c) (acc_limit_trans c) (xy_goal_tolerance c)
    (yaw_goal_tolerance c) (trans_stopped_vel c) (rot_stopped_vel c) (prune_plan c)
    (sim_time c) (sim_period c) (sim_granularity c) (angular_sim_granularity c)
    (use_dwa c) (vx_samples c) (vy_samples c) (vth_samples c) (switch_yaw_error c)
    (switch_goal_distance c) (switch_plan_distance c) (align_config c)
    (default_config c) (arrive_config c).

(** The fields of [LocalPlannerLimits] that [reconfigureCB] fills. *)
Record Limits : Type := mkLimits {
  lim_max_trans_vel : Q;
  lim_min_trans_vel : Q;
  lim_max_vel_x : Q;
  lim_min_vel_x : Q;
  lim_max_vel_y : Q;
  lim_min_vel_y : Q;
  lim_max_rot_vel : Q;
  lim_min_rot_vel : Q;
  lim_acc_lim_x : Q;
  lim_acc_lim_y : Q;
  lim_acc_lim_theta : Q;
  lim_acc_limit_trans : Q;
  lim_xy_goal_tolerance : Q;
  lim_yaw_goal_tolerance : Q;
  lim_trans_stopped_vel : Q;
  lim_rot_stopped_vel : Q;
  lim_prune_plan : bool;
  lim_lookahead_distance : Q
}.

(** What [DWAPlanner::reconfigure] sets besides the switches and the rows of
    weights: [vsamples_] (the three sample counts), [sim_period_],
    [sim_time_], the arguments of [generator_.setParameters], the three
    command scales [align_cmd_scale_], [default_cmd_scale_],
    [arrive_cmd_scale_], and the arguments of [obstacle_costs_.setParams]. *)
Record Generator : Type := mkGenerator {
  vsamples_ : Z * Z * Z;
  sim_period_ : Q;
  sim_time_ : Q;
  generator_parameters : Q * Q * Q * bool * Q;
  cmd_scales_ : Q * Q * Q;
  obstacle_params : Q * Q * Q
}.

(** The row of weights one state is given. *)
Definition weights_of (s : StateConfig) : Weights :=
  mkWeights (cfg_align_scale s) (cfg_plan_scale s) (cfg_goal_scale s)
    (cfg_occ_scale s)
    (cfg_cmd_px s, cfg_cmd_nx s, cfg_cmd_py s, cfg_cmd_ny s, cfg_cmd_pth s,
     cfg_cmd_nth s).

(** [DWAPlanner::reconfigure].  The static variable of [determineState] and
    what the cost functions were last given are not touched. *)
Definition reconfigure (dp : Planner) (config : Config) : Planner * Generator :=
  (mkPlanner
     (mkSwitches (switch_yaw_error config) (switch_plan_distance config)
        (switch_goal_distance config))
     (weights_of (align_config config)) (weights_of (default_config config))
     (weights_of (arrive_config config)) (prev_state dp) (costs dp),
   mkGenerator
     (vx_samples config, vy_samples config, vth_samples config)
     (sim_period config) (sim_time config)
     (sim_time config, sim_granularity config, angular_sim_granularity config,
      use_dwa config, sim_period config)
     (cfg_cmd_scale (align_config config), cfg_cmd_scale (default_config config),
      cfg_cmd_scale (arrive_config config))
     (acc_lim_x config, acc_lim_y config, max_trans_vel config)).

(** The members [setup_] and [default_config_] of [DWAPlannerROS]. *)
Record Setup : Type := mkSetup {
  setup_ : bool;
  default_config_ : Config
}.

(** One call of [DWAPlannerROS::reconfigureCB]: the members afterwards, the
    configuration handed back through the reference, the two arguments of
    [planner_util_.reconfigureCB], and the planner after
    [dp_->reconfigure]. *)
Record Reconfigured : Type := mkReconfigured {
  setup_out : Setup;
  config_out : Config;
  util_limits : Limits;
  util_restore_defaults : bool;
  dp_out : Planner * Generator
}.

Section Doubles.

(** The product of two doubles. *)
Variable double_mul : Q -> Q -> Q.

(** The limits [reconfigureCB] builds from a configuration. *)
Definition limits_of (config : Config) : Limits :=
  mkLimits (max_trans_vel config) (min_trans_vel config) (max_vel_x config)
    (min_vel_x config) (max_vel_y config) (min_vel_y config) (max_rot_vel config)
    (min_rot_vel config) (acc_lim_x config) (acc_lim_y config)
    (acc_lim_theta config) (acc_limit_trans config) (xy_goal_tolerance config)
    (yaw_goal_tolerance config) (trans_stopped_vel config)
    (rot_stopped_vel config) (prune_plan config)
    (double_mul (max_trans_vel config) (sim_time config)).

(** [DWAPlannerROS::reconfigureCB]. *)
Definition reconfigureCB (st : Setup) (dp : Planner) (config : Config)
  : Reconfigured :=
  let config1 :=
    if setup_ st && restore_defaults config
    then set_restore_defaults (default_config_ st) false
    else config in
  let st1 := if negb (setup_ st) then mkSetup true config1 else st in
  mkReconfigured st1 config1 (limits_of config1) (restore_defaults config1)
    (reconfigure dp config1).

(** A series of calls of [reconfigureCB], each on the members and the planner
    the one before left. *)
Fixpoint reconfigureCBs (st : Setup) (dp : Planner) (configs : list Config)
  : list Reconfigured :=
  match configs with
  | [] => []
  | config :: configs' =>
      let r := reconfigureCB st dp config in
      r :: reconfigureCBs (setup_out r) (dp_out r).1 configs'
  end.

(** What a call on a set-up planner with defaults [defaults] does with
    [config]. *)
Definition after_setup (defaults config : Config) (r : Reconfigured) : Prop :=
  setup_out r = mkSetup true defaults /\
  util_restore_defaults r = false /\
  config_out r =
    (if restore_defaults config then set_restore_defaults defaults false
     else config) /\
  util_limits r = limits_of (config_out r) /\
  (dp_out r).1 = (reconfigure (dp_out r).1 (config_out r)).1.

Lemma reconfigureCB_after_setup (defaults : Config) (dp : Planner) (config : Config) :
  after_setup defaults config (reconfigureCB (mkSetup true defaults) dp config).
Proof.
  unfold after_setup, reconfigureCB. cbn.
  destruct (restore_defaults config) eqn:E; cbn; rewrite ?E; repeat split.
Qed.

Lemma reconfigureCBs_after_setup (defaults : Config) (configs : list Config) :
  forall dp,
  Forall2 (after_setup defaults) configs
    (reconfigureCBs (mkSetup true defaults) dp configs).
Proof.
  induction configs as [|config configs IH]; intros dp; cbn [reconfigureCBs].
  - constructor.
  - pose proof (reconfigureCB_after_setup defaults dp config) as H.
    constructor; [exact H|].
    destruct H as [-> _]. apply IH.
Qed.

End Doubles.

End DWAPlannerConfig.

(** X24.  The first configuration [DWAPlannerROS::reconfigureCB] sees
    becomes the default configuration, passes through unchanged, and stays
    the default for good.  In every later call: a configuration with
    [restore_defaults] set is replaced by the defaults with the flag
    cleared, whatever else it holds, any other configuration passes through
    unchanged; [planner_util_.reconfigureCB] is never told to restore
    defaults; the limits and the planner's switches and weights are those of
    the configuration handed back. *)
Theorem reconfigureCB_defaults (double_mul : Q -> Q -> Q)
    (dp : DWAPlannerCosts.Planner) (before first : DWAPlannerConfig.Config)
    (later : list DWAPlannerConfig.Config) :
  exists r rs,
    DWAPlannerConfig.reconfigureCBs double_mul
      (DWAPlannerConfig.mkSetup false before) dp (first :: later) = r :: rs /\
    DWAPlannerConfig.setup_out r = DWAPlannerConfig.mkSetup true first /\
    DWAPlannerConfig.config_out r = first /\
    Forall2 (DWAPlannerConfig.after_setup double_mul first) later rs.
Proof.
  eexists _, _. split; [reflexivity|]. cbn.
  split; [reflexivity|]. split; [reflexivity|].
  apply DWAPlannerConfig.reconfigureCBs_after_setup.
Qed.

(** X25.  A reconfiguration takes effect at the next update of the plan:
    after [reconfigure], a plan that ends within the configured
    [switch_goal_distance] of the robot gives the cost functions the
    configured arrive scales and command coefficients, and the yaw of the
    plan's last pose as desired orientation. *)
Theorem reconfigure_takes_effect
    (planFromLookahead : list BaseLocalPlanner.Pose -> Q -> list BaseLocalPlanner.Pose)
    (gf : BaseLocalPlanner.GoalFunctions) (dp : DWAPlannerCosts.Planner)
    (config : DWAPlannerConfig.Config)
    (robot_pose front : BaseLocalPlanner.Pose) (rest : list BaseLocalPlanner.Pose)
    (lookahead : Q) (footprint_spec : list (Q * Q)) :
  let plan := front :: rest in
  let back := List.last plan front in
  let arrive := DWAPlannerConfig.arrive_config config in
  (BaseLocalPlanner.getGoalPositionDistance gf robot_pose
     (BaseLocalPlanner.pose_x back) (BaseLocalPlanner.pose_y back) <
   DWAPlannerConfig.switch_goal_distance config)%Q ->
  exists dp',
    DWAPlannerCosts.updatePlanAndLocalCosts planFromLookahead gf
      (DWAPlannerConfig.reconfigure dp config).1 robot_pose plan lookahead
      footprint_spec = Some dp' /\
    DWAPlannerCosts.prev_state dp' = DWAPlanner.Arrive /\
    DWAPlannerCosts.costs dp' =
    DWAPlannerCosts.mkCostFunctions
      (DWAPlannerConfig.cfg_align_scale arrive)
      (DWAPlannerConfig.cfg_plan_scale arrive)
      (DWAPlannerConfig.cfg_goal_scale arrive)
      (DWAPlannerConfig.cfg_occ_scale arrive)
      (BaseLocalPlanner.pose_yaw back)
      (DWAPlannerConfig.cfg_cmd_px arrive, DWAPlannerConfig.cfg_cmd_nx arrive,
       DWAPlannerConfig.cfg_cmd_py arrive, DWAPlannerConfig.cfg_cmd_ny arrive,
       DWAPlannerConfig.cfg_cmd_pth arrive, DWAPlannerConfig.cfg_cmd_nth arrive)
      (planFromLookahead plan lookahead) plan footprint_spec.
Proof.
  intros plan back arrive Hgoal.
  unfold DWAPlannerCosts.updatePlanAndLocalCosts. subst plan.
  cbv beta iota zeta. fold back.
  rewrite determineState_pair.
  rewrite determineState_Arrive by exact Hgoal.
  eexists. split; [reflexivity|]. cbn. split; reflexivity.
Qed.

(** A configuration with switches at 1 and arrive scales 1, 2, 3, 4. *)
Definition sample_config : DWAPlannerConfig.Config :=
  DWAPlannerConfig.mkConfig false 1 0 1 0 1 0 1 0 1 1 1 1 (1 # 10) (1 # 10)
    (1 # 100) (1 # 100) true 2 (1 # 10) (1 # 40) (1 # 40) true 3 3 5 1 1 1
    (DWAPlannerConfig.mkStateConfig 1 0 0 0 1 0 0 0 0 0 0)
    (DWAPlannerConfig.mkStateConfig 0 1 1 0 1 0 1 1 1 0 0)
    (DWAPlannerConfig.mkStateConfig 1 2 3 0 4 0 0 0 0 1 1).

(** The robot at the origin, half a unit from the end of a two-pose plan. *)
Lemma reconfigure_takes_effect_witness :
  exists dp',
    DWAPlannerCosts.updatePlanAndLocalCosts (fun plan _ => plan) sample_goal_functions
      (DWAPlannerConfig.reconfigure sample_planner sample_config).1 origin_pose
      [BaseLocalPlanner.mkPose (1 # 4) 0 1; BaseLocalPlanner.mkPose (1 # 2) 0 2] 0 [] =
    Some dp' /\
    DWAPlannerCosts.obstacle_costs_scale (DWAPlannerCosts.costs dp') = 4%Q.
Proof.
  destruct (reconfigure_takes_effect (fun plan _ => plan) sample_goal_functions
              sample_planner sample_config origin_pose
              (BaseLocalPlanner.mkPose (1 # 4) 0 1) [BaseLocalPlanner.mkPose (1 # 2) 0 2]
              0 [] ltac:(vm_compute; reflexivity))
    as (dp' & H & _ & Hc).
  exists dp'. split; [exact H|]. rewrite Hc. reflexivity.
Defined.

(** X26.  A reconfiguration does not reset the hysteresis.  After
    [reconfigure], on a plan that ends at or beyond the configured
    [switch_goal_distance] and whose yaw error lies in the band above half
    of the configured [switch_yaw_error] and at or below it, the next update
    of the plan is decided by the state remembered from before the
    reconfiguration: a planner that was aligning goes on aligning, with the
    configured align scales and coefficients, any other planner gets the
    configured default ones; both aim at the yaw of the plan's first
    pose. *)
Theorem reconfigure_keeps_hysteresis
    (planFromLookahead : list BaseLocalPlanner.Pose -> Q -> list BaseLocalPlanner.Pose)
    (gf : BaseLocalPlanner.GoalFunctions) (dp : DWAPlannerCosts.Planner)
    (config : DWAPlannerConfig.Config)
    (robot_pose front : BaseLocalPlanner.Pose) (rest : list BaseLocalPlanner.Pose)
    (lookahead : Q) (footprint_spec : list (Q * Q)) :
  let plan := front :: rest in
  let back := List.last plan front in
  let yaw_error :=
    BaseLocalPlanner.getGoalOrientationAngleDifference gf robot_pose
      (BaseLocalPlanner.pose_yaw front) in
  let aligning :=
    DWAPlanner.LocalPlannerState_eqb (DWAPlannerCosts.prev_state dp) DWAPlanner.Align in
  let row :=
    if aligning then DWAPlannerConfig.align_config config
    else DWAPlannerConfig.default_config config in
  ~ (BaseLocalPlanner.getGoalPositionDistance gf robot_pose
       (BaseLocalPlanner.pose_x back) (BaseLocalPlanner.pose_y back) <
     DWAPlannerConfig.switch_goal_distance config)%Q ->
  (DWAPlannerConfig.switch_yaw_error config / 2 < Qabs yaw_error)%Q ->
  (Qabs yaw_error <= DWAPlannerConfig.switch_yaw_error config)%Q ->
  exists dp',
    DWAPlannerCosts.updatePlanAndLocalCosts planFromLookahead gf
      (DWAPlannerConfig.reconfigure dp config).1 robot_pose plan lookahead
      footprint_spec = Some dp' /\
    DWAPlannerCosts.prev_state dp' =
      (if aligning then DWAPlanner.Align else DWAPlanner.Default) /\
    DWAPlannerCosts.costs dp' =
    DWAPlannerCosts.mkCostFunctions
      (DWAPlannerConfig.cfg_align_scale row)
      (DWAPlannerConfig.cfg_plan_scale row)
      (DWAPlannerConfig.cfg_goal_scale row)
      (DWAPlannerConfig.cfg_occ_scale row)
      (BaseLocalPlanner.pose_yaw front)
      (DWAPlannerConfig.cfg_cmd_px row, DWAPlannerConfig.cfg_cmd_nx row,
       DWAPlannerConfig.cfg_cmd_py row, DWAPlannerConfig.cfg_cmd_ny row,
       DWAPlannerConfig.cfg_cmd_pth row, DWAPlannerConfig.cfg_cmd_nth row)
      (planFromLookahead plan lookahead) plan footprint_spec.
Proof.
  intros plan back yaw_error aligning row Hgoal Hhalf Hfull.
  apply Qlt_bool_false_iff in Hgoal. apply Qlt_bool_iff in Hhalf.
  assert (Hlarge : Qlt_bool (DWAPlannerConfig.switch_yaw_error config)
                     (Qabs yaw_error) = false).
  { apply Qlt_bool_false_iff. now apply Qle_not_lt. }
  unfold DWAPlannerCosts.updatePlanAndLocalCosts. subst plan.
  cbv beta iota zeta. fold back yaw_error.
  rewrite determineState_eq.
  unfold DWAPlannerConfig.reconfigure.
  cbn [fst DWAPlannerCosts.switches DWAPlannerCosts.prev_state
       DWAPlanner.switch_goal_distance_ DWAPlanner.switch_yaw_error_].
  rewrite Hgoal, Hhalf, Hlarge. fold aligning. cbn [orb]. rewrite andb_true_r.
  subst row. destruct aligning; eexists; (split; [reflexivity|]); cbn;
    split; reflexivity.
Qed.

(** The sample planner after a cycle in [Align]. *)
Definition aligning_planner : DWAPlannerCosts.Planner :=
  DWAPlannerCosts.mkPlanner
    (DWAPlannerCosts.switches sample_planner)
    (DWAPlannerCosts.align_weights sample_planner)
    (DWAPlannerCosts.default_weights sample_planner)
    (DWAPlannerCosts.arrive_weights sample_planner)
    DWAPlanner.Align
    (DWAPlannerCosts.costs sample_planner).

(** The robot at the origin, two units from the end of a plan whose first
    pose is turned by 3/4, inside the band between 1/2 and 1: the planner
    that was aligning stays in [Align] under the new configuration. *)
Lemma reconfigure_keeps_hysteresis_witness :
  exists dp',
    DWAPlannerCosts.updatePlanAndLocalCosts (fun plan _ => plan) sample_goal_functions
      (DWAPlannerConfig.reconfigure aligning_planner sample_config).1 origin_pose
      [BaseLocalPlanner.mkPose (1 # 4) 0 (3 # 4); BaseLocalPlanner.mkPose 2 0 2] 0 [] =
    Some dp' /\
    DWAPlannerCosts.prev_state dp' = DWAPlanner.Align /\
    DWAPlannerCosts.alignment_costs_scale (DWAPlannerCosts.costs dp') = 1%Q.
Proof.
  destruct (reconfigure_keeps_hysteresis (fun plan _ => plan) sample_goal_functions
              aligning_planner sample_config origin_pose
              (BaseLocalPlanner.mkPose (1 # 4) 0 (3 # 4)) [BaseLocalPlanner.mkPose 2 0 2]
              0 [] ltac:(vm_compute; discriminate) ltac:(vm_compute; reflexivity)
              ltac:(vm_compute; discriminate))
    as (dp' & H & Hs & Hc).
  exists dp'. split; [exact H|]. split; [exact Hs|]. rewrite Hc. reflexivity.
Defined.

(** * From a snapshot to the master grid *)

Section SnapshotToMaster.

Import StaticLayer.

(** The resize policy of [incomingMap] touches no flag of the layer, and
    leaves a rolling costmap rolling. *)
Lemma incomingMap_resize_flags (w : World) (s : OccupancyGrid) :
  let w1 := incomingMap_resize w s in
  enabled_ (layer w1) = enabled_ (layer w) /\
  use_maximum_ (layer w1) = use_maximum_ (layer w) /\
  track_unknown_space_ (layer w1) = track_unknown_space_ (layer w) /\
  LayeredCostmap.rolling (layered_costmap_ w1) =
  LayeredCostmap.rolling (layered_costmap_ w).
Proof.
  unfold incomingMap_resize.
  destruct (negb (LayeredCostmap.rolling (layered_costmap_ w)) && _);
    [cbn; repeat split|].
  destruct (_ || _); cbn; repeat split.
Qed.

(** A cell of the private grid after a readable snapshot. *)
Lemma incomingMap_cell_stored (w w' : World) (s : OccupancyGrid) (mx my : Z) :
  readable s -> Costmap2D.shaped (grid (layer w)) ->
  incomingMap w s = Some w' ->
  0 <= mx < info_width s -> 0 <= my < info_height s ->
  exists v,
    data s !! Z.to_nat (my * info_width s + mx) = Some v /\
    Costmap2D.getCost (grid (layer w')) mx my =
    Some (interpretValue (layer w) (to_uchar v)).
Proof.
  intros Hr Hs Hinc Hmx Hmy.
  pose proof (incomingMap_result w s Hr Hs) as Hres. cbv zeta in Hres.
  rewrite Hres in Hinc. injection Hinc as <-.
  destruct Hr as (Hw & Hh & Hint & Hdata).
  destruct (incomingMap_resize_shape w s Hw Hh Hs) as (Hx & _ & _ & _).
  cbv zeta in Hx.
  assert (Hk : 0 <= my * info_width s + mx < info_width s * info_height s) by nia.
  destruct (lookup_lt_is_Some_2 (data s) (Z.to_nat (my * info_width s + mx))
              ltac:(lia)) as [v Hv].
  exists v. split; [exact Hv|].
  unfold Costmap2D.getCost, Costmap2D.getIndex. cbn. rewrite Hx.
  destruct (decide _) as [_ | Hn]; [|lia].
  rewrite list_lookup_fmap, lookup_take_lt by lia. now rewrite Hv.
Qed.

End SnapshotToMaster.

(** X27.  From the topic to the master grid.  Under a rolling costmap, with
    the layer enabled and overwriting ([use_maximum] off): after a readable
    snapshot and an [updateCosts] over a rectangle inside the master's rows,
    a master cell of the rectangle that projects to cell [(mx, my)] of the
    snapshot holds the interpretation of snapshot cell
    [data[my * width + mx]], unless that is NO_INFO, in which case the master
    cell keeps its value. *)
Theorem snapshot_reaches_master
    (mapToWorld : Costmap2D.t -> Z -> Z -> Q * Q)
    (worldToMap : Costmap2D.t -> Q -> Q -> option (Z * Z))
    (w w' : StaticLayer.World) (s : StaticLayer.OccupancyGrid)
    (master_grid master_grid' : Costmap2D.t) (min_i min_j max_i max_j : Z)
    (x y mx my old : Z) :
  readable s -> Costmap2D.shaped (StaticLayer.grid (StaticLayer.layer w)) ->
  LayeredCostmap.rolling (StaticLayer.layered_costmap_ w) = true ->
  StaticLayer.enabled_ (StaticLayer.layer w) = true ->
  StaticLayer.use_maximum_ (StaticLayer.layer w) = false ->
  StaticLayer.incomingMap w s = Some w' ->
  0 <= min_i < 2 ^ 32 -> 0 <= max_i <= Costmap2D.size_x_ master_grid ->
  Costmap2D.size_x_ master_grid < 2 ^ 32 ->
  0 <= min_j < 2 ^ 32 -> 0 <= max_j < 2 ^ 32 ->
  StaticLayer.updateCosts mapToWorld worldToMap (StaticLayer.layer w')
    (StaticLayer.layered_costmap_ w') master_grid min_i min_j max_i max_j =
    Some master_grid' ->
  min_i <= x < max_i -> min_j <= y < max_j ->
  Costmap2D.getCost master_grid x y = Some old ->
  worldToMap (StaticLayer.grid (StaticLayer.layer w'))
    (mapToWorld (LayeredCostmap.costmap (StaticLayer.layered_costmap_ w')) x y).1
    (mapToWorld (LayeredCostmap.costmap (StaticLayer.layered_costmap_ w')) x y).2 =
    Some (mx, my) ->
  0 <= mx < StaticLayer.info_width s -> 0 <= my < StaticLayer.info_height s ->
  exists v,
    StaticLayer.data s !! Z.to_nat (my * StaticLayer.info_width s + mx) = Some v /\
    Costmap2D.getCost master_grid' x y =
    Some (let cost := StaticLayer.interpretValue (StaticLayer.layer w) (to_uchar v) in
          if cost =? NO_INFORMATION then old else cost).
Proof.
  intros Hr Hs Hroll He Hmax Hinc Hi0 Hi1 Hsx Hj0 Hj1 Hupd Hx Hy Hold Hproj Hmx Hmy.
  destruct (incomingMap_cell_stored w w' s mx my Hr Hs Hinc Hmx Hmy) as (v & Hv & Hcell).
  exists v. split; [exact Hv|].
  destruct (incomingMap_resize_flags w s) as (He1 & Hmax1 & _ & Hroll1).
  pose proof (incomingMap_result w s Hr Hs) as Hres. cbv zeta in Hres.
  rewrite Hres in Hinc. injection Hinc as Hw'.
  assert (Hflags : StaticLayer.enabled_ (StaticLayer.layer w') = true /\
                   StaticLayer.map_received_ (StaticLayer.layer w') = true /\
                   StaticLayer.use_maximum_ (StaticLayer.layer w') = false /\
                   LayeredCostmap.rolling (StaticLayer.layered_costmap_ w') = true).
  { rewrite <- Hw'. cbn. rewrite He1, Hmax1, Hroll1. auto. }
  destruct Hflags as (He' & Hm' & Hmax' & Hroll').
  unfold StaticLayer.updateCosts in Hupd.
  rewrite He', Hm', Hroll' in Hupd. cbn [negb] in Hupd.
  rewrite !to_uint_small in Hupd by lia.
  rewrite (updateCosts_rounds mapToWorld worldToMap _ _ master_grid min_i min_j
             max_i max_j ltac:(lia) ltac:(lia) ltac:(lia) master_grid' Hupd x y
             ltac:(lia) ltac:(lia)).
  destruct (decide _) as [_ | Hn]; [|lia].
  rewrite Hold. cbn [mbind option_bind]. unfold rolled_value.
  destruct (mapToWorld _ x y) as [wx wy]. cbn [fst snd] in Hproj.
  rewrite Hproj, Hcell. cbn [mbind option_bind]. rewrite Hmax'. cbn [negb].
  cbv zeta.
  rewrite (to_uchar_octet (StaticLayer.interpretValue (StaticLayer.layer w) (to_uchar v)))
    by apply interpretValue_octet.
  reflexivity.
Qed.

(** The rolling 2 x 1 master [7; 7] after the snapshot [100; -1] of the same
    shape: the lethal cell arrives, the unknown one leaves 7. *)
Lemma snapshot_reaches_master_witness :
  exists v,
    [100; -1] !! Z.to_nat (0 * 2 + 0) = Some v /\
    Costmap2D.getCost (unit_grid 2 1 [254; 7]) 0 0 =
    Some (let cost :=
            StaticLayer.interpretValue (StaticLayer.layer rolling_world) (to_uchar v) in
          if cost =? NO_INFORMATION then 7 else cost).
Proof.
  apply (snapshot_reaches_master centre_mapToWorld floor_worldToMap rolling_world
           (StaticLayer.mkWorld
              (StaticLayer.mk (Costmap2D.mk 2 1 1 0 0 0 [254; 255]) 0 0 2 1 true true
                 true false true false true 100 255)
              (LayeredCostmap.mk (unit_grid 4 4 (replicate 16 0)) true true))
           (StaticLayer.mkOccupancyGrid 2 1 1 0 0 [100; -1])
           (unit_grid 2 1 [7; 7]) (unit_grid 2 1 [254; 7]) 0 0 2 1 0 0 0 0 7).
  - unfold readable. simpl. lia.
  - unfold Costmap2D.shaped. simpl. lia.
  - reflexivity.
  - reflexivity.
  - reflexivity.
  - vm_compute. reflexivity.
  - lia.
  - simpl. lia.
  - vm_compute. reflexivity.
  - lia.
  - lia.
  - vm_compute. reflexivity.
  - lia.
  - lia.
  - vm_compute. reflexivity.
  - vm_compute. reflexivity.
  - simpl. lia.
  - simpl. lia.
Defined.
